(** * serPy: the SER codec ([serPy/serPy.py]), embedded and verified

    The development follows the Python module: byte strings are lists of
    [Byte.byte], Python integers are [Z], Python [str] values are lists of
    Unicode code points, NumPy arrays are a dtype, a shape and the raw
    buffer, and exceptions are values of an [outcome] type.  File input and
    output are threaded explicitly as the byte content of the stream. *)

From Stdlib Require Import ZArith List Lia Bool String Ascii.
From Stdlib.Strings Require Import Byte.
From Stdlib Require DecimalString.
Import ListNotations.
Local Open Scope Z_scope.

(** ** Bytes and byte strings *)

Module Bytes.

Definition byte_of_Z (z : Z) : byte :=
  match Byte.of_N (Z.to_N (z mod 256)) with
  | Some b => b
  | None => x00
  end.

Definition Z_of_byte (b : byte) : Z := Z.of_N (Byte.to_N b).

Fixpoint eqb (a b : list byte) : bool :=
  match a, b with
  | [], [] => true
  | x :: a', y :: b' => Byte.eqb x y && eqb a' b'
  | _, _ => false
  end.

Definition is_empty (a : list byte) : bool :=
  match a with [] => true | _ :: _ => false end.

(** Little-endian unsigned integers on [n] bytes. *)
Fixpoint le_bytes (n : nat) (z : Z) : list byte :=
  match n with
  | O => []
  | S k => byte_of_Z z :: le_bytes k (z / 256)
  end.

Fixpoint le_int (bs : list byte) : Z :=
  match bs with
  | [] => 0
  | b :: r => Z_of_byte b + 256 * le_int r
  end.

Definition len (bs : list byte) : Z := Z.of_nat (List.length bs).

End Bytes.

(** ** Exceptions *)

Inductive numpy_failure :=
| BufferSizeNotMultiple                         (* np.frombuffer *)
| CannotReshape (size : Z) (newshape : list Z). (* ndarray.reshape *)

Inductive exception :=
| ValueError (msg : string)        (* [raise ValueError(msg)] in serPy.py *)
| StructError                      (* struct.error, from struct.pack / unpack *)
| UnicodeEncodeError               (* str.encode("utf-8") *)
| UnicodeDecodeError               (* bytes.decode("utf-8") *)
| KeyError (key : string)          (* a dict lookup on a missing key *)
| NumpyValueError (why : numpy_failure). (* ValueError raised inside NumPy *)

Inductive outcome (A : Type) :=
| Ok (a : A)
| Raise (e : exception).
Arguments Ok {A} a.
Arguments Raise {A} e.

Definition obind {A B} (m : outcome A) (k : A -> outcome B) : outcome B :=
  match m with
  | Ok a => k a
  | Raise e => Raise e
  end.

Declare Scope outcome_scope.
Delimit Scope outcome_scope with outcome.
Notation "x <- m ;; k" := (obind m (fun x => k))
  (at level 100, m at next level, right associativity) : outcome_scope.
Notation "' p <- m ;; k" := (obind m (fun x => let p := x in k))
  (at level 100, p pattern, m at next level, right associativity) : outcome_scope.

(** ** An open file: the bytes of the stream, and an outcome

    For a file opened with ["wb"] the state is what has been written so
    far; for a file opened with ["rb"] it is what is left to read. The state
    survives an exception: the [with] block closes the file on the way out. *)

Definition io (A : Type) : Type := list byte -> list byte * outcome A.

Module IO.

Definition ret {A} (a : A) : io A := fun s => (s, Ok a).

Definition raise {A} (e : exception) : io A := fun s => (s, Raise e).

Definition bind {A B} (m : io A) (k : A -> io B) : io B :=
  fun s => match m s with
           | (s', Ok a) => k a s'
           | (s', Raise e) => (s', Raise e)
           end.

Definition lift {A} (m : outcome A) : io A := fun s => (s, m).

(** [f.write(data)] appends to the stream. *)
Definition write (data : list byte) : io unit :=
  fun s => (s ++ data, Ok tt).

(** [f.read(n)]: up to [n] bytes; a negative [n] reads to the end.
    CPython refuses an [n] above [sys.maxsize] with [OverflowError]; the
    model reads on, so what is stated about the kind of failure of such a
    read carries the bound [maxsize] below. *)
Definition read (n : Z) : io (list byte) :=
  fun s => if n <? 0 then ([], Ok s)
           else (skipn (Z.to_nat n) s, Ok (firstn (Z.to_nat n) s)).

(** [f.read()]: everything that is left. *)
Definition read_all : io (list byte) := fun s => ([], Ok s).

End IO.

Declare Scope io_scope.
Delimit Scope io_scope with io.
Notation "x <- m ;; k" := (IO.bind m (fun x => k))
  (at level 100, m at next level, right associativity) : io_scope.
Notation "m ;;; k" := (IO.bind m (fun _ => k))
  (at level 100, right associativity) : io_scope.


(** ** The [struct] module, for the formats serPy uses *)

Module Struct.

(** ["<I"]: unsigned 32-bit, little-endian. *)
Definition pack_I (z : Z) : outcome (list byte) :=
  if (0 <=? z) && (z <? 2 ^ 32) then Ok (Bytes.le_bytes 4 z) else Raise StructError.

(** ["<Q"]: unsigned 64-bit, little-endian. *)
Definition pack_Q (z : Z) : outcome (list byte) :=
  if (0 <=? z) && (z <? 2 ^ 64) then Ok (Bytes.le_bytes 8 z) else Raise StructError.

(** ["<ns"]: a byte string cut or right-padded with NUL to [n] bytes. *)
Definition pack_s (n : nat) (bs : list byte) : list byte :=
  firstn n bs ++ repeat x00 (n - List.length bs).

(** [struct.unpack("<Q", b)[0]] *)
Definition unpack_Q (bs : list byte) : outcome Z :=
  if Nat.eqb (List.length bs) 8 then Ok (Bytes.le_int bs) else Raise StructError.

(** [struct.unpack_from("<Q", buf, offset)[0]] *)
Definition unpack_from_Q (buf : list byte) (offset : nat) : outcome Z :=
  if Nat.leb (offset + 8) (List.length buf)
  then Ok (Bytes.le_int (firstn 8 (skipn offset buf)))
  else Raise StructError.

(** [header_format = "<14sIIIIIII40s40s40s8s8s"] *)
Definition header_size : nat := 14 + 7 * 4 + 3 * 40 + 2 * 8.

Record header_fields := {
  h_file_id : list byte;
  h_lu_id : Z;
  h_color_id : Z;
  h_little_endian : Z;
  h_image_width : Z;
  h_image_height : Z;
  h_pixel_depth : Z;
  h_frame_count : Z;
  h_observer : list byte;
  h_instrument : list byte;
  h_telescope : list byte;
  h_date_time : list byte;
  h_date_time_utc : list byte
}.

(** [struct.pack(header_format, ...)]: the fields are packed in order, so
    the first integer out of range is the one that raises. *)
Definition pack_header (f : header_fields) : outcome (list byte) :=
  (b1 <- pack_I (h_lu_id f) ;;
   b2 <- pack_I (h_color_id f) ;;
   b3 <- pack_I (h_little_endian f) ;;
   b4 <- pack_I (h_image_width f) ;;
   b5 <- pack_I (h_image_height f) ;;
   b6 <- pack_I (h_pixel_depth f) ;;
   b7 <- pack_I (h_frame_count f) ;;
   Ok (pack_s 14 (h_file_id f) ++ b1 ++ b2 ++ b3 ++ b4 ++ b5 ++ b6 ++ b7
       ++ pack_s 40 (h_observer f) ++ pack_s 40 (h_instrument f)
       ++ pack_s 40 (h_telescope f)
       ++ pack_s 8 (h_date_time f) ++ pack_s 8 (h_date_time_utc f)))%outcome.

Definition slice (off n : nat) (bs : list byte) : list byte :=
  firstn n (skipn off bs).

(** [struct.unpack(header_format, header)]: the buffer must have exactly
    the size of the format. *)
Definition unpack_header (bs : list byte) : outcome header_fields :=
  if Nat.eqb (List.length bs) header_size then
    Ok {| h_file_id := slice 0 14 bs;
          h_lu_id := Bytes.le_int (slice 14 4 bs);
          h_color_id := Bytes.le_int (slice 18 4 bs);
          h_little_endian := Bytes.le_int (slice 22 4 bs);
          h_image_width := Bytes.le_int (slice 26 4 bs);
          h_image_height := Bytes.le_int (slice 30 4 bs);
          h_pixel_depth := Bytes.le_int (slice 34 4 bs);
          h_frame_count := Bytes.le_int (slice 38 4 bs);
          h_observer := slice 42 40 bs;
          h_instrument := slice 82 40 bs;
          h_telescope := slice 122 40 bs;
          h_date_time := slice 162 8 bs;
          h_date_time_utc := slice 170 8 bs |}
  else Raise StructError.

End Struct.

(** ** Python [str]: a sequence of Unicode code points *)

Module Str.

Definition str := list Z.

(** An ASCII literal of the source. *)
Definition of_string (s : string) : str :=
  map Bytes.Z_of_byte (list_byte_of_string s).

Fixpoint eqb (a b : str) : bool :=
  match a, b with
  | [], [] => true
  | x :: a', y :: b' => (x =? y) && eqb a' b'
  | _, _ => false
  end.

(** [s.encode("utf-8")], strict: surrogates are refused. *)
Definition encode_char (c : Z) : outcome (list byte) :=
  if c <? 0 then Raise UnicodeEncodeError
  else if c <? 0x80 then Ok [Bytes.byte_of_Z c]
  else if c <? 0x800 then
    Ok [Bytes.byte_of_Z (0xC0 + c / 64); Bytes.byte_of_Z (0x80 + c mod 64)]
  else if c <? 0x10000 then
    if (0xD800 <=? c) && (c <=? 0xDFFF) then Raise UnicodeEncodeError
    else Ok [Bytes.byte_of_Z (0xE0 + c / 4096);
             Bytes.byte_of_Z (0x80 + (c / 64) mod 64);
             Bytes.byte_of_Z (0x80 + c mod 64)]
  else if c <? 0x110000 then
    Ok [Bytes.byte_of_Z (0xF0 + c / 262144);
        Bytes.byte_of_Z (0x80 + (c / 4096) mod 64);
        Bytes.byte_of_Z (0x80 + (c / 64) mod 64);
        Bytes.byte_of_Z (0x80 + c mod 64)]
  else Raise UnicodeEncodeError.

Fixpoint encode (s : str) : outcome (list byte) :=
  match s with
  | [] => Ok []
  | c :: r =>
      (bs <- encode_char c ;;
       rest <- encode r ;;
       Ok (bs ++ rest))%outcome
  end.

Definition in_range (lo hi : Z) (b : byte) : bool :=
  (lo <=? Bytes.Z_of_byte b) && (Bytes.Z_of_byte b <=? hi).

Definition cont_bits (b : byte) : Z := Bytes.Z_of_byte b - 0x80.

(** [b.decode("utf-8")], strict: only well-formed sequences (no overlong
    form, no surrogate, nothing above U+10FFFF) are accepted. *)
Fixpoint decode (bs : list byte) : outcome str :=
  match bs with
  | [] => Ok []
  | b0 :: r0 =>
      let z0 := Bytes.Z_of_byte b0 in
      if z0 <? 0x80 then
        (s <- decode r0 ;; Ok (z0 :: s))%outcome
      else if z0 <? 0xC2 then Raise UnicodeDecodeError
      else if z0 <? 0xE0 then
        match r0 with
        | b1 :: r1 =>
            if in_range 0x80 0xBF b1 then
              (s <- decode r1 ;;
               Ok (((z0 - 0xC0) * 64 + cont_bits b1) :: s))%outcome
            else Raise UnicodeDecodeError
        | _ => Raise UnicodeDecodeError
        end
      else if z0 <? 0xF0 then
        match r0 with
        | b1 :: b2 :: r2 =>
            if in_range (if z0 =? 0xE0 then 0xA0 else 0x80)
                        (if z0 =? 0xED then 0x9F else 0xBF) b1
               && in_range 0x80 0xBF b2 then
              (s <- decode r2 ;;
               Ok (((z0 - 0xE0) * 4096 + cont_bits b1 * 64 + cont_bits b2) :: s))%outcome
            else Raise UnicodeDecodeError
        | _ => Raise UnicodeDecodeError
        end
      else if z0 <? 0xF5 then
        match r0 with
        | b1 :: b2 :: b3 :: r3 =>
            if in_range (if z0 =? 0xF0 then 0x90 else 0x80)
                        (if z0 =? 0xF4 then 0x8F else 0xBF) b1
               && in_range 0x80 0xBF b2 && in_range 0x80 0xBF b3 then
              (s <- decode r3 ;;
               Ok (((z0 - 0xF0) * 262144 + cont_bits b1 * 4096
                    + cont_bits b2 * 64 + cont_bits b3) :: s))%outcome
            else Raise UnicodeDecodeError
        | _ => Raise UnicodeDecodeError
        end
      else Raise UnicodeDecodeError
  end.

(** The characters [str.strip()] removes (those with [str.isspace()]). *)
Definition isspace (c : Z) : bool :=
  ((0x09 <=? c) && (c <=? 0x0D)) || ((0x1C <=? c) && (c <=? 0x20))
  || (c =? 0x85) || (c =? 0xA0) || (c =? 0x1680)
  || ((0x2000 <=? c) && (c <=? 0x200A))
  || (c =? 0x2028) || (c =? 0x2029) || (c =? 0x202F)
  || (c =? 0x205F) || (c =? 0x3000).

Definition isnul (c : Z) : bool := c =? 0.

Fixpoint lstrip_chars (p : Z -> bool) (s : str) : str :=
  match s with
  | [] => []
  | c :: r => if p c then lstrip_chars p r else s
  end.

Definition rstrip_chars (p : Z -> bool) (s : str) : str :=
  rev (lstrip_chars p (rev s)).

(** [s.rstrip("\x00")] *)
Definition rstrip_nul (s : str) : str := rstrip_chars isnul s.

(** [s.strip()] *)
Definition strip (s : str) : str := rstrip_chars isspace (lstrip_chars isspace s).

(** [repr] of an integer and of a tuple of integers, as an f-string
    formats them. *)
Definition repr_int (z : Z) : string :=
  DecimalString.NilZero.string_of_int (Z.to_int z).

Fixpoint join_ints (l : list Z) : string :=
  match l with
  | [] => EmptyString
  | [z] => repr_int z
  | z :: r => repr_int z ++ ", " ++ join_ints r
  end.

Definition repr_tuple (l : list Z) : string :=
  match l with
  | [z] => "(" ++ repr_int z ++ ",)"
  | _ => "(" ++ join_ints l ++ ")"
  end.

End Str.

(** ** NumPy arrays of unsigned samples

    An array is its dtype, its shape and its C-contiguous buffer. [tobytes]
    and [frombuffer] copy the buffer as it is, in the byte order of the
    host; conversions between sample widths are written for a little-endian
    host (low byte first). Frames of other dtypes are outside the model. *)

Module Np.

Inductive dtype := uint8 | uint16.

Definition itemsize (d : dtype) : Z :=
  match d with uint8 => 1 | uint16 => 2 end.

Definition dtype_eqb (a b : dtype) : bool :=
  match a, b with
  | uint8, uint8 | uint16, uint16 => true
  | _, _ => false
  end.

Record ndarray := {
  arr_dtype : dtype;
  shape : list Z;
  buffer : list byte
}.

Definition prod (l : list Z) : Z := fold_right Z.mul 1 l.

Definition size (a : ndarray) : Z := prod (shape a).

Fixpoint shape_eqb (a b : list Z) : bool :=
  match a, b with
  | [], [] => true
  | x :: a', y :: b' => (x =? y) && shape_eqb a' b'
  | _, _ => false
  end.

(** Widening a [uint8] buffer: each sample gets a zero high byte. *)
Definition widen (bs : list byte) : list byte :=
  flat_map (fun b => [b; x00]) bs.

(** Narrowing a [uint16] buffer keeps the low byte of each sample. *)
Fixpoint narrow (bs : list byte) : list byte :=
  match bs with
  | lo :: _ :: r => lo :: narrow r
  | _ => []
  end.

(** [a.astype(d)] *)
Definition astype (a : ndarray) (d : dtype) : ndarray :=
  match arr_dtype a, d with
  | uint8, uint16 =>
      {| arr_dtype := uint16; shape := shape a; buffer := widen (buffer a) |}
  | uint16, uint8 =>
      {| arr_dtype := uint8; shape := shape a; buffer := narrow (buffer a) |}
  | _, _ => a
  end.

(** [a.tobytes()] *)
Definition tobytes (a : ndarray) : list byte := buffer a.

(** [np.frombuffer(data, dtype=d)]: a one-dimensional array over [data]. *)
Definition frombuffer (data : list byte) (d : dtype) : outcome ndarray :=
  if Bytes.len data mod itemsize d =? 0 then
    Ok {| arr_dtype := d; shape := [Bytes.len data / itemsize d]; buffer := data |}
  else Raise (NumpyValueError BufferSizeNotMultiple).

(** [a.reshape(newshape)], for the non-negative dimensions a header
    holds: the number of elements must not change. *)
Definition reshape (a : ndarray) (newshape : list Z) : outcome ndarray :=
  if size a =? prod newshape then
    Ok {| arr_dtype := arr_dtype a; shape := newshape; buffer := buffer a |}
  else Raise (NumpyValueError (CannotReshape (size a) newshape)).

End Np.

(** ** serPy.py *)

Import Np.

(** The metadata dictionary. [file_id] is the one key whose presence the
    code tests; the other twelve are looked up unconditionally, and the
    record stands for a dictionary that has them. With one of them missing
    [write_ser] raises [KeyError]: at lines 133-136, before the file is
    opened, for [image_height], [image_width], [pixel_depth] and
    [frame_count]; inside [struct.pack], with the file opened and empty, for
    the others. *)
Record Metadata := {
  file_id : option Str.str;
  lu_id : Z;
  color_id : Z;
  little_endian : bool;
  image_width : Z;
  image_height : Z;
  pixel_depth : Z;
  frame_count : Z;
  observer : Str.str;
  instrument : Str.str;
  telescope : Str.str;
  date_time : Z;
  date_time_utc : Z
}.

Definition LUCAM_RECORDER : string := "LUCAM-RECORDER".

(** [dtype = np.uint8 if pixel_depth == 8 else np.uint16] (both functions) *)
Definition dtype_for (pixel_depth : Z) : dtype :=
  if pixel_depth =? 8 then uint8 else uint16.

(** *** write_ser *)

(** ["file_id" not in metadata or metadata["file_id"] != "LUCAM-RECORDER"] *)
Definition file_id_invalid (metadata : Metadata) : bool :=
  match file_id metadata with
  | None => true
  | Some s => negb (Str.eqb s (Str.of_string LUCAM_RECORDER))
  end.

(** The arguments of [struct.pack(header_format, ...)] are evaluated left to
    right, then packed. *)
Definition pack_metadata (metadata : Metadata)
    (frame_width frame_height pixel_depth frame_count : Z) : outcome (list byte) :=
  (fid <- match file_id metadata with
          | Some s => Str.encode s
          | None => Raise (KeyError "file_id")
          end ;;
   obs <- Str.encode (observer metadata) ;;
   ins <- Str.encode (instrument metadata) ;;
   tel <- Str.encode (telescope metadata) ;;
   dt <- Struct.pack_Q (date_time metadata) ;;
   dtu <- Struct.pack_Q (date_time_utc metadata) ;;
   Struct.pack_header
     {| Struct.h_file_id := fid;
        Struct.h_lu_id := lu_id metadata;
        Struct.h_color_id := color_id metadata;
        Struct.h_little_endian := if little_endian metadata then 1 else 0;
        Struct.h_image_width := frame_width;
        Struct.h_image_height := frame_height;
        Struct.h_pixel_depth := pixel_depth;
        Struct.h_frame_count := frame_count;
        Struct.h_observer := obs;
        Struct.h_instrument := ins;
        Struct.h_telescope := tel;
        Struct.h_date_time := dt;
        Struct.h_date_time_utc := dtu |})%outcome.

Definition shape_mismatch_msg (sh : list Z) (frame_height frame_width : Z) : string :=
  "Frame dimensions " ++ Str.repr_tuple sh ++ " do not match metadata ("
    ++ Str.repr_int frame_height ++ ", " ++ Str.repr_int frame_width ++ ").".

(** [for frame in frames: ...] *)
Fixpoint write_frames (frames : list ndarray) (frame_height frame_width : Z)
    (dt : dtype) : io unit :=
  match frames with
  | [] => IO.ret tt
  | frame :: rest =>
      if negb (shape_eqb (shape frame) [frame_height; frame_width]) then
        IO.raise (ValueError (shape_mismatch_msg (shape frame) frame_height frame_width))
      else
        (IO.write (tobytes (astype frame dt)) ;;;
         write_frames rest frame_height frame_width dt)%io
  end.

(** [for timestamp in timestamps: ser_file.write(struct.pack("<Q", timestamp))] *)
Fixpoint write_timestamps (timestamps : list Z) : io unit :=
  match timestamps with
  | [] => IO.ret tt
  | timestamp :: rest =>
      (b <- IO.lift (Struct.pack_Q timestamp) ;;
       IO.write b ;;;
       write_timestamps rest)%io
  end.

(** The body of [with open(output_path, "wb") as ser_file]. *)
Definition write_body (metadata : Metadata) (frames : list ndarray)
    (timestamps : option (list Z))
    (frame_height frame_width pixel_depth frame_count : Z) (dt : dtype) : io unit :=
  (header <- IO.lift (pack_metadata metadata frame_width frame_height
                                    pixel_depth frame_count) ;;
   IO.write header ;;;
   write_frames frames frame_height frame_width dt ;;;
   match timestamps with
   | Some ((_ :: _) as ts) =>       (* [if timestamps:] an empty list is falsy *)
       if negb (Z.of_nat (List.length ts) =? frame_count) then
         IO.raise (ValueError "Number of timestamps does not match frame_count.")
       else write_timestamps ts
   | _ => IO.ret tt
   end)%io.

(** [write_ser(output_path, metadata, frames, timestamps=None)].

    The first component is what the call did to the destination: [None]
    when the file was never opened, [Some content] when it was opened with
    ["wb"] (created or emptied) and holds [content] when it is closed. The
    second is the call's outcome. The closing [print] is not modelled. *)
Definition write_ser (metadata : Metadata) (frames : list ndarray)
    (timestamps : option (list Z)) : option (list byte) * outcome unit :=
  if file_id_invalid metadata then
    (None, Raise (ValueError "Invalid metadata: file_id must be 'LUCAM-RECORDER'."))
  else
    let frame_height := image_height metadata in
    let frame_width := image_width metadata in
    let pixel_depth := pixel_depth metadata in
    let frame_count := frame_count metadata in
    if negb (Z.of_nat (List.length frames) =? frame_count) then
      (None, Raise (ValueError "Number of frames does not match frame_count in metadata."))
    else
      let dt := dtype_for pixel_depth in
      let (content, result) :=
        write_body metadata frames timestamps
                   frame_height frame_width pixel_depth frame_count dt [] in
      (Some content, result).

(** *** read_ser *)

(** [_decode_field]: decode, drop trailing NULs, then surrounding blanks. *)
Definition _decode_field (value : list byte) : outcome Str.str :=
  (s <- Str.decode value ;; Ok (Str.strip (Str.rstrip_nul s)))%outcome.

(** Lines 194-240: read and unpack the header, check the id, build the
    metadata dictionary. *)
Definition read_header : io Metadata :=
  (header <- IO.read (Z.of_nat Struct.header_size) ;;
   f <- IO.lift (Struct.unpack_header header) ;;
   if negb (Bytes.eqb (Struct.h_file_id f) (list_byte_of_string LUCAM_RECORDER)) then
     IO.raise (ValueError "Invalid SER file: Incorrect File ID.")
   else
     fid <- IO.lift (_decode_field (Struct.h_file_id f)) ;;
     obs <- IO.lift (_decode_field (Struct.h_observer f)) ;;
     ins <- IO.lift (_decode_field (Struct.h_instrument f)) ;;
     tel <- IO.lift (_decode_field (Struct.h_telescope f)) ;;
     dt <- IO.lift (Struct.unpack_Q (Struct.h_date_time f)) ;;
     dtu <- IO.lift (Struct.unpack_Q (Struct.h_date_time_utc f)) ;;
     IO.ret {| file_id := Some fid;
               lu_id := Struct.h_lu_id f;
               color_id := Struct.h_color_id f;
               little_endian := negb (Struct.h_little_endian f =? 0);
               image_width := Struct.h_image_width f;
               image_height := Struct.h_image_height f;
               pixel_depth := Struct.h_pixel_depth f;
               frame_count := Struct.h_frame_count f;
               observer := obs;
               instrument := ins;
               telescope := tel;
               date_time := dt;
               date_time_utc := dtu |})%io.

(** [frame_size = image_width * image_height * (pixel_depth // 8)] *)
Definition frame_size (image_width image_height pixel_depth : Z) : Z :=
  image_width * image_height * (pixel_depth / 8).

Definition EOF_MESSAGE : string := "Unexpected end of file while reading frames.".

(** [for _ in range(frame_count): ...], appending to [frames]. *)
Fixpoint read_frames (n : nat) (frame_size : Z) (dt : dtype)
    (image_height image_width : Z) (frames : list ndarray) : io (list ndarray) :=
  match n with
  | O => IO.ret frames
  | S k =>
      (frame_data <- IO.read frame_size ;;
       if Bytes.is_empty frame_data then IO.raise (ValueError EOF_MESSAGE)
       else
         frame <- IO.lift (frombuffer frame_data dt) ;;
         frame <- IO.lift (reshape frame [image_height; image_width]) ;;
         read_frames k frame_size dt image_height image_width (frames ++ [frame]))%io
  end.

(** [[struct.unpack_from("<Q", remaining_data, i * 8)[0] for i in range(n)]] *)
Fixpoint unpack_timestamps (remaining_data : list byte) (i n : nat) : outcome (list Z) :=
  match n with
  | O => Ok []
  | S k =>
      (t <- Struct.unpack_from_Q remaining_data (i * 8) ;;
       rest <- unpack_timestamps remaining_data (S i) k ;;
       Ok (t :: rest))%outcome
  end.

(** Lines 257-266. *)
Definition read_timestamps (frame_count : Z) : io (option (list Z)) :=
  (remaining_data <- IO.read_all ;;
   if 8 * frame_count <=? Bytes.len remaining_data then
     timestamps <- IO.lift (unpack_timestamps remaining_data 0 (Z.to_nat frame_count)) ;;
     IO.ret (Some timestamps)
   else IO.ret None)%io.

Definition read_body : io (Metadata * list ndarray * option (list Z)) :=
  (metadata <- read_header ;;
   let dt := dtype_for (pixel_depth metadata) in
   let fsize := frame_size (image_width metadata) (image_height metadata)
                           (pixel_depth metadata) in
   frames <- read_frames (Z.to_nat (frame_count metadata)) fsize dt
                         (image_height metadata) (image_width metadata) [] ;;
   timestamps <- read_timestamps (frame_count metadata) ;;
   IO.ret (metadata, frames, timestamps))%io.

(** [read_ser(input_path)], on the content of the file. *)
Definition read_ser (file : list byte)
  : outcome (Metadata * list ndarray * option (list Z)) :=
  snd (read_body file).

(** ** Well-formed arguments

    The conditions the data model puts on what [write_ser] is given, as
    decidable tests. *)

Definition u32 (z : Z) : bool := (0 <=? z) && (z <? 2 ^ 32).

Definition u64 (z : Z) : bool := (0 <=? z) && (z <? 2 ^ 64).

(** The UTF-8 encoding of [s] exists and has at most [width] bytes. *)
Definition fits (width : nat) (s : Str.str) : bool :=
  match Str.encode s with
  | Ok bs => Nat.leb (List.length bs) width
  | Raise _ => false
  end.

(** No blank at either end and no NUL at the end: what [_decode_field]
    leaves unchanged. *)
Definition trimmed (s : Str.str) : bool :=
  match s with
  | [] => true
  | c :: _ => negb (Str.isspace c)
  end
  && match rev s with
     | [] => true
     | c :: _ => negb (Str.isspace c) && negb (Str.isnul c)
     end.

Definition valid_metadata (m : Metadata) : bool :=
  negb (file_id_invalid m)
  && u32 (lu_id m) && u32 (color_id m)
  && (0 <? image_width m) && u32 (image_width m)
  && (0 <? image_height m) && u32 (image_height m)
  && ((pixel_depth m =? 8) || (pixel_depth m =? 16))
  && u32 (frame_count m)
  && fits 40 (observer m) && fits 40 (instrument m) && fits 40 (telescope m)
  && u64 (date_time m) && u64 (date_time_utc m).

Definition trimmed_text (m : Metadata) : bool :=
  trimmed (observer m) && trimmed (instrument m) && trimmed (telescope m).

(** A frame of shape [(image_height, image_width)] whose samples have the
    width [pixel_depth] implies. *)
Definition valid_frame (m : Metadata) (f : ndarray) : bool :=
  dtype_eqb (arr_dtype f) (dtype_for (pixel_depth m))
  && shape_eqb (shape f) [image_height m; image_width m]
  && (Bytes.len (buffer f) =? image_height m * image_width m * itemsize (arr_dtype f)).

Definition valid_frames (m : Metadata) (frames : list ndarray) : bool :=
  (Z.of_nat (List.length frames) =? frame_count m) && forallb (valid_frame m) frames.

Definition valid_timestamps (m : Metadata) (timestamps : option (list Z)) : bool :=
  match timestamps with
  | None => true
  | Some ts => (Z.of_nat (List.length ts) =? frame_count m) && forallb u64 ts
  end.

(** What [read_ser] makes of the text fields of a header. *)
Definition normalise (s : Str.str) : Str.str := Str.strip (Str.rstrip_nul s).

Definition normalise_metadata (m : Metadata) : Metadata :=
  {| file_id := file_id m;
     lu_id := lu_id m;
     color_id := color_id m;
     little_endian := little_endian m;
     image_width := image_width m;
     image_height := image_height m;
     pixel_depth := pixel_depth m;
     frame_count := frame_count m;
     observer := normalise (observer m);
     instrument := normalise (instrument m);
     telescope := normalise (telescope m);
     date_time := date_time m;
     date_time_utc := date_time_utc m |}.

(** The timestamps [read_ser] finds after the frames [write_ser] wrote. *)
Definition timestamps_read_back (m : Metadata) (timestamps : option (list Z))
  : option (list Z) :=
  match timestamps with
  | Some ((_ :: _) as ts) => Some ts
  | _ => if frame_count m =? 0 then Some [] else None
  end.

(** The timestamp block: each value on eight bytes, in order. *)
Definition timestamp_bytes (ts : list Z) : list byte :=
  List.concat (map (Bytes.le_bytes 8) ts).

(** The header [write_ser] packs for [m], given its encoded text fields. *)
Definition header_of (m : Metadata) (obs ins tel : list byte) : list byte :=
  Struct.pack_s 14 (list_byte_of_string LUCAM_RECORDER)
  ++ Bytes.le_bytes 4 (lu_id m) ++ Bytes.le_bytes 4 (color_id m)
  ++ Bytes.le_bytes 4 (if little_endian m then 1 else 0)
  ++ Bytes.le_bytes 4 (image_width m) ++ Bytes.le_bytes 4 (image_height m)
  ++ Bytes.le_bytes 4 (pixel_depth m) ++ Bytes.le_bytes 4 (frame_count m)
  ++ Struct.pack_s 40 obs ++ Struct.pack_s 40 ins ++ Struct.pack_s 40 tel
  ++ Struct.pack_s 8 (Bytes.le_bytes 8 (date_time m))
  ++ Struct.pack_s 8 (Bytes.le_bytes 8 (date_time_utc m)).

(** The bytes [write_ser] appends for its [timestamps] argument. *)
Definition written_timestamps (ts : option (list Z)) : list byte :=
  match ts with
  | Some l => timestamp_bytes l
  | None => []
  end.

(** ** Concrete files

    The metadata of [tests/test_read_write.py], with the geometry and the
    observer left open, and small frames to go with it. *)

Module Examples.

Definition ticks : Z := 637738597820000000.

Definition metadata_of (width height depth nframes : Z) (obs : Str.str) : Metadata :=
  {| file_id := Some (Str.of_string LUCAM_RECORDER);
     lu_id := 1;
     color_id := 0;
     little_endian := true;
     image_width := width;
     image_height := height;
     pixel_depth := depth;
     frame_count := nframes;
     observer := obs;
     instrument := Str.of_string "TestCam";
     telescope := Str.of_string "TestScope";
     date_time := ticks;
     date_time_utc := ticks |}.

Definition tester : Str.str := Str.of_string "Tester".

(** An 8-bit frame of the given shape, filled with [k], [2k], [3k], ... *)
Definition ramp8 (height width k : Z) : ndarray :=
  {| arr_dtype := uint8;
     shape := [height; width];
     buffer := map (fun i => Bytes.byte_of_Z (Z.of_nat (S i) * k))
                   (seq 0 (Z.to_nat (height * width))) |}.

(** A single 16-bit sample, as a 1 x 1 frame. *)
Definition pixel16 (lo hi : byte) : ndarray :=
  {| arr_dtype := uint16; shape := [1; 1]; buffer := [lo; hi] |}.

(** The scenario of the test: three 4 x 5 frames of bytes, three
    increasing timestamps. *)
Definition test_metadata : Metadata := metadata_of 5 4 8 3 tester.
Definition test_frames : list ndarray := [ramp8 4 5 1; ramp8 4 5 3; ramp8 4 5 7].
Definition test_timestamps : list Z := [ticks; ticks + 1; ticks + 2].

(** One frame of one 8-bit pixel, and metadata declaring it. *)
Definition one_pixel : list ndarray := [ramp8 1 1 7].
Definition one_pixel_metadata : Metadata := metadata_of 1 1 8 1 tester.

(** The same with a blank after the observer's name, with an observer of
    41 letters, and with a misspelt file id. *)
Definition padded_metadata : Metadata :=
  metadata_of 1 1 8 1 (Str.of_string "Tester ").
Definition long_observer_metadata : Metadata :=
  metadata_of 1 1 8 1 (repeat 97 41).
Definition wrong_id_metadata : Metadata :=
  {| file_id := Some (Str.of_string "LUCAM_RECORDER");
     lu_id := 1;
     color_id := 0;
     little_endian := true;
     image_width := 1;
     image_height := 1;
     pixel_depth := 8;
     frame_count := 1;
     observer := tester;
     instrument := Str.of_string "TestCam";
     telescope := Str.of_string "TestScope";
     date_time := ticks;
     date_time_utc := ticks |}.

(** Other geometries: no frame at all; depths 12 and 32; two pixels in a
    row; a width of zero. *)
Definition no_frames_metadata : Metadata := metadata_of 5 4 8 0 tester.
Definition depth12_metadata : Metadata := metadata_of 1 1 12 1 tester.
Definition depth32_metadata : Metadata := metadata_of 1 1 32 1 tester.
Definition zero_width_metadata : Metadata := metadata_of 0 4 8 1 tester.

(** What [write_ser] leaves in the destination, or nothing. *)
Definition written (m : Metadata) (frames : list ndarray)
    (ts : option (list Z)) : list byte :=
  match fst (write_ser m frames ts) with
  | Some content => content
  | None => []
  end.

Definition depth32_file : list byte :=
  written depth32_metadata [pixel16 x01 x02] None.
Definition zero_width_file : list byte :=
  written zero_width_metadata [ramp8 4 0 1] None ++ [x01; x02; x03].

End Examples.

(** ** More on what [write_ser] accepts and writes *)

(** [s.encode("utf-8")] succeeds. *)
Definition encodable (s : Str.str) : bool :=
  match Str.encode s with
  | Ok _ => true
  | Raise _ => false
  end.

(** The header can be packed: the right id, text that encodes, integers in
    the range of their format. *)
Definition packable (m : Metadata) : bool :=
  negb (file_id_invalid m)
  && encodable (observer m) && encodable (instrument m) && encodable (telescope m)
  && u64 (date_time m) && u64 (date_time_utc m)
  && u32 (lu_id m) && u32 (color_id m)
  && u32 (image_width m) && u32 (image_height m)
  && u32 (pixel_depth m) && u32 (frame_count m).

Definition shape_matches (m : Metadata) (f : ndarray) : bool :=
  shape_eqb (shape f) [image_height m; image_width m].

(** Everything [write_ser] checks, in one test. *)
Definition write_accepts (m : Metadata) (frames : list ndarray)
    (ts : option (list Z)) : bool :=
  packable m
  && (Z.of_nat (List.length frames) =? frame_count m)
  && forallb (shape_matches m) frames
  && match ts with
     | Some ((_ :: _) as l) => (Z.of_nat (List.length l) =? frame_count m) && forallb u64 l
     | _ => true
     end.

(** The bytes of the frames, as written with dtype [dt]. *)
Definition frames_bytes (dt : dtype) (frames : list ndarray) : list byte :=
  List.concat (map (fun f => tobytes (astype f dt)) frames).

(** The header of [m], when it can be packed. *)
Definition packed_header (m : Metadata) : list byte :=
  match pack_metadata m (image_width m) (image_height m) (pixel_depth m)
                      (frame_count m) with
  | Ok header => header
  | Raise _ => []
  end.

(** An array whose buffer has the size its shape and dtype call for. *)
Definition well_formed (f : ndarray) : bool :=
  Bytes.len (buffer f) =? Np.prod (shape f) * itemsize (arr_dtype f).

(** The sample values of a buffer, one byte each or two bytes each with
    the low byte first. *)
Definition samples8 (bs : list byte) : list Z := map Bytes.Z_of_byte bs.

Fixpoint samples16 (bs : list byte) : list Z :=
  match bs with
  | lo :: hi :: r => (Bytes.Z_of_byte lo + 256 * Bytes.Z_of_byte hi) :: samples16 r
  | _ => []
  end.

Definition samples (f : ndarray) : list Z :=
  match arr_dtype f with
  | uint8 => samples8 (buffer f)
  | uint16 => samples16 (buffer f)
  end.

(** A frame as [read_ser] builds it: the dtype of the file, the shape of
    the header, and a non-empty buffer of that size. *)
Definition read_frame_ok (dt : dtype) (h w : Z) (f : ndarray) : Prop :=
  arr_dtype f = dt /\ shape f = [h; w] /\ buffer f <> []
  /\ Bytes.len (buffer f) = h * w * itemsize dt.

(** ** examples/extract_frames_example.py

    The script reads a file, keeps the frames [frames[start:stop]] with
    their timestamps, sets [frame_count] to what it kept and writes the
    result; it does so with [start = 10] and [stop = 20]. *)

(** [l[start:stop]], for non-negative bounds. *)
Definition py_slice {A} (start stop : nat) (l : list A) : list A :=
  firstn (stop - start) (skipn start l).

(** [metadata["frame_count"] = n] *)
Definition set_frame_count (m : Metadata) (n : Z) : Metadata :=
  {| file_id := file_id m;
     lu_id := lu_id m;
     color_id := color_id m;
     little_endian := little_endian m;
     image_width := image_width m;
     image_height := image_height m;
     pixel_depth := pixel_depth m;
     frame_count := n;
     observer := observer m;
     instrument := instrument m;
     telescope := telescope m;
     date_time := date_time m;
     date_time_utc := date_time_utc m |}.

(** [timestamps[start:stop] if timestamps else None] *)
Definition select_timestamps (start stop : nat) (timestamps : option (list Z))
  : option (list Z) :=
  match timestamps with
  | Some ((_ :: _) as l) => Some (py_slice start stop l)
  | _ => None
  end.

(** Lines 12-25 of the script, from the content of the input file to what
    is done to the output file. *)
Definition extract_frames (file : list byte) (start stop : nat)
  : option (list byte) * outcome unit :=
  match read_ser file with
  | Raise e => (None, Raise e)
  | Ok (metadata, frames, timestamps) =>
      let selected_frames := py_slice start stop frames in
      let selected_timestamps := select_timestamps start stop timestamps in
      let metadata := set_frame_count metadata (Z.of_nat (List.length selected_frames)) in
      write_ser metadata selected_frames selected_timestamps
  end.

(** ** save_frame_as_png

    The function is control flow around OpenCV and Pillow. Their calls are
    parameters of the model: each returns a value or raises, and the
    exception is either [cv2.error] or something else. Warp matrices and
    images are left abstract. The warning that is logged and the closing
    [print] are not modelled. *)

Module Png.

Inductive failure :=
| PngValueError (msg : string)   (* [raise ValueError(msg)] in the function *)
| Cv2Error                       (* cv2.error *)
| UnpackError                    (* [b, g, r = ...] on other than three values *)
| IndexError                     (* [g.shape[1]] on a channel without it *)
| LibraryError (what : string).  (* any other exception of a library call *)

Inductive result (A : Type) :=
| Returned (a : A)
| Failed (f : failure).
Arguments Returned {A} a.
Arguments Failed {A} f.

Definition bind {A B} (m : result A) (k : A -> result B) : result B :=
  match m with
  | Returned a => k a
  | Failed f => Failed f
  end.

Section Libraries.

Variables image warp : Type.

(** The four [cv2.COLOR_BAYER_*2RGB] codes. *)
Variables COLOR_BAYER_RG2RGB COLOR_BAYER_GR2RGB COLOR_BAYER_GB2RGB
          COLOR_BAYER_BG2RGB : Z.

Variable cvtColor : ndarray -> Z -> result ndarray.
Variable split : ndarray -> result (list ndarray).
Variable eye_2_3 : warp.
Variable findTransformECC : ndarray -> ndarray -> warp -> result warp.
Variable warpAffine : ndarray -> warp -> Z * Z -> result ndarray.
Variable merge : list ndarray -> result ndarray.
Variable fromarray : ndarray -> option string -> result image.
Variable save : image -> result unit.

(** The dictionary [BAYER_CONVERSION_CODES]. *)
Definition BAYER_CONVERSION_CODES (color_id : Z) : option Z :=
  if color_id =? 8 then Some COLOR_BAYER_RG2RGB
  else if color_id =? 9 then Some COLOR_BAYER_GR2RGB
  else if color_id =? 10 then Some COLOR_BAYER_GB2RGB
  else if color_id =? 11 then Some COLOR_BAYER_BG2RGB
  else None.

Definition ndim (a : ndarray) : Z := Z.of_nat (List.length (shape a)).

(** One [try: ... except cv2.error: ...] block: align channel [c] to the
    green channel [g], or keep it as it is when OpenCV gives up. *)
Definition align_channel (g c : ndarray) : result ndarray :=
  match
    bind (findTransformECC g c eye_2_3) (fun warp_matrix =>
    bind (match shape g with
          | s0 :: s1 :: _ => Returned (s1, s0)
          | _ => Failed IndexError
          end) (fun size =>
    warpAffine c warp_matrix size))
  with
  | Failed Cv2Error => Returned c
  | r => r
  end.

(** [save_frame_as_png(frame, output_path, color_id, align_rgb)]; the
    result is the image that was saved. *)
Definition save_frame_as_png (frame : ndarray) (color_id : Z) (align_rgb : bool)
  : result image :=
  bind (match BAYER_CONVERSION_CODES color_id with
        | Some code => cvtColor frame code
        | None =>
            if color_id =? 0 then Returned frame
            else Failed (PngValueError
                           ("Unsupported or unknown color_id: " ++ Str.repr_int color_id))
        end) (fun debayered_frame =>
  bind (if align_rgb && (ndim debayered_frame =? 3) then
          bind (split debayered_frame) (fun channels =>
          match channels with
          | [b; g; r] =>
              bind (align_channel g b) (fun b_aligned =>
              bind (align_channel g r) (fun r_aligned =>
              merge [b_aligned; g; r_aligned]))
          | _ => Failed UnpackError
          end)
        else Returned debayered_frame) (fun debayered_frame =>
  bind (if ndim debayered_frame =? 2 then fromarray debayered_frame None
        else if ndim debayered_frame =? 3 then fromarray debayered_frame (Some "RGB"%string)
        else Failed (PngValueError "Frame dimensions are invalid for PNG conversion."))
       (fun image =>
  bind (save image) (fun _ => Returned image)))).

End Libraries.

(** Libraries for examples: OpenCV gives up (but for [unit_ECC], which
    returns the matrix it was given), an image is the array it was made
    from, and saving works. *)
Definition no_cvtColor (a : ndarray) (code : Z) : result ndarray := Failed Cv2Error.
Definition no_ECC (g c : ndarray) (w : unit) : result unit := Failed Cv2Error.
Definition unit_ECC (g c : ndarray) (w : unit) : result unit := Returned w.
Definition no_warp (c : ndarray) (w : unit) (size : Z * Z) : result ndarray :=
  Failed Cv2Error.
Definition rgb_split (a : ndarray) : result (list ndarray) :=
  Returned [a; a; a].
Definition first_merge (l : list ndarray) : result ndarray :=
  match l with
  | a :: _ => Returned a
  | [] => Failed (LibraryError "merge")
  end.
Definition array_image (a : ndarray) (mode : option string) : result ndarray :=
  Returned a.
Definition save_ok (i : ndarray) : result unit := Returned tt.

End Png.

(** ** More concrete files *)

Module MoreExamples.

(** The file of the test scenario, with and without its timestamps. *)
Definition test_file : list byte :=
  Examples.written Examples.test_metadata Examples.test_frames
                   (Some Examples.test_timestamps).
Definition test_file_bare : list byte :=
  Examples.written Examples.test_metadata Examples.test_frames None.

(** The same header with the hyphen of the id replaced. *)
Definition wrong_id_file : list byte :=
  list_byte_of_string "LUCAM_RECORDER" ++ skipn 14 test_file.

(** Metadata with an identifier that does not fit 32 bits. *)
Definition big_lu_id_metadata : Metadata :=
  {| file_id := Some (Str.of_string LUCAM_RECORDER);
     lu_id := 2 ^ 32;
     color_id := 0;
     little_endian := true;
     image_width := 1;
     image_height := 1;
     pixel_depth := 8;
     frame_count := 1;
     observer := Examples.tester;
     instrument := Examples.tester;
     telescope := Examples.tester;
     date_time := Examples.ticks;
     date_time_utc := Examples.ticks |}.

(** Three 16-bit 1 x 1 frames for 8-bit metadata. *)
Definition wide_frames : list ndarray :=
  [Examples.pixel16 x01 x02; Examples.pixel16 x03 x00; Examples.pixel16 xff x01].
Definition three_pixel_metadata : Metadata :=
  Examples.metadata_of 1 1 8 3 Examples.tester.

(** A file whose observer field holds the bytes of "Cam", a NUL and a
    blank before the padding: the observer is read as "Cam" and a NUL. *)
Definition nul_observer_file : list byte :=
  Examples.written (Examples.metadata_of 1 1 8 1 [67; 97; 109; 0; 32])
                   Examples.one_pixel None.

End MoreExamples.

(* ================================================================= *)
(** * Properties *)

(** ** Bytes *)

Section BytesFacts.

Import Bytes.

Lemma Z_of_byte_range (b : byte) : 0 <= Z_of_byte b < 256.
Proof.
  unfold Z_of_byte. pose proof (Byte.to_N_bounded b). lia.
Qed.

Lemma Z_of_byte_of_Z (z : Z) : 0 <= z < 256 -> Z_of_byte (byte_of_Z z) = z.
Proof.
  intros Hz. unfold Z_of_byte, byte_of_Z.
  rewrite Z.mod_small by lia.
  destruct (Byte.of_N (Z.to_N z)) as [b|] eqn:E.
  - apply Byte.to_of_N in E. rewrite E. lia.
  - apply Byte.of_N_None_iff in E. lia.
Qed.

Lemma byte_of_Z_of_byte (b : byte) : byte_of_Z (Z_of_byte b) = b.
Proof.
  unfold byte_of_Z. rewrite Z.mod_small by apply Z_of_byte_range.
  unfold Z_of_byte. rewrite N2Z.id, Byte.of_to_N. reflexivity.
Qed.

Lemma byte_of_Z_0 : byte_of_Z 0 = x00.
Proof. reflexivity. Qed.

Lemma bytes_eqb_eq (a b : list byte) : eqb a b = true <-> a = b.
Proof.
  revert b. induction a as [|x a IH]; intros [|y b]; simpl; split;
    try congruence; try reflexivity.
  - intros H. apply andb_true_iff in H as [Hx Hr].
    apply Byte.byte_dec_bl in Hx. apply IH in Hr. congruence.
  - intros H. injection H as -> ->. apply andb_true_iff. split.
    + now apply Byte.byte_dec_lb.
    + now apply IH.
Qed.

Lemma le_bytes_length (n : nat) (z : Z) : List.length (le_bytes n z) = n.
Proof. revert z. induction n; intros; simpl; auto. Qed.

Lemma le_int_nonneg (bs : list byte) : 0 <= le_int bs.
Proof.
  induction bs as [|b r IH]; cbn [le_int]; [lia|].
  pose proof (Z_of_byte_range b). lia.
Qed.

Lemma le_int_bound (bs : list byte) : le_int bs < 256 ^ Z.of_nat (List.length bs).
Proof.
  induction bs as [|b r IH]; [simpl; lia|].
  cbn [le_int List.length]. rewrite Nat2Z.inj_succ, Z.pow_succ_r by lia.
  pose proof (Z_of_byte_range b). lia.
Qed.

Lemma le_int_le_bytes (n : nat) (z : Z) :
  0 <= z < 256 ^ Z.of_nat n -> le_int (le_bytes n z) = z.
Proof.
  revert z. induction n as [|n IH]; intros z Hz.
  - simpl in *. lia.
  - cbn [le_bytes le_int].
    rewrite Nat2Z.inj_succ, Z.pow_succ_r in Hz by lia.
    rewrite IH.
    + unfold Z_of_byte, byte_of_Z.
      pose proof (Z.mod_pos_bound z 256 ltac:(lia)) as Hm.
      destruct (Byte.of_N (Z.to_N (z mod 256))) as [b|] eqn:E.
      * apply Byte.to_of_N in E. rewrite E.
        rewrite Z2N.id by lia. pose proof (Z.div_mod z 256). lia.
      * apply Byte.of_N_None_iff in E. lia.
    + split; [apply Z.div_pos; lia|].
      apply Z.div_lt_upper_bound; lia.
Qed.

End BytesFacts.

(** ** UTF-8 *)

Section Utf8Facts.
Import Bytes Str.

Lemma Ok_inj {A} (a b : A) : Ok a = Ok b -> a = b.
Proof. congruence. Qed.

Ltac dlia := Z.div_mod_to_equations; lia.

Ltac decide_tests :=
  repeat match goal with
    | |- context [?a =? ?b] => destruct (Z.eqb_spec a b); try dlia
    | |- context [?a <? ?b] => destruct (Z.ltb_spec a b); try dlia
    | |- context [?a <=? ?b] => destruct (Z.leb_spec a b); try dlia
    end.

Lemma decode_encode_char (c : Z) (bs rest : list byte) :
  encode_char c = Ok bs ->
  decode (bs ++ rest) = obind (decode rest) (fun s => Ok (c :: s)).
Proof.
  unfold encode_char.
  destruct (Z.ltb_spec c 0); [discriminate|].
  destruct (Z.ltb_spec c 0x80).
  { intros E; apply Ok_inj in E; subst bs. cbn [app decode]. rewrite Z_of_byte_of_Z by lia.
    decide_tests. reflexivity. }
  destruct (Z.ltb_spec c 0x800).
  { intros E; apply Ok_inj in E; subst bs. cbn [app decode]. unfold in_range, cont_bits.
    rewrite !Z_of_byte_of_Z by dlia.
    decide_tests. cbn [andb]. destruct (decode rest); cbn [obind]; [|reflexivity].
    do 2 f_equal. dlia. }
  destruct (Z.ltb_spec c 0x10000).
  { destruct (Z.leb_spec 0xD800 c); destruct (Z.leb_spec c 0xDFFF); cbn [andb];
      try discriminate;
      intros E; apply Ok_inj in E; subst bs; cbn [app decode]; unfold in_range, cont_bits;
      rewrite !Z_of_byte_of_Z by dlia;
      decide_tests; cbn [andb]; (destruct (decode rest); cbn [obind]; [|reflexivity]);
      do 2 f_equal; dlia. }
  destruct (Z.ltb_spec c 0x110000); [|discriminate].
  intros E; apply Ok_inj in E; subst bs. cbn [app decode]. unfold in_range, cont_bits.
  rewrite !Z_of_byte_of_Z by dlia.
  decide_tests; cbn [andb]; (destruct (decode rest); cbn [obind]; [|reflexivity]);
    do 2 f_equal; dlia.
Qed.
End Utf8Facts.

(** ** The header layout *)

Section StructFacts.
Import Struct.

Lemma pack_s_length (n : nat) (bs : list byte) : List.length (pack_s n bs) = n.
Proof.
  unfold pack_s. rewrite length_app, length_firstn, repeat_length. lia.
Qed.

Lemma pack_s_fits (n : nat) (bs : list byte) :
  (List.length bs <= n)%nat -> pack_s n bs = bs ++ repeat x00 (n - List.length bs).
Proof. intros H. unfold pack_s. now rewrite firstn_all2. Qed.

Lemma slice_app_l (off n : nat) (a b : list byte) :
  (off + n <= List.length a)%nat -> slice off n (a ++ b) = slice off n a.
Proof.
  intros H. unfold slice. rewrite skipn_app, firstn_app, length_skipn.
  replace (n - (List.length a - off))%nat with 0%nat by lia.
  now rewrite firstn_O, app_nil_r.
Qed.

Lemma slice_app_r (off n : nat) (a b : list byte) :
  (List.length a <= off)%nat -> slice off n (a ++ b) = slice (off - List.length a) n b.
Proof.
  intros H. unfold slice. rewrite skipn_app, skipn_all2 by lia. reflexivity.
Qed.

Lemma slice_all (n : nat) (a : list byte) :
  List.length a = n -> slice 0 n a = a.
Proof. intros <-. unfold slice. cbn [skipn]. apply firstn_all. Qed.

Lemma unpack_header_concat (fid b1 b2 b3 b4 b5 b6 b7 o i t d du : list byte) :
  List.length fid = 14%nat ->
  List.length b1 = 4%nat -> List.length b2 = 4%nat -> List.length b3 = 4%nat ->
  List.length b4 = 4%nat -> List.length b5 = 4%nat -> List.length b6 = 4%nat ->
  List.length b7 = 4%nat ->
  List.length o = 40%nat -> List.length i = 40%nat -> List.length t = 40%nat ->
  List.length d = 8%nat -> List.length du = 8%nat ->
  unpack_header (fid ++ b1 ++ b2 ++ b3 ++ b4 ++ b5 ++ b6 ++ b7 ++ o ++ i ++ t ++ d ++ du)
  = Ok {| h_file_id := fid;
          h_lu_id := Bytes.le_int b1; h_color_id := Bytes.le_int b2;
          h_little_endian := Bytes.le_int b3; h_image_width := Bytes.le_int b4;
          h_image_height := Bytes.le_int b5; h_pixel_depth := Bytes.le_int b6;
          h_frame_count := Bytes.le_int b7;
          h_observer := o; h_instrument := i; h_telescope := t;
          h_date_time := d; h_date_time_utc := du |}.
Proof.
  intros Hf H1 H2 H3 H4 H5 H6 H7 Ho Hi Ht Hd Hdu.
  unfold unpack_header.
  rewrite !length_app, Hf, H1, H2, H3, H4, H5, H6, H7, Ho, Hi, Ht, Hd, Hdu.
  change (Nat.eqb _ header_size) with true. cbv iota.
  repeat match goal with
    | |- context [slice ?off ?n (?a ++ ?b)] =>
        first [ rewrite (slice_app_r off n a b) by
                  (rewrite ?Hf, ?H1, ?H2, ?H3, ?H4, ?H5, ?H6, ?H7, ?Ho, ?Hi, ?Ht, ?Hd, ?Hdu;
                   cbn; lia);
                rewrite ?Hf, ?H1, ?H2, ?H3, ?H4, ?H5, ?H6, ?H7, ?Ho, ?Hi, ?Ht, ?Hd, ?Hdu;
                cbn [Nat.sub]
              | rewrite (slice_app_l off n a b) by
                  (rewrite ?Hf, ?H1, ?H2, ?H3, ?H4, ?H5, ?H6, ?H7, ?Ho, ?Hi, ?Ht, ?Hd, ?Hdu;
                   cbn; lia) ]
    end.
  rewrite !slice_all by assumption.
  reflexivity.
Qed.
End StructFacts.

(** ** Text fields *)

Section TextFacts.
Import Bytes Str.

Lemma decode_encode (s : str) (bs rest : list byte) :
  encode s = Ok bs ->
  decode (bs ++ rest) = obind (decode rest) (fun t => Ok (s ++ t)).
Proof.
  revert bs. induction s as [|c s IH]; intros bs.
  - intros E. apply Ok_inj in E. subst bs. cbn [app].
    destruct (decode rest); reflexivity.
  - cbn [encode]. destruct (encode_char c) as [b|] eqn:Ec; [|discriminate].
    cbn [obind]. destruct (encode s) as [r|] eqn:Es; [|discriminate].
    cbn [obind]. intros E. apply Ok_inj in E. subst bs.
    rewrite <- app_assoc, (decode_encode_char c b _ Ec), (IH r eq_refl).
    destruct (decode rest); reflexivity.
Qed.

Lemma decode_nuls (k : nat) : decode (repeat x00 k) = Ok (repeat 0 k).
Proof.
  induction k as [|k IH]; [reflexivity|].
  cbn [repeat]. change (decode (x00 :: repeat x00 k))
    with (obind (decode (repeat x00 k)) (fun s => Ok (0 :: s))).
  now rewrite IH.
Qed.

Lemma decode_padded (s : str) (bs : list byte) (k : nat) :
  encode s = Ok bs -> decode (bs ++ repeat x00 k) = Ok (s ++ repeat 0 k).
Proof.
  intros E. rewrite (decode_encode s bs _ E), decode_nuls. reflexivity.
Qed.

Lemma lstrip_chars_repeat (p : Z -> bool) (c : Z) (k : nat) (s : str) :
  p c = true -> lstrip_chars p (repeat c k ++ s) = lstrip_chars p s.
Proof.
  intros Hc. induction k as [|k IH]; [reflexivity|].
  cbn [repeat app lstrip_chars]. now rewrite Hc.
Qed.

Lemma rev_repeat_Z (c : Z) (k : nat) : rev (repeat c k) = repeat c k.
Proof.
  induction k as [|k IH]; [reflexivity|].
  cbn [repeat rev]. rewrite IH. clear IH.
  induction k as [|k IH]; [reflexivity|].
  cbn [repeat app]. now rewrite IH.
Qed.

Lemma rstrip_chars_repeat (p : Z -> bool) (c : Z) (k : nat) (s : str) :
  p c = true -> rstrip_chars p (s ++ repeat c k) = rstrip_chars p s.
Proof.
  intros Hc. unfold rstrip_chars.
  now rewrite rev_app_distr, rev_repeat_Z, lstrip_chars_repeat.
Qed.

Lemma trimmed_normalise (s : str) : trimmed s = true -> normalise s = s.
Proof.
  unfold trimmed, normalise, strip, rstrip_nul, rstrip_chars.
  intros H. apply andb_true_iff in H as [Hl Hr].
  assert (Hnul : lstrip_chars isnul (rev s) = rev s).
  { destruct (rev s) as [|c r]; [reflexivity|].
    apply andb_true_iff in Hr as [_ Hr]. cbn [lstrip_chars].
    now destruct (isnul c). }
  rewrite Hnul, rev_involutive.
  assert (Hsp : lstrip_chars isspace s = s).
  { destruct s as [|c r]; [reflexivity|]. cbn [lstrip_chars].
    now destruct (isspace c). }
  rewrite Hsp.
  assert (Hsp' : lstrip_chars isspace (rev s) = rev s).
  { destruct (rev s) as [|c r]; [reflexivity|].
    apply andb_true_iff in Hr as [Hr _]. cbn [lstrip_chars].
    now destruct (isspace c). }
  rewrite Hsp'. apply rev_involutive.
Qed.

(** A packed text field decodes to the text, normalised. *)
Lemma decode_field_pack (s : str) (bs : list byte) (n : nat) :
  encode s = Ok bs -> (List.length bs <= n)%nat ->
  _decode_field (Struct.pack_s n bs) = Ok (normalise s).
Proof.
  intros E Hn. unfold _decode_field.
  rewrite pack_s_fits by exact Hn.
  rewrite (decode_padded s bs _ E). cbn [obind].
  unfold normalise, rstrip_nul. now rewrite rstrip_chars_repeat.
Qed.

Lemma str_eqb_eq (a b : str) : Str.eqb a b = true <-> a = b.
Proof.
  revert b. induction a as [|x a IH]; intros [|y b]; cbn [Str.eqb]; split;
    try congruence; try reflexivity.
  - intros H. apply andb_true_iff in H as [Hx Hr].
    apply Z.eqb_eq in Hx. apply IH in Hr. congruence.
  - intros H. injection H as -> ->. apply andb_true_iff. split.
    + apply Z.eqb_refl.
    + now apply IH.
Qed.
End TextFacts.

(** ** Frames and timestamps *)

Section FrameFacts.

Lemma firstn_exact {A} (a b : list A) (n : nat) :
  List.length a = n -> firstn n (a ++ b) = a.
Proof.
  intros <-. rewrite firstn_app, firstn_all, Nat.sub_diag, firstn_O.
  apply app_nil_r.
Qed.

Lemma skipn_exact {A} (a b : list A) (n : nat) :
  List.length a = n -> skipn n (a ++ b) = b.
Proof.
  intros <-. rewrite skipn_app, skipn_all, Nat.sub_diag. reflexivity.
Qed.

Lemma dtype_eqb_eq (a b : dtype) : dtype_eqb a b = true -> a = b.
Proof. destruct a, b; simpl; congruence. Qed.

Lemma shape_eqb_eq (a b : list Z) : shape_eqb a b = true <-> a = b.
Proof.
  revert b. induction a as [|x a IH]; intros [|y b]; cbn [shape_eqb]; split;
    try congruence; try reflexivity.
  - intros H. apply andb_true_iff in H as [Hx Hr].
    apply Z.eqb_eq in Hx. apply IH in Hr. congruence.
  - intros H. injection H as -> ->. apply andb_true_iff. split.
    + apply Z.eqb_refl.
    + now apply IH.
Qed.

Lemma astype_same (a : ndarray) (d : dtype) : arr_dtype a = d -> astype a d = a.
Proof. intros <-. unfold astype. now destruct (arr_dtype a). Qed.

Variable m : Metadata.

Let h := image_height m.
Let w := image_width m.
Let pd := pixel_depth m.
Let dt := dtype_for pd.

Lemma valid_frame_inv (f : ndarray) :
  valid_frame m f = true ->
  arr_dtype f = dt /\ shape f = [h; w]
  /\ Bytes.len (buffer f) = h * w * itemsize dt.
Proof.
  unfold valid_frame. intros H.
  apply andb_true_iff in H as [H H3]. apply andb_true_iff in H as [H1 H2].
  apply dtype_eqb_eq in H1. apply shape_eqb_eq in H2. apply Z.eqb_eq in H3.
  rewrite H1 in H3. auto.
Qed.

Lemma write_frames_valid (frames : list ndarray) (s : list byte) :
  forallb (valid_frame m) frames = true ->
  write_frames frames h w dt s = (s ++ List.concat (map buffer frames), Ok tt).
Proof.
  revert s. induction frames as [|f frames IH]; intros s Hv.
  - cbn. now rewrite app_nil_r.
  - cbn [forallb] in Hv. apply andb_true_iff in Hv as [Hf Hv].
    destruct (valid_frame_inv f Hf) as (Hd & Hs & _).
    cbn [write_frames]. rewrite Hs.
    replace (shape_eqb [h; w] [h; w]) with true
      by (symmetry; now apply shape_eqb_eq).
    cbn [negb]. unfold IO.bind at 1. unfold IO.write at 1.
    rewrite IH by exact Hv. rewrite astype_same by exact Hd.
    unfold tobytes. cbn [map List.concat]. now rewrite app_assoc.
Qed.

Hypothesis Hpd : pd = 8 \/ pd = 16.
Hypothesis Hh : 0 < h.
Hypothesis Hw : 0 < w.

Lemma itemsize_frame_size : h * w * itemsize dt = frame_size w h pd.
Proof.
  unfold frame_size, dt, dtype_for.
  destruct Hpd as [-> | ->]; cbn; ring.
Qed.

Lemma frame_size_pos : 0 < frame_size w h pd.
Proof.
  rewrite <- itemsize_frame_size.
  assert (0 < itemsize dt) by (destruct dt; cbn; lia). nia.
Qed.

Lemma rebuild_frame (f : ndarray) :
  valid_frame m f = true ->
  obind (frombuffer (buffer f) dt) (fun a => reshape a [h; w]) = Ok f.
Proof.
  intros Hf. destruct (valid_frame_inv f Hf) as (Hd & Hs & Hl).
  assert (Hi : 0 < itemsize dt) by (destruct dt; cbn; lia).
  unfold frombuffer. rewrite Hl, Z.mod_mul, Z.eqb_refl by lia.
  cbn [obind]. unfold reshape, size. cbn [shape arr_dtype buffer Np.prod fold_right].
  rewrite Z.div_mul by lia.
  replace (h * w * 1 =? h * (w * 1)) with true by (symmetry; apply Z.eqb_eq; ring).
  destruct f as [fd fs fb]. cbn in Hd, Hs. now subst fd fs.
Qed.

Lemma read_frames_valid (frames acc : list ndarray) (rest : list byte) :
  forallb (valid_frame m) frames = true ->
  read_frames (List.length frames) (frame_size w h pd) dt h w acc
              (List.concat (map buffer frames) ++ rest)
  = (rest, Ok (acc ++ frames)).
Proof.
  revert acc. induction frames as [|f frames IH]; intros acc Hv.
  - cbn. now rewrite app_nil_r.
  - cbn [forallb] in Hv. apply andb_true_iff in Hv as [Hf Hv].
    destruct (valid_frame_inv f Hf) as (_ & _ & Hl).
    rewrite itemsize_frame_size in Hl. pose proof frame_size_pos as Hpos.
    cbn [List.length read_frames map List.concat]. rewrite <- app_assoc.
    unfold IO.bind at 1. unfold IO.read.
    destruct (Z.ltb_spec (frame_size w h pd) 0); [lia|].
    assert (Hn : List.length (buffer f) = Z.to_nat (frame_size w h pd))
      by (unfold Bytes.len in Hl; lia).
    rewrite firstn_exact, skipn_exact by exact Hn.
    destruct (buffer f) as [|b0 bf] eqn:Eb; [cbn in Hn; lia|].
    cbn [Bytes.is_empty]. rewrite <- Eb.
    pose proof (rebuild_frame f Hf) as Hr.
    destruct (frombuffer (buffer f) dt) as [a|] eqn:Ea; [|discriminate].
    cbn [obind] in Hr.
    unfold IO.bind at 1, IO.lift at 1. unfold IO.bind at 1, IO.lift at 1.
    rewrite Hr. rewrite IH by exact Hv. now rewrite <- app_assoc.
Qed.

End FrameFacts.

Section TimestampFacts.

Lemma timestamp_bytes_length (ts : list Z) :
  List.length (timestamp_bytes ts) = (8 * List.length ts)%nat.
Proof.
  induction ts as [|t ts IH]; [reflexivity|].
  unfold timestamp_bytes in *. cbn [map List.concat List.length].
  rewrite length_app, le_bytes_length, IH. lia.
Qed.

Lemma pack_Q_u64 (z : Z) : u64 z = true -> Struct.pack_Q z = Ok (Bytes.le_bytes 8 z).
Proof. unfold u64, Struct.pack_Q. now intros ->. Qed.

Lemma pack_I_u32 (z : Z) : u32 z = true -> Struct.pack_I z = Ok (Bytes.le_bytes 4 z).
Proof. unfold u32, Struct.pack_I. now intros ->. Qed.

Lemma u64_range (z : Z) : u64 z = true -> 0 <= z < 256 ^ Z.of_nat 8.
Proof.
  unfold u64. intros H. apply andb_true_iff in H as [H1 H2].
  change (256 ^ Z.of_nat 8) with (2 ^ 64). lia.
Qed.

Lemma u32_range (z : Z) : u32 z = true -> 0 <= z < 256 ^ Z.of_nat 4.
Proof.
  unfold u32. intros H. apply andb_true_iff in H as [H1 H2].
  change (256 ^ Z.of_nat 4) with (2 ^ 32). lia.
Qed.

Lemma write_timestamps_valid (ts : list Z) (s : list byte) :
  forallb u64 ts = true ->
  write_timestamps ts s = (s ++ timestamp_bytes ts, Ok tt).
Proof.
  revert s. induction ts as [|t ts IH]; intros s Hv.
  - cbn. now rewrite app_nil_r.
  - cbn [forallb] in Hv. apply andb_true_iff in Hv as [Ht Hv].
    cbn [write_timestamps]. unfold IO.bind at 1, IO.lift at 1.
    rewrite pack_Q_u64 by exact Ht.
    unfold IO.bind at 1, IO.write at 1. rewrite IH by exact Hv.
    unfold timestamp_bytes. cbn [map List.concat]. now rewrite app_assoc.
Qed.

Lemma unpack_timestamps_valid (ts : list Z) (pre : list byte) (i : nat) :
  forallb u64 ts = true -> List.length pre = (i * 8)%nat ->
  unpack_timestamps (pre ++ timestamp_bytes ts) i (List.length ts) = Ok ts.
Proof.
  revert pre i. induction ts as [|t ts IH]; intros pre i Hv Hp; [reflexivity|].
  cbn [forallb] in Hv. apply andb_true_iff in Hv as [Ht Hv].
  cbn [List.length unpack_timestamps]. unfold Struct.unpack_from_Q.
  unfold timestamp_bytes. cbn [map List.concat]. fold (timestamp_bytes ts).
  replace (Nat.leb (i * 8 + 8)
             (List.length (pre ++ Bytes.le_bytes 8 t ++ timestamp_bytes ts))) with true
    by (symmetry; apply Nat.leb_le; rewrite !length_app, le_bytes_length; lia).
  rewrite skipn_exact by exact Hp.
  rewrite firstn_exact by apply le_bytes_length.
  rewrite le_int_le_bytes by now apply u64_range.
  cbn [obind].
  rewrite app_assoc, IH; [reflexivity | exact Hv |].
  rewrite length_app, le_bytes_length. lia.
Qed.

End TimestampFacts.

(** ** Writing then reading *)

Section RoundTrip.

Variable m : Metadata.
Hypothesis Hvalid : valid_metadata m = true.

Lemma fits_inv (n : nat) (s : Str.str) :
  fits n s = true ->
  exists bs, Str.encode s = Ok bs /\ (List.length bs <= n)%nat.
Proof.
  unfold fits. destruct (Str.encode s) as [bs|]; [|discriminate].
  intros H. apply Nat.leb_le in H. eauto.
Qed.

Lemma valid_metadata_inv :
  file_id m = Some (Str.of_string LUCAM_RECORDER)
  /\ u32 (lu_id m) = true /\ u32 (color_id m) = true
  /\ 0 < image_width m /\ u32 (image_width m) = true
  /\ 0 < image_height m /\ u32 (image_height m) = true
  /\ (pixel_depth m = 8 \/ pixel_depth m = 16)
  /\ u32 (frame_count m) = true
  /\ fits 40 (observer m) = true /\ fits 40 (instrument m) = true
  /\ fits 40 (telescope m) = true
  /\ u64 (date_time m) = true /\ u64 (date_time_utc m) = true.
Proof.
  pose proof Hvalid as H. unfold valid_metadata in H.
  apply andb_true_iff in H as [H Hdu]. apply andb_true_iff in H as [H Hd].
  apply andb_true_iff in H as [H Ht]. apply andb_true_iff in H as [H Hi].
  apply andb_true_iff in H as [H Ho]. apply andb_true_iff in H as [H Hfc].
  apply andb_true_iff in H as [H Hpd]. apply andb_true_iff in H as [H Hh].
  apply andb_true_iff in H as [H Hh0]. apply andb_true_iff in H as [H Hw].
  apply andb_true_iff in H as [H Hw0]. apply andb_true_iff in H as [H Hco].
  apply andb_true_iff in H as [Hid Hlu].
  apply Z.ltb_lt in Hw0, Hh0.
  repeat split; try assumption.
  - unfold file_id_invalid in Hid. destruct (file_id m) as [s|]; [|discriminate].
    apply negb_true_iff, negb_false_iff, str_eqb_eq in Hid. now subst.
  - apply orb_true_iff in Hpd as [E|E]; apply Z.eqb_eq in E; auto.
Qed.

Lemma u32_pixel_depth : u32 (pixel_depth m) = true.
Proof.
  destruct valid_metadata_inv as (_ & _ & _ & _ & _ & _ & _ & [E|E] & _);
    rewrite E; reflexivity.
Qed.

Lemma pack_metadata_valid :
  exists obs ins tel,
    (Str.encode (observer m) = Ok obs /\ (List.length obs <= 40)%nat)
    /\ (Str.encode (instrument m) = Ok ins /\ (List.length ins <= 40)%nat)
    /\ (Str.encode (telescope m) = Ok tel /\ (List.length tel <= 40)%nat)
    /\ pack_metadata m (image_width m) (image_height m) (pixel_depth m)
                     (frame_count m) = Ok (header_of m obs ins tel).
Proof.
  destruct valid_metadata_inv
    as (Hid & Hlu & Hco & _ & Hw & _ & Hh & _ & Hfc & Ho & Hi & Ht & Hd & Hdu).
  destruct (fits_inv _ _ Ho) as (obs & Eo & Lo).
  destruct (fits_inv _ _ Hi) as (ins & Ei & Li).
  destruct (fits_inv _ _ Ht) as (tel & Et & Lt).
  exists obs, ins, tel. repeat split; try assumption.
  unfold pack_metadata. rewrite Hid.
  change (Str.encode (Str.of_string LUCAM_RECORDER))
    with (Ok (list_byte_of_string LUCAM_RECORDER)).
  rewrite Eo, Ei, Et, !pack_Q_u64 by assumption. cbn [obind].
  unfold Struct.pack_header.
  cbn [Struct.h_file_id Struct.h_lu_id Struct.h_color_id Struct.h_little_endian
       Struct.h_image_width Struct.h_image_height Struct.h_pixel_depth
       Struct.h_frame_count Struct.h_observer Struct.h_instrument
       Struct.h_telescope Struct.h_date_time Struct.h_date_time_utc].
  rewrite !pack_I_u32; try assumption; try apply u32_pixel_depth;
    try (now destruct (little_endian m)).
  reflexivity.
Qed.

Lemma header_of_length (obs ins tel : list byte) :
  List.length (header_of m obs ins tel) = Struct.header_size.
Proof.
  unfold header_of. rewrite !length_app, !pack_s_length, !le_bytes_length.
  reflexivity.
Qed.

Lemma read_header_written (obs ins tel rest : list byte) :
  Str.encode (observer m) = Ok obs -> (List.length obs <= 40)%nat ->
  Str.encode (instrument m) = Ok ins -> (List.length ins <= 40)%nat ->
  Str.encode (telescope m) = Ok tel -> (List.length tel <= 40)%nat ->
  read_header (header_of m obs ins tel ++ rest) = (rest, Ok (normalise_metadata m)).
Proof.
  intros Eo Lo Ei Li Et Lt.
  destruct valid_metadata_inv
    as (Hid & Hlu & Hco & _ & Hw & _ & Hh & _ & Hfc & _ & _ & _ & Hd & Hdu).
  unfold read_header. unfold IO.bind at 1. unfold IO.read.
  change (Z.of_nat Struct.header_size <? 0) with false. cbv iota.
  rewrite Nat2Z.id.
  rewrite firstn_exact, skipn_exact by apply header_of_length.
  unfold IO.bind at 1, IO.lift at 1. unfold header_of.
  rewrite unpack_header_concat
    by (rewrite ?pack_s_length, ?le_bytes_length; reflexivity).
  cbn [Struct.h_file_id Struct.h_lu_id Struct.h_color_id Struct.h_little_endian
       Struct.h_image_width Struct.h_image_height Struct.h_pixel_depth
       Struct.h_frame_count Struct.h_observer Struct.h_instrument
       Struct.h_telescope Struct.h_date_time Struct.h_date_time_utc].
  change (Bytes.eqb (Struct.pack_s 14 (list_byte_of_string LUCAM_RECORDER))
                    (list_byte_of_string LUCAM_RECORDER)) with true.
  cbn [negb].
  change (_decode_field (Struct.pack_s 14 (list_byte_of_string LUCAM_RECORDER)))
    with (Ok (Str.of_string LUCAM_RECORDER)).
  rewrite (decode_field_pack _ _ _ Eo Lo), (decode_field_pack _ _ _ Ei Li),
    (decode_field_pack _ _ _ Et Lt).
  rewrite !(pack_s_fits 8) by (rewrite le_bytes_length; lia).
  rewrite !le_bytes_length. cbn [Nat.sub repeat]. rewrite !app_nil_r.
  unfold Struct.unpack_Q. rewrite !le_bytes_length. cbn [Nat.eqb].
  unfold IO.bind, IO.lift, IO.ret.
  rewrite !le_int_le_bytes;
    try (now apply u32_range); try (now apply u64_range);
    try (apply u32_range, u32_pixel_depth);
    try (destruct (little_endian m); cbn; lia).
  unfold normalise_metadata. rewrite Hid.
  do 2 f_equal. f_equal. now destruct (little_endian m).
Qed.

End RoundTrip.

Section RoundTrip2.

Variable m : Metadata.
Hypothesis Hvalid : valid_metadata m = true.

Lemma write_tail (ts : option (list Z)) (s : list byte) :
  valid_timestamps m ts = true ->
  match ts with
  | Some ((_ :: _) as l) =>
      if negb (Z.of_nat (List.length l) =? frame_count m) then
        IO.raise (ValueError "Number of timestamps does not match frame_count.")
      else write_timestamps l
  | _ => IO.ret tt
  end s = (s ++ written_timestamps ts, Ok tt).
Proof.
  destruct ts as [[|t l]|]; cbn [valid_timestamps written_timestamps].
  - intros _. cbn. now rewrite app_nil_r.
  - intros H. apply andb_true_iff in H as [Hl Hu].
    rewrite Hl. cbn [negb]. now apply write_timestamps_valid.
  - intros _. cbn. now rewrite app_nil_r.
Qed.

Lemma read_timestamps_written (ts : option (list Z)) :
  valid_timestamps m ts = true ->
  read_timestamps (frame_count m) (written_timestamps ts)
  = ([], Ok (timestamps_read_back m ts)).
Proof.
  destruct (valid_metadata_inv m Hvalid) as (_ & _ & _ & _ & _ & _ & _ & _ & Hfc & _).
  apply u32_range in Hfc.
  assert (Hempty : read_timestamps (frame_count m) []
                   = ([], Ok (if frame_count m =? 0 then Some [] else None))).
  { unfold read_timestamps, IO.bind, IO.read_all, IO.lift, IO.ret, Bytes.len.
    cbn [List.length].
    destruct (Z.eqb_spec (frame_count m) 0) as [E|E].
    - rewrite E. reflexivity.
    - destruct (Z.leb_spec (8 * frame_count m) (Z.of_nat 0)); [lia|reflexivity]. }
  destruct ts as [[|t l]|]; cbn [valid_timestamps written_timestamps timestamps_read_back].
  - intros _. exact Hempty.
  - intros H. apply andb_true_iff in H as [Hl Hu]. apply Z.eqb_eq in Hl.
    unfold read_timestamps, IO.bind, IO.read_all, IO.lift, IO.ret, Bytes.len.
    rewrite timestamp_bytes_length.
    destruct (Z.leb_spec (8 * frame_count m)
                (Z.of_nat (8 * List.length (t :: l)))); [|lia].
    rewrite <- Hl, Nat2Z.id.
    pose proof (unpack_timestamps_valid (t :: l) [] 0 Hu eq_refl) as Hr.
    cbn [app] in Hr. rewrite Hr. reflexivity.
  - intros _. exact Hempty.
Qed.

Lemma write_then_read (frames : list ndarray) (ts : option (list Z)) :
  valid_frames m frames = true ->
  valid_timestamps m ts = true ->
  exists content,
    write_ser m frames ts = (Some content, Ok tt)
    /\ List.length content
       = (Struct.header_size + List.length (List.concat (map buffer frames))
          + List.length (written_timestamps ts))%nat
    /\ read_ser content
       = Ok (normalise_metadata m, frames, timestamps_read_back m ts).
Proof.
  intros Hf Ht.
  unfold valid_frames in Hf. apply andb_true_iff in Hf as [Hn Hf].
  destruct (valid_metadata_inv m Hvalid)
    as (Hid & _ & _ & Hw & _ & Hh & _ & Hpd & _).
  destruct (pack_metadata_valid m Hvalid)
    as (obs & ins & tel & (Eo & Lo) & (Ei & Li) & (Et & Lt) & Hpack).
  exists (header_of m obs ins tel ++ List.concat (map buffer frames)
          ++ written_timestamps ts).
  split; [|split].
  - unfold write_ser, file_id_invalid. rewrite Hid.
    replace (Str.eqb (Str.of_string LUCAM_RECORDER) (Str.of_string LUCAM_RECORDER))
      with true by reflexivity.
    cbn [negb]. rewrite Hn. cbn [negb].
    unfold write_body. unfold IO.bind at 1, IO.lift at 1. rewrite Hpack.
    unfold IO.bind at 1, IO.write at 1. cbn [app].
    unfold IO.bind at 1. rewrite (write_frames_valid m frames _ Hf).
    rewrite (write_tail ts _ Ht). now rewrite <- app_assoc.
  - rewrite !length_app, header_of_length. lia.
  - unfold read_ser, read_body. unfold IO.bind at 1.
    rewrite (read_header_written m Hvalid obs ins tel _ Eo Lo Ei Li Et Lt).
    cbn [normalise_metadata pixel_depth image_width image_height frame_count].
    apply Z.eqb_eq in Hn. rewrite <- Hn, Nat2Z.id. rewrite Hn.
    unfold IO.bind at 1.
    rewrite (read_frames_valid m Hpd Hh Hw frames [] _ Hf). cbn [app].
    unfold IO.bind at 1. rewrite (read_timestamps_written ts Ht).
    reflexivity.
Qed.

End RoundTrip2.

(** ** What a call leaves in the destination *)

Section Appending.

(** Writing only ever appends. *)
Lemma write_frames_extends (frames : list ndarray) (h w : Z) (dt : dtype)
    (s : list byte) :
  exists t, fst (write_frames frames h w dt s) = s ++ t.
Proof.
  revert s. induction frames as [|f frames IH]; intros s.
  - exists []. cbn. now rewrite app_nil_r.
  - cbn [write_frames]. destruct (negb _).
    + exists []. cbn. now rewrite app_nil_r.
    + unfold IO.bind, IO.write.
      destruct (IH (s ++ tobytes (astype f dt))) as [t Ht].
      exists (tobytes (astype f dt) ++ t). now rewrite Ht, app_assoc.
Qed.

Lemma write_timestamps_extends (ts : list Z) (s : list byte) :
  exists t, fst (write_timestamps ts s) = s ++ t.
Proof.
  revert s. induction ts as [|x ts IH]; intros s.
  - exists []. cbn. now rewrite app_nil_r.
  - cbn [write_timestamps]. unfold IO.bind at 1, IO.lift at 1.
    destruct (Struct.pack_Q x) as [b|e].
    + unfold IO.bind, IO.write. destruct (IH (s ++ b)) as [t Ht].
      exists (b ++ t). now rewrite Ht, app_assoc.
    + exists []. cbn. now rewrite app_nil_r.
Qed.

Lemma write_body_header (m : Metadata) (frames : list ndarray)
    (ts : option (list Z)) (h w pd fc : Z) (dt : dtype) (header : list byte) :
  pack_metadata m w h pd fc = Ok header ->
  exists t, fst (write_body m frames ts h w pd fc dt []) = header ++ t.
Proof.
  intros Hp. unfold write_body. unfold IO.bind at 1, IO.lift at 1. rewrite Hp.
  unfold IO.bind at 1, IO.write at 1. cbn [app]. unfold IO.bind at 1.
  destruct (write_frames_extends frames h w dt header) as [t Ht].
  destruct (write_frames frames h w dt header) as [s [[]|e]]; cbn [fst] in Ht; subst s.
  - destruct ts as [[|x l]|].
    + exists t. reflexivity.
    + destruct (negb _).
      * exists t. reflexivity.
      * destruct (write_timestamps_extends (x :: l) (header ++ t)) as [t' Ht'].
        exists (t ++ t'). now rewrite Ht', app_assoc.
    + exists t. reflexivity.
  - exists t. reflexivity.
Qed.

Lemma write_ser_header (m : Metadata) (frames : list ndarray)
    (ts : option (list Z)) (header : list byte) :
  file_id m = Some (Str.of_string LUCAM_RECORDER) ->
  Z.of_nat (List.length frames) = frame_count m ->
  pack_metadata m (image_width m) (image_height m) (pixel_depth m) (frame_count m)
  = Ok header ->
  exists rest, fst (write_ser m frames ts) = Some (header ++ rest).
Proof.
  intros Hid Hn Hp. unfold write_ser, file_id_invalid. rewrite Hid.
  replace (Str.eqb (Str.of_string LUCAM_RECORDER) (Str.of_string LUCAM_RECORDER))
    with true by reflexivity.
  apply Z.eqb_eq in Hn. rewrite Hn. cbn [negb].
  destruct (write_body_header m frames ts (image_height m) (image_width m)
              (pixel_depth m) (frame_count m) (dtype_for (pixel_depth m))
              header Hp) as [t Ht].
  destruct (write_body _ _ _ _ _ _ _ _ _) as [content result].
  cbn [fst] in *. exists t. now subst.
Qed.

Lemma pack_I_inv (z : Z) (b : list byte) :
  Struct.pack_I z = Ok b -> List.length b = 4%nat.
Proof.
  unfold Struct.pack_I. destruct (_ && _); [|discriminate].
  intros E. apply Ok_inj in E. subst b. apply le_bytes_length.
Qed.

Lemma pack_Q_inv (z : Z) (b : list byte) :
  Struct.pack_Q z = Ok b -> List.length b = 8%nat.
Proof.
  unfold Struct.pack_Q. destruct (_ && _); [|discriminate].
  intros E. apply Ok_inj in E. subst b. apply le_bytes_length.
Qed.

(** Where the text fields sit in a packed header. *)
Lemma pack_metadata_text (m : Metadata) (w h pd fc : Z) (header : list byte) :
  pack_metadata m w h pd fc = Ok header ->
  exists obs ins tel,
    Str.encode (observer m) = Ok obs
    /\ Str.encode (instrument m) = Ok ins
    /\ Str.encode (telescope m) = Ok tel
    /\ List.length header = Struct.header_size
    /\ Struct.slice 42 40 header = Struct.pack_s 40 obs
    /\ Struct.slice 82 40 header = Struct.pack_s 40 ins
    /\ Struct.slice 122 40 header = Struct.pack_s 40 tel.
Proof.
  unfold pack_metadata.
  destruct (match file_id m with Some s => Str.encode s | None => _ end) as [fid|];
    [|discriminate].
  destruct (Str.encode (observer m)) as [obs|]; [|discriminate].
  destruct (Str.encode (instrument m)) as [ins|]; [|discriminate].
  destruct (Str.encode (telescope m)) as [tel|]; [|discriminate].
  destruct (Struct.pack_Q (date_time m)) as [d|] eqn:Ed; [|discriminate].
  destruct (Struct.pack_Q (date_time_utc m)) as [du|] eqn:Edu; [|discriminate].
  cbn [obind]. unfold Struct.pack_header.
  cbn [Struct.h_file_id Struct.h_lu_id Struct.h_color_id Struct.h_little_endian
       Struct.h_image_width Struct.h_image_height Struct.h_pixel_depth
       Struct.h_frame_count Struct.h_observer Struct.h_instrument
       Struct.h_telescope Struct.h_date_time Struct.h_date_time_utc].
  destruct (Struct.pack_I (lu_id m)) as [b1|] eqn:E1; [|discriminate].
  destruct (Struct.pack_I (color_id m)) as [b2|] eqn:E2; [|discriminate].
  destruct (Struct.pack_I (if little_endian m then 1 else 0)) as [b3|] eqn:E3;
    [|discriminate].
  destruct (Struct.pack_I w) as [b4|] eqn:E4; [|discriminate].
  destruct (Struct.pack_I h) as [b5|] eqn:E5; [|discriminate].
  destruct (Struct.pack_I pd) as [b6|] eqn:E6; [|discriminate].
  destruct (Struct.pack_I fc) as [b7|] eqn:E7; [|discriminate].
  cbn [obind]. intros E. apply Ok_inj in E.
  apply pack_I_inv in E1, E2, E3, E4, E5, E6, E7.
  pose proof (unpack_header_concat
                (Struct.pack_s 14 fid) b1 b2 b3 b4 b5 b6 b7
                (Struct.pack_s 40 obs) (Struct.pack_s 40 ins) (Struct.pack_s 40 tel)
                (Struct.pack_s 8 d) (Struct.pack_s 8 du)
                (pack_s_length _ _) E1 E2 E3 E4 E5 E6 E7
                (pack_s_length _ _) (pack_s_length _ _) (pack_s_length _ _)
                (pack_s_length _ _) (pack_s_length _ _)) as Hu.
  rewrite E in Hu. unfold Struct.unpack_header in Hu.
  destruct (Nat.eqb_spec (List.length header) Struct.header_size) as [Hl|Hl];
    [|discriminate].
  apply Ok_inj in Hu.
  exists obs, ins, tel. repeat split; try reflexivity; try exact Hl.
  - exact (f_equal Struct.h_observer Hu).
  - exact (f_equal Struct.h_instrument Hu).
  - exact (f_equal Struct.h_telescope Hu).
Qed.

End Appending.

(** ** Reading, writing and text, in general *)

Section ReadFacts.

Lemma slice_length (off n : nat) (bs : list byte) :
  (off + n <= List.length bs)%nat -> List.length (Struct.slice off n bs) = n.
Proof.
  intros H. unfold Struct.slice. rewrite length_firstn, length_skipn. lia.
Qed.

Lemma le_int_slice_u32 (off : nat) (bs : list byte) :
  (off + 4 <= List.length bs)%nat -> u32 (Bytes.le_int (Struct.slice off 4 bs)) = true.
Proof.
  intros H. unfold u32.
  pose proof (le_int_nonneg (Struct.slice off 4 bs)).
  pose proof (le_int_bound (Struct.slice off 4 bs)) as Hb.
  rewrite slice_length in Hb by exact H.
  change (256 ^ Z.of_nat 4) with (2 ^ 32) in Hb.
  apply andb_true_iff. split; [apply Z.leb_le | apply Z.ltb_lt]; lia.
Qed.

Lemma le_int_slice_u64 (off : nat) (bs : list byte) :
  (off + 8 <= List.length bs)%nat -> u64 (Bytes.le_int (Struct.slice off 8 bs)) = true.
Proof.
  intros H. unfold u64.
  pose proof (le_int_nonneg (Struct.slice off 8 bs)).
  pose proof (le_int_bound (Struct.slice off 8 bs)) as Hb.
  rewrite slice_length in Hb by exact H.
  change (256 ^ Z.of_nat 8) with (2 ^ 64) in Hb.
  apply andb_true_iff. split; [apply Z.leb_le | apply Z.ltb_lt]; lia.
Qed.

(** What a header that [read_header] accepts looks like, and what is made
    of it. *)
Lemma read_header_inv (file rest : list byte) (m : Metadata) :
  read_header file = (rest, Ok m) ->
  let header := firstn Struct.header_size file in
  (Struct.header_size <= List.length file)%nat
  /\ rest = skipn Struct.header_size file
  /\ Struct.slice 0 14 header = list_byte_of_string LUCAM_RECORDER
  /\ file_id m = Some (Str.of_string LUCAM_RECORDER)
  /\ lu_id m = Bytes.le_int (Struct.slice 14 4 header)
  /\ color_id m = Bytes.le_int (Struct.slice 18 4 header)
  /\ little_endian m = negb (Bytes.le_int (Struct.slice 22 4 header) =? 0)
  /\ image_width m = Bytes.le_int (Struct.slice 26 4 header)
  /\ image_height m = Bytes.le_int (Struct.slice 30 4 header)
  /\ pixel_depth m = Bytes.le_int (Struct.slice 34 4 header)
  /\ frame_count m = Bytes.le_int (Struct.slice 38 4 header)
  /\ _decode_field (Struct.slice 42 40 header) = Ok (observer m)
  /\ _decode_field (Struct.slice 82 40 header) = Ok (instrument m)
  /\ _decode_field (Struct.slice 122 40 header) = Ok (telescope m)
  /\ date_time m = Bytes.le_int (Struct.slice 162 8 header)
  /\ date_time_utc m = Bytes.le_int (Struct.slice 170 8 header).
Proof.
  cbv zeta.
  unfold read_header, IO.bind, IO.read, IO.lift, IO.raise, IO.ret.
  change (Z.of_nat Struct.header_size <? 0) with false. cbv iota.
  rewrite Nat2Z.id. unfold Struct.unpack_header.
  destruct (Nat.eqb_spec (List.length (firstn Struct.header_size file))
              Struct.header_size) as [Hl|Hl]; [|discriminate].
  cbv beta iota.
  cbn [Struct.h_file_id Struct.h_lu_id Struct.h_color_id Struct.h_little_endian
       Struct.h_image_width Struct.h_image_height Struct.h_pixel_depth
       Struct.h_frame_count Struct.h_observer Struct.h_instrument
       Struct.h_telescope Struct.h_date_time Struct.h_date_time_utc].
  destruct (Bytes.eqb (Struct.slice 0 14 (firstn Struct.header_size file))
              (list_byte_of_string LUCAM_RECORDER)) eqn:Eid; cbn [negb];
    [|discriminate].
  apply bytes_eqb_eq in Eid. rewrite Eid.
  change (_decode_field (list_byte_of_string LUCAM_RECORDER))
    with (Ok (Str.of_string LUCAM_RECORDER)). cbv beta iota.
  destruct (_decode_field (Struct.slice 42 40 _)) as [obs|]; [|discriminate].
  destruct (_decode_field (Struct.slice 82 40 _)) as [ins|]; [|discriminate].
  destruct (_decode_field (Struct.slice 122 40 _)) as [tel|]; [|discriminate].
  cbv beta iota. unfold Struct.unpack_Q.
  rewrite !slice_length by (rewrite Hl; cbn; lia).
  cbn [Nat.eqb]. cbv beta iota.
  intros E.
  assert (Er : skipn Struct.header_size file = rest) by exact (f_equal fst E).
  apply (f_equal snd) in E. cbn [snd] in E. apply Ok_inj in E. subst m.
  cbn [file_id lu_id color_id little_endian image_width image_height pixel_depth
       frame_count observer instrument telescope date_time date_time_utc].
  rewrite length_firstn in Hl.
  repeat split; try reflexivity; try (symmetry; exact Er). lia.
Qed.

End ReadFacts.

Section ReadFrames.

Variables (fs : Z) (dt : dtype) (h w : Z).

Lemma itemsize_pos (d : dtype) : 0 < itemsize d.
Proof. destruct d; cbn; lia. Qed.

Lemma read_one_frame (data : list byte) (f : ndarray) :
  obind (frombuffer data dt) (fun a => reshape a [h; w]) = Ok f ->
  f = {| arr_dtype := dt; shape := [h; w]; buffer := data |}
  /\ Bytes.len data = h * w * itemsize dt.
Proof.
  unfold frombuffer.
  destruct (Z.eqb_spec (Bytes.len data mod itemsize dt) 0) as [Hm|Hm]; [|discriminate].
  cbn [obind]. unfold reshape, size. cbn [shape arr_dtype buffer Np.prod fold_right].
  destruct (Z.eqb_spec (Bytes.len data / itemsize dt * 1) (h * (w * 1))) as [Hs|Hs];
    [|discriminate].
  intros E. apply Ok_inj in E. split; [now symmetry|].
  pose proof (itemsize_pos dt).
  pose proof (Z.div_mod (Bytes.len data) (itemsize dt) ltac:(lia)). nia.
Qed.

Lemma read_frames_inv (n : nat) (acc frames : list ndarray) (s s' : list byte) :
  read_frames n fs dt h w acc s = (s', Ok frames) ->
  exists new,
    frames = acc ++ new /\ List.length new = n
    /\ Forall (read_frame_ok dt h w) new
    /\ s = List.concat (map buffer new) ++ s'.
Proof.
  revert acc s. induction n as [|n IH]; intros acc s.
  - cbn. intros E. exists []. injection E as <- <-.
    rewrite app_nil_r. repeat split. constructor.
  - cbn [read_frames]. unfold IO.bind at 1.
    destruct (IO.read fs s) as [s1 [data|e]] eqn:Er;
      [|unfold IO.read in Er; destruct (fs <? 0); discriminate].
    assert (Hs : s = data ++ s1).
    { unfold IO.read in Er. destruct (fs <? 0).
      - injection Er as <- <-. now rewrite app_nil_r.
      - injection Er as <- <-. symmetry. apply firstn_skipn. }
    destruct data as [|b0 data0] eqn:Ed; [cbn; discriminate|].
    cbn [Bytes.is_empty]. rewrite <- Ed in *.
    unfold IO.bind at 1, IO.lift at 1.
    destruct (frombuffer data dt) as [a|e] eqn:Ea; [|discriminate].
    unfold IO.bind at 1, IO.lift at 1.
    destruct (reshape a [h; w]) as [f|e] eqn:Ef; [|discriminate].
    intros E. destruct (IH _ _ E) as (new & Hfr & Hlen & Hall & Hcat).
    assert (Hone : obind (frombuffer data dt) (fun a => reshape a [h; w]) = Ok f)
      by (rewrite Ea; exact Ef).
    destruct (read_one_frame data f Hone) as [Hf Hl].
    exists (f :: new). repeat split.
    + rewrite Hfr, <- app_assoc. reflexivity.
    + cbn. now rewrite Hlen.
    + constructor; [|exact Hall]. subst f. cbn. repeat split; try assumption.
      rewrite Ed. discriminate.
    + cbn [map List.concat]. rewrite <- app_assoc, <- Hcat.
      subst f. cbn [buffer]. exact Hs.
Qed.

End ReadFrames.

Section ReadTimestamps.

Lemma unpack_timestamps_inv (rem : list byte) (i n : nat) (l : list Z) :
  unpack_timestamps rem i n = Ok l ->
  List.length l = n /\ forallb u64 l = true.
Proof.
  revert i l. induction n as [|n IH]; intros i l.
  - cbn. intros E. apply Ok_inj in E. now subst.
  - cbn [unpack_timestamps]. unfold Struct.unpack_from_Q.
    destruct (Nat.leb_spec (i * 8 + 8) (List.length rem)) as [Hl|Hl]; [|discriminate].
    cbn [obind].
    destruct (unpack_timestamps rem (S i) n) as [r|] eqn:Er; [|discriminate].
    cbn [obind]. intros E. apply Ok_inj in E. subst l.
    destruct (IH _ _ Er) as [Hn Hu]. split; [cbn; now rewrite Hn|].
    cbn [forallb]. rewrite Hu, andb_true_r.
    change (firstn 8 (skipn (i * 8) rem)) with (Struct.slice (i * 8) 8 rem).
    apply le_int_slice_u64. exact Hl.
Qed.


Lemma read_timestamps_inv (fc : Z) (s s' : list byte) (r : option (list Z)) :
  read_timestamps fc s = (s', Ok r) ->
  match r with
  | Some l => 8 * fc <= Bytes.len s /\ List.length l = Z.to_nat fc
              /\ forallb u64 l = true
  | None => Bytes.len s < 8 * fc
  end.
Proof.
  unfold read_timestamps, IO.bind, IO.read_all, IO.lift, IO.ret.
  destruct (Z.leb_spec (8 * fc) (Bytes.len s)) as [Hl|Hl].
  - destruct (unpack_timestamps s 0 (Z.to_nat fc)) as [l|] eqn:El; [|discriminate].
    intros E. injection E as _ <-.
    destruct (unpack_timestamps_inv _ _ _ _ El). auto.
  - intros E. injection E as _ <-. exact Hl.
Qed.

End ReadTimestamps.

Section ReadSer.

Lemma read_ser_inv (file : list byte) (m : Metadata) (frames : list ndarray)
    (ts : option (list Z)) :
  read_ser file = Ok (m, frames, ts) ->
  exists rest rest',
    read_header file = (rest, Ok m)
    /\ read_frames (Z.to_nat (frame_count m))
         (frame_size (image_width m) (image_height m) (pixel_depth m))
         (dtype_for (pixel_depth m)) (image_height m) (image_width m) [] rest
       = (rest', Ok frames)
    /\ read_timestamps (frame_count m) rest' = ([], Ok ts).
Proof.
  unfold read_ser, read_body. unfold IO.bind at 1.
  destruct (read_header file) as [rest [m0|e]] eqn:Eh; [|discriminate].
  unfold IO.bind at 1.
  destruct (read_frames _ _ _ _ _ _ rest) as [rest' [fr|e]] eqn:Ef; [|discriminate].
  unfold IO.bind at 1.
  destruct (read_timestamps (frame_count m0) rest') as [s3 [t|e]] eqn:Et;
    [|discriminate].
  unfold IO.ret. cbn [snd]. intros E. apply Ok_inj in E.
  injection E as -> -> ->.
  exists rest, rest'. repeat split; try assumption.
  assert (s3 = []).
  { unfold read_timestamps, IO.bind, IO.read_all, IO.lift, IO.ret in Et.
    destruct (8 * frame_count m <=? Bytes.len rest').
    - destruct (unpack_timestamps _ _ _); injection Et as <- _; reflexivity.
    - injection Et as <- _. reflexivity. }
  now subst.
Qed.

Lemma read_header_ranges (file rest : list byte) (m : Metadata) :
  read_header file = (rest, Ok m) ->
  u32 (lu_id m) = true /\ u32 (color_id m) = true
  /\ u32 (image_width m) = true /\ u32 (image_height m) = true
  /\ u32 (pixel_depth m) = true /\ u32 (frame_count m) = true
  /\ u64 (date_time m) = true /\ u64 (date_time_utc m) = true.
Proof.
  intros H. apply read_header_inv in H. cbv zeta in H.
  destruct H as (Hl & _ & _ & _ & E1 & E2 & _ & E4 & E5 & E6 & E7 & _ & _ & _ & E8 & E9).
  assert (Hh : List.length (firstn Struct.header_size file) = Struct.header_size)
    by (rewrite length_firstn; lia).
  rewrite E1, E2, E4, E5, E6, E7, E8, E9.
  repeat split;
    first [ apply le_int_slice_u32 | apply le_int_slice_u64 ];
    rewrite Hh; cbn; lia.
Qed.

End ReadSer.

Section Utf8Back.
Import Bytes Str.

Ltac dlia := Z.div_mod_to_equations; lia.

Lemma encode_char_1 (z0 : Z) :
  0 <= z0 < 0x80 -> encode_char z0 = Ok [byte_of_Z z0].
Proof.
  intros H. unfold encode_char.
  destruct (Z.ltb_spec z0 0); [lia|]. destruct (Z.ltb_spec z0 0x80); [|lia].
  reflexivity.
Qed.

Lemma encode_char_2 (z0 z1 : Z) :
  0xC2 <= z0 < 0xE0 -> 0x80 <= z1 <= 0xBF ->
  encode_char ((z0 - 0xC0) * 64 + (z1 - 0x80)) = Ok [byte_of_Z z0; byte_of_Z z1].
Proof.
  intros H0 H1. unfold encode_char.
  set (c := (z0 - 0xC0) * 64 + (z1 - 0x80)).
  assert (Hc : 0x80 <= c < 0x800) by (subst c; lia).
  destruct (Z.ltb_spec c 0); [lia|]. destruct (Z.ltb_spec c 0x80); [lia|].
  destruct (Z.ltb_spec c 0x800); [|lia].
  replace (0xC0 + c / 64) with z0 by (subst c; dlia).
  replace (0x80 + c mod 64) with z1 by (subst c; dlia).
  reflexivity.
Qed.

Lemma encode_char_3 (z0 z1 z2 : Z) :
  0xE0 <= z0 < 0xF0 ->
  (if z0 =? 0xE0 then 0xA0 else 0x80) <= z1 <= (if z0 =? 0xED then 0x9F else 0xBF) ->
  0x80 <= z2 <= 0xBF ->
  encode_char ((z0 - 0xE0) * 4096 + (z1 - 0x80) * 64 + (z2 - 0x80))
  = Ok [byte_of_Z z0; byte_of_Z z1; byte_of_Z z2].
Proof.
  intros H0 H1 H2. unfold encode_char.
  set (c := (z0 - 0xE0) * 4096 + (z1 - 0x80) * 64 + (z2 - 0x80)).
  assert (Hz1 : 0x80 <= z1 <= 0xBF)
    by (destruct (z0 =? 0xE0), (z0 =? 0xED); lia).
  assert (Hc : 0x800 <= c < 0x10000 /\ ~ (0xD800 <= c <= 0xDFFF)).
  { subst c. destruct (Z.eqb_spec z0 0xE0), (Z.eqb_spec z0 0xED); lia. }
  destruct (Z.ltb_spec c 0); [lia|]. destruct (Z.ltb_spec c 0x80); [lia|].
  destruct (Z.ltb_spec c 0x800); [lia|]. destruct (Z.ltb_spec c 0x10000); [|lia].
  replace ((0xD800 <=? c) && (c <=? 0xDFFF)) with false
    by (symmetry; apply andb_false_iff;
        destruct (Z.leb_spec 0xD800 c); [right; apply Z.leb_gt; lia | now left]).
  replace (0xE0 + c / 4096) with z0 by (subst c; dlia).
  replace (0x80 + (c / 64) mod 64) with z1 by (subst c; dlia).
  replace (0x80 + c mod 64) with z2 by (subst c; dlia).
  reflexivity.
Qed.

Lemma encode_char_4 (z0 z1 z2 z3 : Z) :
  0xF0 <= z0 < 0xF5 ->
  (if z0 =? 0xF0 then 0x90 else 0x80) <= z1 <= (if z0 =? 0xF4 then 0x8F else 0xBF) ->
  0x80 <= z2 <= 0xBF -> 0x80 <= z3 <= 0xBF ->
  encode_char ((z0 - 0xF0) * 262144 + (z1 - 0x80) * 4096 + (z2 - 0x80) * 64
               + (z3 - 0x80))
  = Ok [byte_of_Z z0; byte_of_Z z1; byte_of_Z z2; byte_of_Z z3].
Proof.
  intros H0 H1 H2 H3. unfold encode_char.
  set (c := (z0 - 0xF0) * 262144 + (z1 - 0x80) * 4096 + (z2 - 0x80) * 64
            + (z3 - 0x80)).
  assert (Hz1 : 0x80 <= z1 <= 0xBF)
    by (destruct (z0 =? 0xF0), (z0 =? 0xF4); lia).
  assert (Hc : 0x10000 <= c < 0x110000).
  { subst c. destruct (Z.eqb_spec z0 0xF0), (Z.eqb_spec z0 0xF4); lia. }
  destruct (Z.ltb_spec c 0); [lia|]. destruct (Z.ltb_spec c 0x80); [lia|].
  destruct (Z.ltb_spec c 0x800); [lia|]. destruct (Z.ltb_spec c 0x10000); [lia|].
  destruct (Z.ltb_spec c 0x110000); [|lia].
  replace (0xF0 + c / 262144) with z0 by (subst c; dlia).
  replace (0x80 + (c / 4096) mod 64) with z1 by (subst c; dlia).
  replace (0x80 + (c / 64) mod 64) with z2 by (subst c; dlia).
  replace (0x80 + c mod 64) with z3 by (subst c; dlia).
  reflexivity.
Qed.

Lemma in_range_inv (lo hi : Z) (b : byte) :
  in_range lo hi b = true -> lo <= Z_of_byte b <= hi.
Proof. unfold in_range. intros H. apply andb_true_iff in H as [H1 H2]. lia. Qed.

Lemma encode_cons (c : Z) (s : str) (bc bs : list byte) :
  encode_char c = Ok bc -> encode s = Ok bs -> encode (c :: s) = Ok (bc ++ bs).
Proof. intros Ec Es. cbn [encode]. now rewrite Ec, Es. Qed.

(** Whatever decodes encodes back to the same bytes. *)
Lemma encode_decode_bounded (n : nat) :
  forall (bs : list byte) (s : str),
    (List.length bs <= n)%nat -> decode bs = Ok s -> encode s = Ok bs.
Proof.
  induction n as [|n IH]; intros bs s Hn.
  - destruct bs; [|cbn in Hn; lia]. cbn. intros E. apply Ok_inj in E. now subst.
  - destruct bs as [|b0 r0]; [cbn; intros E; apply Ok_inj in E; now subst|].
    cbn [List.length] in Hn. cbn [decode].
    pose proof (Z_of_byte_range b0) as R0.
    destruct (Z.ltb_spec (Z_of_byte b0) 0x80).
    { destruct (decode r0) as [s'|] eqn:Ed; [|discriminate]. cbn [obind].
      intros E. apply Ok_inj in E. subst s.
      rewrite (encode_cons _ _ [b0] r0).
      - reflexivity.
      - rewrite encode_char_1 by lia. now rewrite byte_of_Z_of_byte.
      - apply IH; [lia|exact Ed]. }
    destruct (Z.ltb_spec (Z_of_byte b0) 0xC2); [discriminate|].
    destruct (Z.ltb_spec (Z_of_byte b0) 0xE0).
    { destruct r0 as [|b1 r1]; [discriminate|].
      destruct (in_range 0x80 0xBF b1) eqn:E1; [|discriminate].
      apply in_range_inv in E1.
      destruct (decode r1) as [s'|] eqn:Ed; [|discriminate]. cbn [obind].
      intros E. apply Ok_inj in E. subst s. unfold cont_bits.
      rewrite (encode_cons _ _ [b0; b1] r1).
      - reflexivity.
      - rewrite encode_char_2 by lia. now rewrite !byte_of_Z_of_byte.
      - apply IH; [cbn in Hn; lia|exact Ed]. }
    destruct (Z.ltb_spec (Z_of_byte b0) 0xF0).
    { destruct r0 as [|b1 [|b2 r2]]; try discriminate.
      destruct (in_range _ _ b1) eqn:E1; cbn [andb]; [|discriminate].
      destruct (in_range 0x80 0xBF b2) eqn:E2; [|discriminate].
      apply in_range_inv in E1, E2.
      destruct (decode r2) as [s'|] eqn:Ed; [|discriminate]. cbn [obind].
      intros E. apply Ok_inj in E. subst s. unfold cont_bits.
      rewrite (encode_cons _ _ [b0; b1; b2] r2).
      - reflexivity.
      - rewrite encode_char_3 by (assumption || lia).
        now rewrite !byte_of_Z_of_byte.
      - apply IH; [cbn in Hn; lia|exact Ed]. }
    destruct (Z.ltb_spec (Z_of_byte b0) 0xF5); [|discriminate].
    destruct r0 as [|b1 [|b2 [|b3 r3]]]; try discriminate.
    destruct (in_range _ _ b1) eqn:E1; cbn [andb]; [|discriminate].
    destruct (in_range 0x80 0xBF b2) eqn:E2; cbn [andb]; [|discriminate].
    destruct (in_range 0x80 0xBF b3) eqn:E3; [|discriminate].
    apply in_range_inv in E1, E2, E3.
    destruct (decode r3) as [s'|] eqn:Ed; [|discriminate]. cbn [obind].
    intros E. apply Ok_inj in E. subst s. unfold cont_bits.
    rewrite (encode_cons _ _ [b0; b1; b2; b3] r3).
    + reflexivity.
    + rewrite encode_char_4 by (assumption || lia).
      now rewrite !byte_of_Z_of_byte.
    + apply IH; [cbn in Hn; lia|exact Ed].
Qed.

Lemma encode_decode (bs : list byte) (s : str) :
  decode bs = Ok s -> encode s = Ok bs.
Proof. apply (encode_decode_bounded (List.length bs)). lia. Qed.

End Utf8Back.

Section WriteFacts.

Lemma encode_raises (s : Str.str) (e : exception) :
  Str.encode s = Raise e -> e = UnicodeEncodeError.
Proof.
  induction s as [|c s IH]; [discriminate|].
  cbn [Str.encode].
  destruct (Str.encode_char c) as [b|e'] eqn:Ec; cbn [obind].
  - destruct (Str.encode s) as [r|e'']; cbn [obind]; [discriminate|].
    intros E. injection E as <-. now apply IH.
  - intros E. injection E as <-. unfold Str.encode_char in Ec.
    repeat match type of Ec with
           | (if ?b then _ else _) = _ => destruct b
           end; congruence.
Qed.

Lemma pack_I_cases (z : Z) :
  Struct.pack_I z = if u32 z then Ok (Bytes.le_bytes 4 z) else Raise StructError.
Proof. reflexivity. Qed.

Lemma pack_Q_cases (z : Z) :
  Struct.pack_Q z = if u64 z then Ok (Bytes.le_bytes 8 z) else Raise StructError.
Proof. reflexivity. Qed.

Lemma u32_flag (b : bool) : u32 (if b then 1 else 0) = true.
Proof. now destruct b. Qed.

Variable m : Metadata.
Hypothesis Hid : file_id m = Some (Str.of_string LUCAM_RECORDER).

Lemma file_id_valid : file_id_invalid m = false.
Proof. unfold file_id_invalid. rewrite Hid. reflexivity. Qed.

(** [pack_metadata] succeeds exactly on packable metadata, and otherwise
    raises one of two exceptions. *)
Lemma pack_metadata_cases :
  if packable m then
    exists obs ins tel,
      Str.encode (observer m) = Ok obs /\ Str.encode (instrument m) = Ok ins
      /\ Str.encode (telescope m) = Ok tel
      /\ pack_metadata m (image_width m) (image_height m) (pixel_depth m)
                       (frame_count m) = Ok (header_of m obs ins tel)
  else
    exists e,
      pack_metadata m (image_width m) (image_height m) (pixel_depth m)
                    (frame_count m) = Raise e
      /\ (e = StructError \/ e = UnicodeEncodeError).
Proof.
  unfold packable, pack_metadata, encodable. rewrite file_id_valid, Hid.
  change (Str.encode (Str.of_string LUCAM_RECORDER))
    with (Ok (list_byte_of_string LUCAM_RECORDER)).
  cbn [negb andb obind].
  destruct (Str.encode (observer m)) as [obs|e] eqn:Eo; cbn [obind andb];
    [|apply encode_raises in Eo; eauto].
  destruct (Str.encode (instrument m)) as [ins|e] eqn:Ei; cbn [obind andb];
    [|apply encode_raises in Ei; eauto].
  destruct (Str.encode (telescope m)) as [tel|e] eqn:Et; cbn [obind andb];
    [|apply encode_raises in Et; eauto].
  rewrite !pack_Q_cases.
  destruct (u64 (date_time m)); cbn [obind andb]; [|eauto].
  destruct (u64 (date_time_utc m)); cbn [obind andb]; [|eauto].
  unfold Struct.pack_header.
  cbn [Struct.h_file_id Struct.h_lu_id Struct.h_color_id Struct.h_little_endian
       Struct.h_image_width Struct.h_image_height Struct.h_pixel_depth
       Struct.h_frame_count Struct.h_observer Struct.h_instrument
       Struct.h_telescope Struct.h_date_time Struct.h_date_time_utc].
  rewrite !pack_I_cases, u32_flag.
  destruct (u32 (lu_id m)); cbn [obind andb]; [|eauto].
  destruct (u32 (color_id m)); cbn [obind andb]; [|eauto].
  destruct (u32 (image_width m)); cbn [obind andb]; [|eauto].
  destruct (u32 (image_height m)); cbn [obind andb]; [|eauto].
  destruct (u32 (pixel_depth m)); cbn [obind andb]; [|eauto].
  destruct (u32 (frame_count m)); cbn [obind andb]; [|eauto].
  exists obs, ins, tel. repeat split.
Qed.

Lemma packed_header_length : packable m = true ->
  List.length (packed_header m) = Struct.header_size.
Proof.
  intros Hp. pose proof pack_metadata_cases as H. rewrite Hp in H.
  destruct H as (obs & ins & tel & _ & _ & _ & H). unfold packed_header.
  rewrite H. apply header_of_length.
Qed.

Lemma pack_metadata_packed : packable m = true ->
  pack_metadata m (image_width m) (image_height m) (pixel_depth m) (frame_count m)
  = Ok (packed_header m).
Proof.
  intros Hp. pose proof pack_metadata_cases as H. rewrite Hp in H.
  destruct H as (obs & ins & tel & _ & _ & _ & H). unfold packed_header.
  now rewrite H.
Qed.

End WriteFacts.

Section WriteLoops.

Variable m : Metadata.
Let h := image_height m.
Let w := image_width m.

(** The frame loop stops at the first frame of the wrong shape, with the
    frames before it written. *)
Lemma write_frames_all (dt : dtype) (frames : list ndarray) (s : list byte) :
  forallb (shape_matches m) frames = true ->
  write_frames frames h w dt s = (s ++ frames_bytes dt frames, Ok tt).
Proof.
  revert s. induction frames as [|f frames IH]; intros s Hv.
  - cbn. now rewrite app_nil_r.
  - cbn [forallb] in Hv. apply andb_true_iff in Hv as [Hf Hv].
    cbn [write_frames]. unfold shape_matches in Hf. fold h w in Hf. rewrite Hf.
    cbn [negb]. unfold IO.bind at 1, IO.write at 1. rewrite IH by exact Hv.
    unfold frames_bytes. cbn [map List.concat]. now rewrite app_assoc.
Qed.

Lemma write_frames_stops (dt : dtype) (good rest : list ndarray) (bad : ndarray)
    (s : list byte) :
  forallb (shape_matches m) good = true ->
  shape_matches m bad = false ->
  write_frames (good ++ bad :: rest) h w dt s
  = (s ++ frames_bytes dt good,
     Raise (ValueError (shape_mismatch_msg (shape bad) h w))).
Proof.
  revert s. induction good as [|f good IH]; intros s Hv Hb.
  - cbn [app write_frames]. unfold shape_matches in Hb. fold h w in Hb. rewrite Hb.
    cbn. now rewrite app_nil_r.
  - cbn [forallb] in Hv. apply andb_true_iff in Hv as [Hf Hv].
    cbn [app write_frames]. unfold shape_matches in Hf. fold h w in Hf. rewrite Hf.
    cbn [negb]. unfold IO.bind at 1, IO.write at 1. rewrite IH by assumption.
    unfold frames_bytes. cbn [map List.concat]. now rewrite app_assoc.
Qed.

Lemma write_frames_ok_inv (dt : dtype) (frames : list ndarray) (s s' : list byte) :
  write_frames frames h w dt s = (s', Ok tt) ->
  forallb (shape_matches m) frames = true.
Proof.
  revert s. induction frames as [|f frames IH]; intros s; [reflexivity|].
  cbn [write_frames forallb]. unfold shape_matches at 1. fold h w.
  destruct (shape_eqb (shape f) [h; w]); cbn [negb andb]; [|discriminate].
  unfold IO.bind at 1, IO.write at 1. apply IH.
Qed.

Lemma write_timestamps_stops (good rest : list Z) (bad : Z) (s : list byte) :
  forallb u64 good = true -> u64 bad = false ->
  write_timestamps (good ++ bad :: rest) s
  = (s ++ timestamp_bytes good, Raise StructError).
Proof.
  revert s. induction good as [|t good IH]; intros s Hv Hb.
  - cbn [app write_timestamps]. unfold IO.bind, IO.lift.
    rewrite pack_Q_cases, Hb. now rewrite app_nil_r.
  - cbn [forallb] in Hv. apply andb_true_iff in Hv as [Ht Hv].
    cbn [app write_timestamps]. unfold IO.bind at 1, IO.lift at 1.
    rewrite pack_Q_cases, Ht. unfold IO.bind at 1, IO.write at 1.
    rewrite IH by assumption.
    unfold timestamp_bytes. cbn [map List.concat]. now rewrite app_assoc.
Qed.

Lemma write_timestamps_ok_inv (ts : list Z) (s s' : list byte) :
  write_timestamps ts s = (s', Ok tt) -> forallb u64 ts = true.
Proof.
  revert s. induction ts as [|t ts IH]; intros s; [reflexivity|].
  cbn [write_timestamps forallb]. unfold IO.bind at 1, IO.lift at 1.
  rewrite pack_Q_cases. destruct (u64 t); cbn [andb]; [|discriminate].
  unfold IO.bind at 1, IO.write at 1. apply IH.
Qed.

End WriteLoops.

Section WriteSer.

Variable m : Metadata.
Variable frames : list ndarray.
Variable ts : option (list Z).

Let h := image_height m.
Let w := image_width m.
Let dt := dtype_for (pixel_depth m).

Lemma file_id_invalid_false :
  file_id_invalid m = false -> file_id m = Some (Str.of_string LUCAM_RECORDER).
Proof.
  unfold file_id_invalid. destruct (file_id m) as [s|]; [|discriminate].
  intros H. apply negb_false_iff, str_eqb_eq in H. now subst.
Qed.

Lemma packable_file_id :
  packable m = true -> file_id m = Some (Str.of_string LUCAM_RECORDER).
Proof.
  unfold packable. intros H. apply file_id_invalid_false.
  destruct (file_id_invalid m); [discriminate|reflexivity].
Qed.

(** Past the two early checks, with a header that packs: the file holds
    the header, and the loops run on from there. *)
Lemma write_ser_packed :
  packable m = true ->
  Z.of_nat (List.length frames) = frame_count m ->
  write_ser m frames ts
  = let (content, result) :=
      IO.bind (write_frames frames h w dt)
        (fun _ =>
           match ts with
           | Some ((_ :: _) as l) =>
               if negb (Z.of_nat (List.length l) =? frame_count m) then
                 IO.raise (ValueError "Number of timestamps does not match frame_count.")
               else write_timestamps l
           | _ => IO.ret tt
           end) (packed_header m) in
    (Some content, result).
Proof.
  intros Hp Hn. pose proof (packable_file_id Hp) as Hid.
  unfold write_ser. rewrite (file_id_valid m Hid).
  apply Z.eqb_eq in Hn. rewrite Hn. cbn [negb]. unfold write_body.
  unfold IO.bind at 2, IO.lift at 1.
  rewrite (pack_metadata_packed m Hid Hp).
  unfold IO.bind at 2, IO.write at 1. cbn [app]. reflexivity.
Qed.

Lemma write_ser_unpackable :
  file_id m = Some (Str.of_string LUCAM_RECORDER) ->
  Z.of_nat (List.length frames) = frame_count m ->
  packable m = false ->
  exists e, write_ser m frames ts = (Some [], Raise e)
            /\ (e = StructError \/ e = UnicodeEncodeError).
Proof.
  intros Hid Hn Hp. pose proof (pack_metadata_cases m Hid) as H. rewrite Hp in H.
  destruct H as (e & He & Hk). exists e. split; [|exact Hk].
  unfold write_ser. rewrite (file_id_valid m Hid).
  apply Z.eqb_eq in Hn. rewrite Hn. cbn [negb]. unfold write_body.
  unfold IO.bind at 1, IO.lift at 1. now rewrite He.
Qed.

Lemma write_accepts_layout :
  write_accepts m frames ts = true ->
  write_ser m frames ts
  = (Some (packed_header m ++ frames_bytes dt frames ++ written_timestamps ts), Ok tt).
Proof.
  unfold write_accepts. intros H.
  apply andb_true_iff in H as [H Ht]. apply andb_true_iff in H as [H Hs].
  apply andb_true_iff in H as [Hp Hn]. apply Z.eqb_eq in Hn.
  rewrite (write_ser_packed Hp Hn). unfold IO.bind.
  rewrite (write_frames_all m dt frames _ Hs).
  destruct ts as [[|t l]|]; cbn [written_timestamps].
  - unfold IO.ret. cbn [timestamp_bytes map List.concat].
    now rewrite app_nil_r.
  - apply andb_true_iff in Ht as [Hl Hu]. rewrite Hl. cbn [negb].
    rewrite (write_timestamps_valid _ _ Hu). now rewrite <- app_assoc.
  - unfold IO.ret. now rewrite app_nil_r.
Qed.

Lemma write_ok_accepts :
  snd (write_ser m frames ts) = Ok tt -> write_accepts m frames ts = true.
Proof.
  intros H.
  destruct (file_id_invalid m) eqn:Ei;
    [unfold write_ser in H; rewrite Ei in H; discriminate|].
  destruct (Z.eqb_spec (Z.of_nat (List.length frames)) (frame_count m)) as [Hn|Hn];
    [|unfold write_ser in H; rewrite Ei in H; apply Z.eqb_neq in Hn; rewrite Hn in H;
      discriminate].
  pose proof (file_id_invalid_false Ei) as Hid.
  destruct (packable m) eqn:Hp.
  - rewrite (write_ser_packed Hp Hn) in H. unfold IO.bind in H.
    destruct (write_frames frames h w dt (packed_header m)) as [s1 [[]|e]] eqn:Ef;
      [|discriminate].
    apply write_frames_ok_inv in Ef.
    unfold write_accepts. rewrite Hp, Ef. apply Z.eqb_eq in Hn. rewrite Hn.
    cbn [andb].
    destruct ts as [[|t l]|]; try reflexivity.
    destruct (Z.of_nat (List.length (t :: l)) =? frame_count m); cbn [negb andb] in *;
      [|discriminate].
    destruct (write_timestamps (t :: l) s1) as [s2 [[]|e]] eqn:Et; [|discriminate].
    now apply write_timestamps_ok_inv in Et.
  - destruct (write_ser_unpackable Hid Hn Hp) as (e & He & _).
    rewrite He in H. discriminate.
Qed.

End WriteSer.

Section Astype.

Lemma widen_length (bs : list byte) :
  List.length (widen bs) = (2 * List.length bs)%nat.
Proof.
  induction bs as [|b bs IH]; [reflexivity|].
  unfold widen in *. cbn [flat_map app List.length]. rewrite IH. lia.
Qed.

Lemma narrow_length (k : nat) :
  forall bs, List.length bs = (2 * k)%nat -> List.length (narrow bs) = k.
Proof.
  induction k as [|k IH]; intros bs H.
  - destruct bs; [reflexivity|cbn in H; lia].
  - destruct bs as [|lo [|hi r]]; cbn in H; try lia.
    cbn [narrow List.length]. rewrite IH; [reflexivity|lia].
Qed.

Lemma narrow_widen (bs : list byte) : narrow (widen bs) = bs.
Proof.
  induction bs as [|b bs IH]; [reflexivity|].
  unfold widen in *. cbn [flat_map app narrow]. now rewrite IH.
Qed.

Lemma astype_dtype (f : ndarray) (d : dtype) : arr_dtype (astype f d) = d.
Proof. unfold astype. destruct (arr_dtype f) eqn:E, d; cbn; congruence. Qed.

Lemma astype_shape (f : ndarray) (d : dtype) : shape (astype f d) = shape f.
Proof. unfold astype. now destruct (arr_dtype f), d. Qed.

Lemma astype_idem (f : ndarray) (d : dtype) : astype (astype f d) d = astype f d.
Proof. apply astype_same, astype_dtype. Qed.

Lemma astype_well_formed (f : ndarray) (d : dtype) :
  well_formed f = true -> well_formed (astype f d) = true.
Proof.
  unfold well_formed. intros H. apply Z.eqb_eq in H. apply Z.eqb_eq.
  rewrite astype_dtype, astype_shape.
  unfold astype. destruct (arr_dtype f) eqn:E, d; cbn [buffer itemsize] in *;
    try exact H; unfold Bytes.len in *.
  - rewrite widen_length. lia.
  - rewrite (narrow_length (Z.to_nat (Np.prod (shape f)))); lia.
Qed.

Lemma frames_bytes_astype (d : dtype) (frames : list ndarray) :
  frames_bytes d (map (fun f => astype f d) frames) = frames_bytes d frames.
Proof.
  unfold frames_bytes. rewrite map_map. f_equal. apply map_ext.
  intros f. now rewrite astype_idem.
Qed.

Variable m : Metadata.

Lemma converted_frame_valid (f : ndarray) :
  shape_matches m f = true -> well_formed f = true ->
  valid_frame m (astype f (dtype_for (pixel_depth m))) = true.
Proof.
  intros Hs Hw. apply (astype_well_formed f (dtype_for (pixel_depth m))) in Hw.
  unfold well_formed in Hw. unfold valid_frame.
  unfold shape_matches in Hs. rewrite astype_shape, astype_dtype in *.
  rewrite Hs. apply shape_eqb_eq in Hs. rewrite Hs in Hw.
  cbn [Np.prod fold_right] in Hw. apply Z.eqb_eq in Hw. rewrite Hw.
  replace (dtype_eqb _ _) with true by (now destruct (dtype_for (pixel_depth m))).
  cbn [andb]. apply Z.eqb_eq. ring.
Qed.

Lemma converted_frames_valid (frames : list ndarray) :
  forallb (shape_matches m) frames = true ->
  forallb well_formed frames = true ->
  forallb (valid_frame m) (map (fun f => astype f (dtype_for (pixel_depth m))) frames)
  = true.
Proof.
  induction frames as [|f frames IH]; [reflexivity|].
  cbn [forallb map]. intros Hs Hw.
  apply andb_true_iff in Hs as [Hs1 Hs2]. apply andb_true_iff in Hw as [Hw1 Hw2].
  rewrite converted_frame_valid by assumption. now apply IH.
Qed.

Lemma valid_frame_shape (f : ndarray) :
  valid_frame m f = true -> shape_matches m f = true.
Proof.
  unfold valid_frame, shape_matches. intros H.
  apply andb_true_iff in H as [H _]. now apply andb_true_iff in H as [_ H].
Qed.

Lemma valid_frames_shapes (frames : list ndarray) :
  forallb (valid_frame m) frames = true -> forallb (shape_matches m) frames = true.
Proof.
  induction frames as [|f frames IH]; [reflexivity|].
  cbn [forallb]. intros H. apply andb_true_iff in H as [H1 H2].
  now rewrite valid_frame_shape, IH.
Qed.

Lemma frames_bytes_length (frames : list ndarray) :
  forallb (shape_matches m) frames = true ->
  forallb well_formed frames = true ->
  Z.of_nat (List.length (frames_bytes (dtype_for (pixel_depth m)) frames))
  = Z.of_nat (List.length frames)
    * (image_height m * image_width m * itemsize (dtype_for (pixel_depth m))).
Proof.
  induction frames as [|f fr IH]; [reflexivity|].
  cbn [forallb]. intros Hs Hwf.
  apply andb_true_iff in Hs as [Hs1 Hs2]. apply andb_true_iff in Hwf as [Hw1 Hw2].
  unfold frames_bytes in *. cbn [map List.concat List.length].
  rewrite length_app, Nat2Z.inj_add, IH by assumption.
  pose proof (converted_frame_valid f Hs1 Hw1) as Hv.
  unfold valid_frame in Hv. apply andb_true_iff in Hv as [_ Hv].
  apply Z.eqb_eq in Hv. rewrite astype_dtype in Hv.
  unfold Bytes.len, tobytes in *. rewrite Hv. lia.
Qed.

Hypothesis Hvalid : valid_metadata m = true.

Lemma valid_packable : packable m = true.
Proof.
  destruct (valid_metadata_inv m Hvalid)
    as (Hid & Hlu & Hco & _ & Hw & _ & Hh & Hpd & Hfc & Ho & Hi & Ht & Hd & Hdu).
  unfold packable, file_id_invalid, encodable. rewrite Hid.
  replace (Str.eqb _ _) with true by reflexivity.
  destruct (fits_inv _ _ Ho) as (? & -> & _).
  destruct (fits_inv _ _ Hi) as (? & -> & _).
  destruct (fits_inv _ _ Ht) as (? & -> & _).
  rewrite Hlu, Hco, Hw, Hh, Hfc, Hd, Hdu, (u32_pixel_depth m Hvalid). reflexivity.
Qed.

Lemma valid_write_accepts (frames : list ndarray) (ts : option (list Z)) :
  Z.of_nat (List.length frames) = frame_count m ->
  forallb (shape_matches m) frames = true ->
  valid_timestamps m ts = true ->
  write_accepts m frames ts = true.
Proof.
  intros Hn Hs Ht. unfold write_accepts. rewrite valid_packable, Hs.
  apply Z.eqb_eq in Hn. rewrite Hn. cbn [andb].
  destruct ts as [[|t l]|]; try reflexivity. exact Ht.
Qed.

(** The round trip with frames of either sample width: what comes back is
    each frame converted to the dtype of the file. *)
Lemma write_then_read_converted (frames : list ndarray) (ts : option (list Z)) :
  Z.of_nat (List.length frames) = frame_count m ->
  forallb (shape_matches m) frames = true ->
  forallb well_formed frames = true ->
  valid_timestamps m ts = true ->
  exists content,
    write_ser m frames ts = (Some content, Ok tt)
    /\ read_ser content
       = Ok (normalise_metadata m,
             map (fun f => astype f (dtype_for (pixel_depth m))) frames,
             timestamps_read_back m ts).
Proof.
  intros Hn Hs Hw Ht.
  set (dt := dtype_for (pixel_depth m)).
  set (frames' := map (fun f => astype f dt) frames).
  assert (Hv : valid_frames m frames' = true).
  { unfold valid_frames, frames'. rewrite length_map.
    apply Z.eqb_eq in Hn. rewrite Hn. cbn [andb].
    now apply converted_frames_valid. }
  destruct (write_then_read m Hvalid frames' ts Hv Ht) as (content & Hwr & _ & Hrd).
  exists content. split; [|exact Hrd].
  rewrite (write_accepts_layout m frames ts (valid_write_accepts frames ts Hn Hs Ht)).
  rewrite <- Hwr. symmetry.
  assert (Hn' : Z.of_nat (List.length frames') = frame_count m)
    by (unfold frames'; now rewrite length_map).
  assert (Hs' : forallb (shape_matches m) frames' = true).
  { apply valid_frames_shapes. unfold valid_frames in Hv.
    now apply andb_true_iff in Hv as [_ Hv]. }
  rewrite (write_accepts_layout m frames' ts (valid_write_accepts frames' ts Hn' Hs' Ht)).
  unfold frames'. fold dt. now rewrite frames_bytes_astype.
Qed.

End Astype.

Section TextBack.
Import Str.

Lemma encode_app_inv (a b : str) (bs : list byte) :
  encode (a ++ b) = Ok bs ->
  exists ba bb, encode a = Ok ba /\ encode b = Ok bb /\ bs = ba ++ bb.
Proof.
  revert bs. induction a as [|c a IH]; intros bs.
  - cbn [app encode]. intros E. exists [], bs. auto.
  - cbn [app encode].
    destruct (encode_char c) as [bc|]; [|discriminate]. cbn [obind].
    destruct (encode (a ++ b)) as [r|] eqn:Er; [|discriminate]. cbn [obind].
    intros E. apply Ok_inj in E. subst bs.
    destruct (IH r eq_refl) as (ba & bb & Ea & Eb & ->).
    exists (bc ++ ba), bb. rewrite Ea. cbn [obind].
    repeat split; [exact Eb|now rewrite app_assoc].
Qed.

Lemma lstrip_chars_suffix (p : Z -> bool) (s : str) :
  exists pre, s = pre ++ lstrip_chars p s.
Proof.
  induction s as [|c s [pre IH]]; [now exists []|].
  cbn [lstrip_chars]. destruct (p c).
  - exists (c :: pre). cbn. now rewrite <- IH.
  - now exists [].
Qed.

Lemma rstrip_chars_prefix (p : Z -> bool) (s : str) :
  exists post, s = rstrip_chars p s ++ post.
Proof.
  unfold rstrip_chars. destruct (lstrip_chars_suffix p (rev s)) as [pre H].
  exists (rev pre). rewrite <- rev_app_distr, <- H. now rewrite rev_involutive.
Qed.

Lemma normalise_inside (s : str) :
  exists pre post, s = pre ++ normalise s ++ post.
Proof.
  unfold normalise, strip, rstrip_nul.
  destruct (rstrip_chars_prefix isnul s) as [post1 H1].
  set (t := rstrip_chars isnul s) in *.
  destruct (lstrip_chars_suffix isspace t) as [pre H2].
  set (u := lstrip_chars isspace t) in *.
  destruct (rstrip_chars_prefix isspace u) as [post2 H3].
  exists pre, (post2 ++ post1).
  rewrite H1 at 1. rewrite H2 at 1. rewrite H3 at 1.
  now rewrite <- !app_assoc.
Qed.

(** What [_decode_field] returns can be encoded again, on no more bytes
    than it was read from. *)
Lemma decode_field_fits (bs : list byte) (s : str) :
  _decode_field bs = Ok s -> fits (List.length bs) s = true.
Proof.
  unfold _decode_field. destruct (decode bs) as [t|] eqn:Ed; [|discriminate].
  cbn [obind]. intros E. apply Ok_inj in E. fold (normalise t) in E. subst s.
  apply encode_decode in Ed.
  destruct (normalise_inside t) as (pre & post & Ht).
  rewrite Ht in Ed.
  destruct (encode_app_inv _ _ _ Ed) as (b1 & b23 & _ & E23 & ->).
  destruct (encode_app_inv _ _ _ E23) as (b2 & b3 & E2 & _ & ->).
  unfold fits. rewrite E2. apply Nat.leb_le. rewrite !length_app. lia.
Qed.

Lemma fits_encodable (n : nat) (s : str) : fits n s = true -> encodable s = true.
Proof. unfold fits, encodable. now destruct (encode s). Qed.

Lemma lstrip_chars_head (p : Z -> bool) (s : str) (c : Z) (r : str) :
  lstrip_chars p s = c :: r -> p c = false.
Proof.
  induction s as [|x s IH]; [discriminate|].
  cbn [lstrip_chars]. destruct (p x) eqn:E; [exact IH|].
  intros H. injection H as -> _. exact E.
Qed.

(** [strip] leaves no blank at either end. *)
Lemma strip_ends (s : str) :
  (forall c r, strip s = c :: r -> isspace c = false)
  /\ (forall c r, rev (strip s) = c :: r -> isspace c = false).
Proof.
  unfold strip. set (u := lstrip_chars isspace s). split; intros c r H.
  - destruct (rstrip_chars_prefix isspace u) as [post Hp].
    rewrite H in Hp. cbn [app] in Hp.
    apply (lstrip_chars_head isspace s c (r ++ post)). exact Hp.
  - unfold rstrip_chars in H. rewrite rev_involutive in H.
    now apply lstrip_chars_head in H.
Qed.

End TextBack.

Section ReadResults.

Variables (file : list byte) (m : Metadata) (frames : list ndarray)
          (ts : option (list Z)).
Hypothesis Hread : read_ser file = Ok (m, frames, ts).

Lemma read_result_header : exists rest, read_header file = (rest, Ok m).
Proof. destruct (read_ser_inv _ _ _ _ Hread) as (rest & _ & H & _). eauto. Qed.

Lemma read_result_text :
  fits 40 (observer m) = true /\ fits 40 (instrument m) = true
  /\ fits 40 (telescope m) = true.
Proof.
  destruct read_result_header as [rest H]. apply read_header_inv in H.
  cbv zeta in H.
  destruct H as (Hl & _ & _ & _ & _ & _ & _ & _ & _ & _ & _ & Eo & Ei & Et & _).
  assert (Hh : List.length (firstn Struct.header_size file) = Struct.header_size)
    by (rewrite length_firstn; lia).
  apply decode_field_fits in Eo, Ei, Et.
  rewrite slice_length in Eo, Ei, Et by (rewrite Hh; cbn; lia). auto.
Qed.

Lemma read_result_packable : packable m = true.
Proof.
  destruct read_result_header as [rest H].
  destruct (read_header_ranges _ _ _ H) as (H1 & H2 & H3 & H4 & H5 & H6 & H7 & H8).
  apply read_header_inv in H. cbv zeta in H.
  destruct H as (_ & _ & _ & Hid & _).
  destruct read_result_text as (Ho & Hi & Ht).
  apply fits_encodable in Ho, Hi, Ht.
  unfold packable, file_id_invalid. rewrite Hid.
  replace (Str.eqb _ _) with true by reflexivity.
  now rewrite Ho, Hi, Ht, H1, H2, H3, H4, H5, H6, H7, H8.
Qed.

Lemma read_result_frames : valid_frames m frames = true.
Proof.
  destruct (read_ser_inv _ _ _ _ Hread) as (rest & rest' & Hh & Hf & _).
  destruct (read_header_ranges _ _ _ Hh) as (_ & _ & _ & _ & _ & Hfc & _).
  apply u32_range in Hfc.
  apply read_frames_inv in Hf. destruct Hf as (new & Hfr & Hlen & Hall & _).
  cbn [app] in Hfr. subst new. unfold valid_frames.
  replace (Z.of_nat (List.length frames) =? frame_count m) with true
    by (symmetry; apply Z.eqb_eq; lia).
  cbn [andb]. apply forallb_forall. intros f Hin.
  rewrite Forall_forall in Hall. destruct (Hall f Hin) as (Hd & Hs & _ & Hl).
  unfold valid_frame. rewrite Hd, Hs, Hl.
  replace (dtype_eqb _ _) with true by (now destruct (dtype_for (pixel_depth m))).
  replace (shape_eqb _ _) with true by (symmetry; now apply shape_eqb_eq).
  cbn [andb]. apply Z.eqb_refl.
Qed.

Lemma read_result_timestamps : valid_timestamps m ts = true.
Proof.
  destruct (read_ser_inv _ _ _ _ Hread) as (rest & rest' & Hh & _ & Ht).
  destruct (read_header_ranges _ _ _ Hh) as (_ & _ & _ & _ & _ & Hfc & _).
  apply u32_range in Hfc.
  apply read_timestamps_inv in Ht. destruct ts as [l|]; [|reflexivity].
  destruct Ht as (_ & Hl & Hu). cbn [valid_timestamps]. rewrite Hu, andb_true_r.
  apply Z.eqb_eq. lia.
Qed.

Lemma read_result_accepted : write_accepts m frames ts = true.
Proof.
  pose proof read_result_frames as Hf. pose proof read_result_timestamps as Ht.
  unfold valid_frames in Hf. apply andb_true_iff in Hf as [Hn Hf].
  unfold write_accepts. rewrite read_result_packable, Hn.
  rewrite (valid_frames_shapes m frames Hf). cbn [andb].
  destruct ts as [[|t l]|]; try reflexivity. exact Ht.
Qed.

End ReadResults.

Section Trailing.

Lemma firstn_app_short {A} (n : nat) (a b : list A) :
  (n <= List.length a)%nat -> firstn n (a ++ b) = firstn n a.
Proof.
  intros H. rewrite firstn_app.
  replace (n - List.length a)%nat with 0%nat by lia. now rewrite firstn_O, app_nil_r.
Qed.

Lemma skipn_app_short {A} (n : nat) (a b : list A) :
  (n <= List.length a)%nat -> skipn n (a ++ b) = skipn n a ++ b.
Proof.
  intros H. rewrite skipn_app.
  now replace (n - List.length a)%nat with 0%nat by lia.
Qed.

Variable extra : list byte.

(** [read_header] looks at the first 178 bytes and leaves the rest. *)
Lemma read_header_prefix (s : list byte) :
  read_header s
  = (skipn Struct.header_size s, snd (read_header (firstn Struct.header_size s))).
Proof.
  unfold read_header, IO.bind, IO.read, IO.lift, IO.raise, IO.ret.
  change (Z.of_nat Struct.header_size <? 0) with false. cbv iota.
  rewrite Nat2Z.id, firstn_firstn, Nat.min_id.
  repeat match goal with
         | |- context [match ?x with Ok _ => _ | Raise _ => _ end] => destruct x
         | |- context [if ?b then _ else _] => destruct b
         end; reflexivity.
Qed.

Lemma read_header_app (file rest : list byte) (m : Metadata) :
  read_header file = (rest, Ok m) ->
  read_header (file ++ extra) = (rest ++ extra, Ok m).
Proof.
  intros H. pose proof (read_header_inv _ _ _ H) as Hi. cbv zeta in Hi.
  destruct Hi as (Hl & _).
  rewrite read_header_prefix in H. rewrite read_header_prefix.
  rewrite firstn_app_short, skipn_app_short by exact Hl.
  pose proof (f_equal fst H) as H1. pose proof (f_equal snd H) as H2.
  cbn [fst snd] in H1, H2. now rewrite H1, H2.
Qed.

Lemma read_frames_shrinks (n : nat) (fs : Z) (dt : dtype) (h w : Z)
    (acc : list ndarray) (s : list byte) :
  (List.length (fst (read_frames n fs dt h w acc s)) <= List.length s)%nat.
Proof.
  revert acc s. induction n as [|n IH]; intros acc s; [cbn; lia|].
  cbn [read_frames]. unfold IO.bind at 1. unfold IO.read.
  destruct (fs <? 0).
  - destruct (Bytes.is_empty s); [cbn; lia|].
    unfold IO.bind at 1, IO.lift at 1.
    destruct (frombuffer s dt); [|cbn; lia].
    unfold IO.bind at 1, IO.lift at 1.
    destruct (reshape _ _); [|cbn; lia].
    specialize (IH (acc ++ [a0]) []). cbn [List.length] in *. lia.
  - assert (Hk : (List.length (skipn (Z.to_nat fs) s) <= List.length s)%nat)
      by (rewrite length_skipn; lia).
    destruct (Bytes.is_empty _); [cbn; lia|].
    unfold IO.bind at 1, IO.lift at 1.
    destruct (frombuffer _ dt); [|cbn; lia].
    unfold IO.bind at 1, IO.lift at 1.
    destruct (reshape _ _); [|cbn; lia].
    specialize (IH (acc ++ [a0]) (skipn (Z.to_nat fs) s)). lia.
Qed.

(** Frames read with bytes to spare are read the same from a longer
    stream. *)
Lemma read_frames_app (n : nat) (fs : Z) (dt : dtype) (h w : Z)
    (acc frames : list ndarray) (s s' : list byte) :
  0 <= fs ->
  read_frames n fs dt h w acc s = (s', Ok frames) ->
  n = 0%nat \/ s' <> [] ->
  read_frames n fs dt h w acc (s ++ extra) = (s' ++ extra, Ok frames).
Proof.
  intros Hfs. revert acc s. induction n as [|n IH]; intros acc s H Hne.
  - cbn in *. injection H as <- <-. reflexivity.
  - destruct Hne as [Hn|Hne]; [discriminate|].
    pose proof (read_frames_shrinks n fs dt h w) as Hsh.
    revert H. cbn [read_frames]. unfold IO.bind at 1 3. unfold IO.read.
    destruct (Z.ltb_spec fs 0) as [Hneg|Hnn]; [lia|].
    set (k := Z.to_nat fs).
    destruct (Bytes.is_empty (firstn k s)) eqn:Ee; [discriminate|].
    unfold IO.bind at 1, IO.lift at 1.
    destruct (frombuffer (firstn k s) dt) as [a|] eqn:Ea; [|discriminate].
    unfold IO.bind at 1, IO.lift at 1.
    destruct (reshape a [h; w]) as [f|] eqn:Ef; [|discriminate].
    intros H.
    assert (Hlen : (k < List.length s)%nat).
    { specialize (Hsh (acc ++ [f]) (skipn k s)). rewrite H in Hsh. cbn [fst] in Hsh.
      rewrite length_skipn in Hsh.
      destruct s' as [|x s']; [congruence|]. cbn [List.length] in Hsh. lia. }
    rewrite firstn_app_short, skipn_app_short by lia.
    rewrite Ee. unfold IO.bind at 1, IO.lift at 1. rewrite Ea.
    unfold IO.bind at 1, IO.lift at 1. rewrite Ef.
    apply IH; [exact H|now right].
Qed.

Lemma unpack_timestamps_app (rem : list byte) (i n : nat) (l : list Z) :
  unpack_timestamps rem i n = Ok l -> unpack_timestamps (rem ++ extra) i n = Ok l.
Proof.
  revert i l. induction n as [|n IH]; intros i l; [trivial|].
  cbn [unpack_timestamps]. unfold Struct.unpack_from_Q.
  destruct (Nat.leb_spec (i * 8 + 8) (List.length rem)) as [Hl|Hl]; [|discriminate].
  destruct (Nat.leb_spec (i * 8 + 8) (List.length (rem ++ extra))) as [Hl'|Hl'];
    [|rewrite length_app in Hl'; lia].
  cbn [obind].
  destruct (unpack_timestamps rem (S i) n) as [r|] eqn:Er; [|discriminate].
  rewrite (IH _ _ Er). cbn [obind].
  rewrite skipn_app_short by lia.
  rewrite firstn_app_short by (rewrite length_skipn; lia). trivial.
Qed.

End Trailing.

Section Slices.

Lemma forallb_firstn {A} (p : A -> bool) (n : nat) (l : list A) :
  forallb p l = true -> forallb p (firstn n l) = true.
Proof.
  revert n. induction l as [|x l IH]; intros [|n]; cbn; auto.
  intros H. apply andb_true_iff in H as [-> H]. cbn. now apply IH.
Qed.

Lemma forallb_skipn {A} (p : A -> bool) (n : nat) (l : list A) :
  forallb p l = true -> forallb p (skipn n l) = true.
Proof.
  revert n. induction l as [|x l IH]; intros [|n]; cbn; auto.
  intros H. apply andb_true_iff in H as [_ H]. now apply IH.
Qed.

Lemma forallb_py_slice {A} (p : A -> bool) (start stop : nat) (l : list A) :
  forallb p l = true -> forallb p (py_slice start stop l) = true.
Proof. intros H. unfold py_slice. now apply forallb_firstn, forallb_skipn. Qed.

Lemma py_slice_length {A} (start stop : nat) (l : list A) :
  List.length (py_slice start stop l)
  = Nat.min (stop - start) (List.length l - start).
Proof. unfold py_slice. now rewrite length_firstn, length_skipn. Qed.

Lemma py_slice_short {A} (start stop : nat) (l : list A) :
  (List.length (py_slice start stop l) <= List.length l)%nat.
Proof. rewrite py_slice_length. lia. Qed.

End Slices.

Section Extract.

Variables (file : list byte) (m : Metadata) (frames : list ndarray)
          (ts : option (list Z)).
Hypothesis Hread : read_ser file = Ok (m, frames, ts).
Variables start stop : nat.

Let selected := py_slice start stop frames.
Let m' := set_frame_count m (Z.of_nat (List.length selected)).

Lemma selected_count_u32 : u32 (Z.of_nat (List.length selected)) = true.
Proof.
  pose proof (read_result_frames _ _ _ _ Hread) as Hf.
  unfold valid_frames in Hf. apply andb_true_iff in Hf as [Hn _].
  apply Z.eqb_eq in Hn.
  destruct (read_result_header _ _ _ _ Hread) as [rest Hh].
  destruct (read_header_ranges _ _ _ Hh) as (_ & _ & _ & _ & _ & Hfc & _).
  apply u32_range in Hfc. change (256 ^ Z.of_nat 4) with (2 ^ 32) in Hfc.
  pose proof (py_slice_short start stop frames). fold selected in H.
  unfold u32. apply andb_true_iff. split; [apply Z.leb_le | apply Z.ltb_lt]; lia.
Qed.

Lemma selected_packable : packable m' = true.
Proof.
  pose proof (read_result_packable _ _ _ _ Hread) as Hp.
  unfold packable in *. unfold m'.
  cbn [set_frame_count file_id observer instrument telescope date_time date_time_utc
       lu_id color_id image_width image_height pixel_depth frame_count].
  unfold file_id_invalid in *. cbn [set_frame_count file_id].
  rewrite selected_count_u32, andb_true_r.
  repeat match type of Hp with
         | _ && _ = true => let H' := fresh "Hr" in apply andb_true_iff in Hp as [Hp H']
         end.
  now rewrite Hp, Hr9, Hr8, Hr7, Hr6, Hr5, Hr4, Hr3, Hr2, Hr1, Hr0.
Qed.

Lemma selected_frames_valid : valid_frames m' selected = true.
Proof.
  pose proof (read_result_frames _ _ _ _ Hread) as Hf.
  unfold valid_frames in *. apply andb_true_iff in Hf as [_ Hf].
  unfold m' at 1. cbn [set_frame_count frame_count]. rewrite Z.eqb_refl. cbn [andb].
  apply (forallb_py_slice _ start stop) in Hf. exact Hf.
Qed.

Lemma selected_timestamps_valid :
  valid_timestamps m' (select_timestamps start stop ts) = true.
Proof.
  pose proof (read_result_timestamps _ _ _ _ Hread) as Ht.
  pose proof (read_result_frames _ _ _ _ Hread) as Hf.
  unfold valid_frames in Hf. apply andb_true_iff in Hf as [Hn _].
  apply Z.eqb_eq in Hn.
  destruct ts as [[|t l]|]; try reflexivity.
  cbn [valid_timestamps select_timestamps] in *.
  apply andb_true_iff in Ht as [Hl Hu]. apply Z.eqb_eq in Hl.
  rewrite (forallb_py_slice _ start stop _ Hu), andb_true_r.
  unfold m'. cbn [set_frame_count frame_count]. apply Z.eqb_eq.
  unfold selected. rewrite !py_slice_length. lia.
Qed.

Lemma selected_accepted :
  write_accepts m' selected (select_timestamps start stop ts) = true.
Proof.
  pose proof selected_frames_valid as Hf. pose proof selected_timestamps_valid as Ht.
  unfold valid_frames in Hf. apply andb_true_iff in Hf as [Hn Hf].
  unfold write_accepts. rewrite selected_packable, Hn.
  rewrite (valid_frames_shapes m' selected Hf). cbn [andb].
  destruct (select_timestamps start stop ts) as [[|t l]|]; try reflexivity.
  exact Ht.
Qed.

Lemma selected_metadata_valid :
  pixel_depth m = 8 \/ pixel_depth m = 16 ->
  0 < image_width m -> 0 < image_height m ->
  valid_metadata m' = true.
Proof.
  intros Hpd Hw Hh.
  destruct (read_result_header _ _ _ _ Hread) as [rest Hhd].
  destruct (read_header_ranges _ _ _ Hhd) as (H1 & H2 & H3 & H4 & H5 & H6 & H7 & H8).
  destruct (read_result_text _ _ _ _ Hread) as (Ho & Hi & Ht).
  apply read_header_inv in Hhd. cbv zeta in Hhd. destruct Hhd as (_ & _ & _ & Hid & _).
  unfold valid_metadata, m', file_id_invalid.
  cbn [set_frame_count file_id observer instrument telescope date_time date_time_utc
       lu_id color_id image_width image_height pixel_depth frame_count].
  rewrite Hid. replace (Str.eqb _ _) with true by reflexivity.
  rewrite H1, H2, H3, H4, H7, H8, Ho, Hi, Ht, selected_count_u32.
  apply Z.ltb_lt in Hw, Hh. rewrite Hw, Hh.
  replace ((pixel_depth m =? 8) || (pixel_depth m =? 16)) with true
    by (destruct Hpd as [-> | ->]; reflexivity).
  reflexivity.
Qed.

End Extract.

Section Rewrite.

Lemma frames_bytes_same_dtype (m : Metadata) (frames : list ndarray) :
  forallb (valid_frame m) frames = true ->
  frames_bytes (dtype_for (pixel_depth m)) frames = List.concat (map buffer frames).
Proof.
  induction frames as [|f frames IH]; [reflexivity|].
  cbn [forallb]. intros H. apply andb_true_iff in H as [Hf H].
  unfold frames_bytes in *. cbn [map List.concat]. rewrite IH by exact H.
  destruct (valid_frame_inv m f Hf) as (Hd & _). now rewrite astype_same.
Qed.

End Rewrite.

Section Samples.

Lemma samples16_widen (bs : list byte) : samples16 (widen bs) = samples8 bs.
Proof.
  induction bs as [|b bs IH]; [reflexivity|].
  unfold widen in *. cbn [flat_map app samples16 samples8 map]. rewrite IH.
  f_equal. change (Bytes.Z_of_byte x00) with 0. lia.
Qed.

(** Induction two elements at a time. *)
Lemma list_pair_ind {A} (P : list A -> Prop) :
  P [] -> (forall a, P [a]) -> (forall a b l, P l -> P (a :: b :: l)) ->
  forall l, P l.
Proof.
  intros H0 H1 H2. fix F 1. intros [|a [|b l]].
  - exact H0.
  - apply H1.
  - apply H2, F.
Qed.

Lemma samples8_narrow (bs : list byte) :
  samples8 (narrow bs) = map (fun v => v mod 256) (samples16 bs).
Proof.
  induction bs as [|lo|lo hi r IH] using list_pair_ind; try reflexivity.
  cbn [narrow samples8 samples16 map]. f_equal.
  - pose proof (Z_of_byte_range lo). pose proof (Z_of_byte_range hi).
    Z.div_mod_to_equations. lia.
  - exact IH.
Qed.

Lemma samples8_small (bs : list byte) :
  map (fun v => v mod 256) (samples8 bs) = samples8 bs.
Proof.
  unfold samples8. rewrite map_map. apply map_ext. intros b.
  apply Z.mod_small, Z_of_byte_range.
Qed.

Lemma samples8_small16 (bs : list byte) :
  map (fun v => v mod 65536) (samples8 bs) = samples8 bs.
Proof.
  unfold samples8. rewrite map_map. apply map_ext. intros b.
  pose proof (Z_of_byte_range b). apply Z.mod_small. lia.
Qed.

Lemma samples16_small (bs : list byte) :
  map (fun v => v mod 65536) (samples16 bs) = samples16 bs.
Proof.
  induction bs as [|lo|lo hi r IH] using list_pair_ind; try reflexivity.
  cbn [samples16 map]. f_equal.
  - pose proof (Z_of_byte_range lo). pose proof (Z_of_byte_range hi).
    apply Z.mod_small. lia.
  - exact IH.
Qed.

(** Conversion keeps each sample modulo the range of the target dtype. *)
Lemma samples_astype (f : ndarray) (d : dtype) :
  samples (astype f d) = map (fun v => v mod 256 ^ itemsize d) (samples f).
Proof.
  unfold samples, astype.
  destruct (arr_dtype f) eqn:E, d; cbn [arr_dtype buffer itemsize]; rewrite ?E.
  - change (256 ^ 1) with 256. symmetry. apply samples8_small.
  - change (256 ^ 2) with 65536. rewrite samples16_widen. symmetry.
    apply samples8_small16.
  - change (256 ^ 1) with 256. apply samples8_narrow.
  - change (256 ^ 2) with 65536. symmetry. apply samples16_small.
Qed.

End Samples.

Section Padding.
Import Str.

Lemma decode_ascii (bs : list byte) :
  forallb (fun b => Bytes.Z_of_byte b <? 0x80) bs = true ->
  decode bs = Ok (map Bytes.Z_of_byte bs).
Proof.
  induction bs as [|b bs IH]; [reflexivity|].
  cbn [forallb]. intros H. apply andb_true_iff in H as [Hb H].
  cbn [decode map]. rewrite Hb, IH by exact H. reflexivity.
Qed.

Lemma forallb_repeat {A} (p : A -> bool) (x : A) (k : nat) :
  p x = true -> forallb p (repeat x k) = true.
Proof. intros H. induction k; cbn; [reflexivity|]. now rewrite H. Qed.

Lemma trimmed_inv (s : str) :
  trimmed s = true ->
  lstrip_chars isspace s = s
  /\ rstrip_chars isspace s = s
  /\ rstrip_chars isnul s = s.
Proof.
  unfold trimmed, rstrip_chars. intros H. apply andb_true_iff in H as [Hl Hr].
  repeat split.
  - destruct s as [|c r]; [reflexivity|]. cbn [lstrip_chars]. now destruct (isspace c).
  - destruct (rev s) as [|c r] eqn:E.
    + cbn. now rewrite <- (rev_involutive s), E.
    + apply andb_true_iff in Hr as [Hr _]. cbn [lstrip_chars].
      destruct (isspace c); [discriminate|]. now rewrite <- E, rev_involutive.
  - destruct (rev s) as [|c r] eqn:E.
    + cbn. now rewrite <- (rev_involutive s), E.
    + apply andb_true_iff in Hr as [_ Hr]. cbn [lstrip_chars].
      destruct (isnul c); [discriminate|]. now rewrite <- E, rev_involutive.
Qed.

(** Blanks, then NULs, after a text are padding: both are dropped. *)
Lemma decode_field_padded (s : str) (bs : list byte) (j k : nat) :
  trimmed s = true -> encode s = Ok bs ->
  _decode_field (bs ++ repeat " "%byte j ++ repeat x00 k) = Ok s.
Proof.
  intros Ht Ee. destruct (trimmed_inv s Ht) as (Hl & Hr & Hn).
  unfold _decode_field. rewrite (decode_encode s bs _ Ee).
  rewrite decode_ascii
    by (rewrite forallb_app, !forallb_repeat; reflexivity).
  cbn [obind]. rewrite map_app, !map_repeat.
  change (Bytes.Z_of_byte " "%byte) with 32. change (Bytes.Z_of_byte x00) with 0.
  f_equal. unfold rstrip_nul.
  rewrite app_assoc, rstrip_chars_repeat by reflexivity.
  assert (Hnul : rstrip_chars isnul (s ++ repeat 32 j) = s ++ repeat 32 j).
  { destruct j as [|j]; [cbn [repeat]; now rewrite app_nil_r|].
    unfold rstrip_chars. rewrite rev_app_distr, rev_repeat_Z.
    cbn [repeat app lstrip_chars]. change (isnul 32) with false. cbv iota.
    change (32 :: repeat 32 j ++ rev s) with (repeat 32 (S j) ++ rev s).
    now rewrite <- rev_repeat_Z, <- rev_app_distr, rev_involutive. }
  rewrite Hnul. unfold strip.
  destruct s as [|c r].
  - cbn [app]. rewrite <- (app_nil_r (repeat 32 j)), lstrip_chars_repeat by reflexivity.
    reflexivity.
  - assert (Hc : isspace c = false)
      by (cbn [lstrip_chars] in Hl; destruct (isspace c); [|reflexivity];
          exfalso; apply (f_equal (@List.length Z)) in Hl; cbn in Hl;
          destruct (lstrip_chars_suffix isspace r) as [pre Hp];
          rewrite Hp in Hl at 2; rewrite length_app in Hl; lia).
    cbn [app lstrip_chars]. rewrite Hc.
    change (c :: r ++ repeat 32 j) with ((c :: r) ++ repeat 32 j).
    rewrite rstrip_chars_repeat by reflexivity. exact Hr.
Qed.

End Padding.

Section ReadFailures.







End ReadFailures.

(** ** The specification, statement by statement *)

Section Guards.

Lemma file_id_invalid_iff (m : Metadata) :
  file_id_invalid m = true <-> file_id m <> Some (Str.of_string LUCAM_RECORDER).
Proof.
  unfold file_id_invalid. destruct (file_id m) as [s|]; split;
    try congruence; try reflexivity.
  - intros H E. apply negb_true_iff in H. injection E as ->.
    assert (Str.eqb (Str.of_string LUCAM_RECORDER) (Str.of_string LUCAM_RECORDER) = true)
      by now apply str_eqb_eq.
    congruence.
  - intros H. apply negb_true_iff.
    destruct (Str.eqb s (Str.of_string LUCAM_RECORDER)) eqn:E; [|reflexivity].
    apply str_eqb_eq in E. congruence.
Qed.

Lemma normalise_trimmed_metadata (m : Metadata) :
  trimmed_text m = true -> normalise_metadata m = m.
Proof.
  unfold trimmed_text, normalise_metadata. intros H.
  apply andb_true_iff in H as [H Ht]. apply andb_true_iff in H as [Ho Hi].
  rewrite !trimmed_normalise by assumption. now destruct m.
Qed.

Lemma read_header_pixel_depth (file rest : list byte) (m : Metadata) :
  read_header file = (rest, Ok m) -> 0 <= pixel_depth m.
Proof.
  unfold read_header, IO.bind, IO.read, IO.lift, IO.raise, IO.ret.
  change (Z.of_nat Struct.header_size <? 0) with false. cbv iota.
  unfold Struct.unpack_header.
  destruct (Nat.eqb _ Struct.header_size); [|discriminate].
  destruct (negb _); [discriminate|].
  repeat (match goal with
          | |- context [match ?x with Ok _ => _ | Raise _ => _ end] =>
              destruct x; cbv beta iota
          end; try discriminate).
  intros E. apply (f_equal snd) in E. cbn [snd] in E. apply Ok_inj in E.
  subst m. cbn [pixel_depth Struct.h_pixel_depth]. apply le_int_nonneg.
Qed.

End Guards.

(** C1 (as amended). For valid metadata whose text fields fit their 40
    bytes and carry no padding of their own (no blank at either end, no
    trailing NUL), and frames of the declared count, shape and sample
    width, [write_ser] succeeds and [read_ser] of the bytes it wrote returns
    the same metadata, field for field, and the same frames, bit for bit and
    in order; timestamps that were supplied come back too. *)
Theorem write_read_round_trip (m : Metadata) (frames : list ndarray)
    (ts : option (list Z)) :
  valid_metadata m = true ->
  trimmed_text m = true ->
  valid_frames m frames = true ->
  valid_timestamps m ts = true ->
  exists content,
    write_ser m frames ts = (Some content, Ok tt)
    /\ read_ser content = Ok (m, frames, timestamps_read_back m ts).
Proof.
  intros Hm Ht Hf Hts.
  destruct (write_then_read m Hm frames ts Hf Hts) as (content & Hw & _ & Hr).
  exists content. split; [exact Hw|].
  rewrite Hr. now rewrite normalise_trimmed_metadata.
Qed.

Lemma write_read_round_trip_witness :
  exists content,
    write_ser Examples.test_metadata Examples.test_frames
              (Some Examples.test_timestamps) = (Some content, Ok tt)
    /\ read_ser content
       = Ok (Examples.test_metadata, Examples.test_frames,
             Some Examples.test_timestamps).
Proof.
  exact (write_read_round_trip Examples.test_metadata Examples.test_frames
           (Some Examples.test_timestamps) eq_refl eq_refl eq_refl eq_refl).
Defined.

(** C1, as stated, fails: an observer with a trailing blank is valid
    metadata, and it is read back without the blank. *)
Lemma round_trip_strips_observer :
  valid_metadata Examples.padded_metadata = true
  /\ valid_frames Examples.padded_metadata Examples.one_pixel = true
  /\ exists content m',
      write_ser Examples.padded_metadata Examples.one_pixel None
      = (Some content, Ok tt)
      /\ read_ser content = Ok (m', Examples.one_pixel, None)
      /\ observer m' = Str.of_string "Tester"
      /\ m' <> Examples.padded_metadata.
Proof.
  split; [reflexivity|]. split; [reflexivity|].
  eexists. eexists. split; [vm_compute; reflexivity|].
  split; [vm_compute; reflexivity|]. split; [reflexivity|].
  intros E. apply (f_equal observer) in E. vm_compute in E. discriminate E.
Qed.

(** C2 (as amended). The two checks made before the file is opened, the
    file id and the number of frames, raise [ValueError] with the
    destination untouched. The other two are made while writing: with a
    header that packs, a frame of the wrong shape raises [ValueError] once
    the 178-byte header and the frames before it are in the file, and a
    non-empty timestamp list of the wrong length once the header and every
    frame are. *)
Theorem write_ser_check_order (m : Metadata) (frames : list ndarray)
    (ts : option (list Z)) :
  (file_id m <> Some (Str.of_string LUCAM_RECORDER) ->
   write_ser m frames ts
   = (None, Raise (ValueError "Invalid metadata: file_id must be 'LUCAM-RECORDER'.")))
  /\ (file_id m = Some (Str.of_string LUCAM_RECORDER) ->
      Z.of_nat (List.length frames) <> frame_count m ->
      write_ser m frames ts
      = (None,
         Raise (ValueError "Number of frames does not match frame_count in metadata.")))
  /\ (packable m = true ->
      Z.of_nat (List.length frames) = frame_count m ->
      List.length (packed_header m) = 178%nat
      /\ (forall good bad rest,
            frames = good ++ bad :: rest ->
            forallb (shape_matches m) good = true ->
            shape_matches m bad = false ->
            write_ser m frames ts
            = (Some (packed_header m
                     ++ frames_bytes (dtype_for (pixel_depth m)) good),
               Raise (ValueError (shape_mismatch_msg (shape bad) (image_height m)
                                                     (image_width m)))))
      /\ (forall t l,
            ts = Some (t :: l) ->
            forallb (shape_matches m) frames = true ->
            Z.of_nat (List.length (t :: l)) <> frame_count m ->
            write_ser m frames ts
            = (Some (packed_header m
                     ++ frames_bytes (dtype_for (pixel_depth m)) frames),
               Raise (ValueError "Number of timestamps does not match frame_count.")))).
Proof.
  split; [|split].
  - intros Hid. apply file_id_invalid_iff in Hid. unfold write_ser.
    now rewrite Hid.
  - intros Hid Hn. unfold write_ser. rewrite (file_id_valid m Hid).
    apply Z.eqb_neq in Hn. now rewrite Hn.
  - intros Hp Hn. split; [|split].
    + exact (packed_header_length m (packable_file_id m Hp) Hp).
    + intros good bad rest -> Hg Hb.
      rewrite (write_ser_packed m _ ts Hp Hn). unfold IO.bind.
      now rewrite (write_frames_stops m _ good rest bad _ Hg Hb).
    + intros t l -> Hs Hl.
      rewrite (write_ser_packed m _ _ Hp Hn). unfold IO.bind.
      rewrite (write_frames_all m _ frames _ Hs).
      apply Z.eqb_neq in Hl. rewrite Hl. reflexivity.
Qed.

Lemma write_ser_check_order_witness :
  write_ser Examples.wrong_id_metadata Examples.one_pixel None
  = (None, Raise (ValueError "Invalid metadata: file_id must be 'LUCAM-RECORDER'."))
  /\ write_ser Examples.one_pixel_metadata [] None
     = (None,
        Raise (ValueError "Number of frames does not match frame_count in metadata."))
  /\ List.length (packed_header MoreExamples.three_pixel_metadata) = 178%nat
  /\ write_ser MoreExamples.three_pixel_metadata
       [Examples.ramp8 1 1 1; Examples.ramp8 2 2 1; Examples.ramp8 1 1 3] None
     = (Some (packed_header MoreExamples.three_pixel_metadata
              ++ frames_bytes uint8 [Examples.ramp8 1 1 1]),
        Raise (ValueError "Frame dimensions (2, 2) do not match metadata (1, 1)."))
  /\ write_ser Examples.one_pixel_metadata Examples.one_pixel (Some [1; 2])
     = (Some (packed_header Examples.one_pixel_metadata
              ++ frames_bytes uint8 Examples.one_pixel),
        Raise (ValueError "Number of timestamps does not match frame_count.")).
Proof.
  split; [|split; [|split; [|split]]].
  - apply (proj1 (write_ser_check_order Examples.wrong_id_metadata
                    Examples.one_pixel None)).
    vm_compute. discriminate.
  - apply (proj1 (proj2 (write_ser_check_order Examples.one_pixel_metadata [] None)));
      [reflexivity|vm_compute; discriminate].
  - apply (proj2 (proj2 (write_ser_check_order MoreExamples.three_pixel_metadata
             [Examples.ramp8 1 1 1; Examples.ramp8 2 2 1; Examples.ramp8 1 1 3] None)));
      reflexivity.
  - apply (proj1 (proj2 (proj2 (proj2 (write_ser_check_order
             MoreExamples.three_pixel_metadata
             [Examples.ramp8 1 1 1; Examples.ramp8 2 2 1; Examples.ramp8 1 1 3] None))
             eq_refl eq_refl))
            [Examples.ramp8 1 1 1] (Examples.ramp8 2 2 1) [Examples.ramp8 1 1 3]);
      reflexivity.
  - apply (proj2 (proj2 (proj2 (proj2 (write_ser_check_order
             Examples.one_pixel_metadata Examples.one_pixel (Some [1; 2])))
             eq_refl eq_refl)) 1 [2]);
      [reflexivity|reflexivity|vm_compute; discriminate].
Defined.

(** C2, as stated, fails: a frame of the wrong shape is reported after the
    header has been written, and a wrong number of timestamps after the
    header and every frame have been; the file left behind by the second
    call is one [read_ser] accepts. *)
Lemma write_ser_leaves_partial_file :
  (exists content,
     write_ser Examples.one_pixel_metadata [Examples.ramp8 2 2 1] None
     = (Some content,
        Raise (ValueError "Frame dimensions (2, 2) do not match metadata (1, 1)."))
     /\ List.length content = 178%nat)
  /\ (exists content,
        write_ser Examples.one_pixel_metadata Examples.one_pixel (Some [1; 2])
        = (Some content,
           Raise (ValueError "Number of timestamps does not match frame_count."))
        /\ List.length content = 179%nat
        /\ read_ser content
           = Ok (Examples.one_pixel_metadata, Examples.one_pixel, None)).
Proof.
  split.
  - eexists. split; [vm_compute; reflexivity|reflexivity].
  - eexists. split; [vm_compute; reflexivity|]. split; [reflexivity|].
    vm_compute; reflexivity.
Qed.

(** C3. The decoder takes [pixel_depth // 8] bytes per sample while the
    encoder, and the decoder's own dtype, use two bytes for every depth
    other than 8. At depth 12 a 1 x 1 frame is written on two bytes and read
    on one, so the file [write_ser] produced is refused by [read_ser]. *)
Theorem frame_size_at_depth_12 :
  frame_size (image_width Examples.depth12_metadata)
             (image_height Examples.depth12_metadata)
             (pixel_depth Examples.depth12_metadata) = 1
  /\ Bytes.len (tobytes (astype (Examples.pixel16 x01 x02)
                                (dtype_for (pixel_depth Examples.depth12_metadata)))) = 2
  /\ (exists content,
        write_ser Examples.depth12_metadata [Examples.pixel16 x01 x02] None
        = (Some content, Ok tt)
        /\ List.length content = (Struct.header_size + 2)%nat
        /\ read_ser content = Raise (NumpyValueError BufferSizeNotMultiple)).
Proof.
  split; [reflexivity|]. split; [reflexivity|].
  eexists. split; [vm_compute; reflexivity|]. split; reflexivity.
Qed.

(** C4 (as amended). Writing without timestamps and reading back gives no
    timestamps ([None]) when there is at least one frame, and the empty
    list when [frame_count] is 0. *)
Theorem read_back_without_timestamps (m : Metadata) (frames : list ndarray) :
  valid_metadata m = true ->
  valid_frames m frames = true ->
  exists content m' ts',
    write_ser m frames None = (Some content, Ok tt)
    /\ read_ser content = Ok (m', frames, ts')
    /\ (1 <= frame_count m -> ts' = None)
    /\ (frame_count m = 0 -> ts' = Some []).
Proof.
  intros Hm Hf.
  destruct (write_then_read m Hm frames None Hf eq_refl) as (content & Hw & _ & Hr).
  exists content, (normalise_metadata m), (timestamps_read_back m None).
  split; [exact Hw|]. split; [exact Hr|].
  cbn [timestamps_read_back]. split; intros H.
  - destruct (Z.eqb_spec (frame_count m) 0); [lia|reflexivity].
  - now rewrite H.
Qed.

Lemma read_back_without_timestamps_witness :
  exists content m' ts',
    write_ser Examples.test_metadata Examples.test_frames None = (Some content, Ok tt)
    /\ read_ser content = Ok (m', Examples.test_frames, ts')
    /\ (1 <= frame_count Examples.test_metadata -> ts' = None)
    /\ (frame_count Examples.test_metadata = 0 -> ts' = Some []).
Proof.
  exact (read_back_without_timestamps Examples.test_metadata Examples.test_frames
           eq_refl eq_refl).
Defined.

(** C4, as stated, fails at [frame_count == 0]: the file is the bare
    header, and [read_ser] returns the empty list of timestamps. *)
Lemma no_frames_reads_empty_timestamps :
  valid_metadata Examples.no_frames_metadata = true
  /\ valid_frames Examples.no_frames_metadata [] = true
  /\ exists content,
      write_ser Examples.no_frames_metadata [] None = (Some content, Ok tt)
      /\ read_ser content = Ok (Examples.no_frames_metadata, [], Some [])
      /\ read_ser content <> Ok (Examples.no_frames_metadata, [], None).
Proof.
  split; [reflexivity|]. split; [reflexivity|].
  eexists. split; [vm_compute; reflexivity|].
  split; [vm_compute; reflexivity|].
  intros E. vm_compute in E. discriminate E.
Qed.

(** C5. A stream shorter than the 178 bytes of the header is refused:
    [struct.unpack] raises on the short buffer and nothing is returned. *)
Theorem read_ser_truncated_header (file : list byte) :
  (List.length file < 178)%nat -> read_ser file = Raise StructError.
Proof.
  intros H. unfold read_ser, read_body, read_header, IO.bind, IO.read, IO.lift.
  change (Z.of_nat Struct.header_size <? 0) with false. cbv iota.
  rewrite Nat2Z.id. unfold Struct.unpack_header.
  destruct (Nat.eqb_spec (List.length (firstn Struct.header_size file))
              Struct.header_size) as [E|E].
  - rewrite length_firstn in E. change Struct.header_size with 178%nat in E. lia.
  - reflexivity.
Qed.

Lemma read_ser_truncated_header_witness :
  (List.length (list_byte_of_string LUCAM_RECORDER) < 178)%nat
  /\ read_ser (list_byte_of_string LUCAM_RECORDER) = Raise StructError.
Proof.
  split.
  - vm_compute. lia.
  - apply (read_ser_truncated_header (list_byte_of_string LUCAM_RECORDER)).
    vm_compute. lia.
Defined.



(** C7 (as amended). A missing or different file id makes [write_ser]
    raise [ValueError] before the destination is opened. The length of a
    text field is not checked: in every file the call completes, each text
    field holds the first 40 bytes of the text's encoding, padded with NUL
    when there are fewer. *)
Theorem write_ser_rejects_file_id (m : Metadata) (frames : list ndarray)
    (ts : option (list Z)) :
  (file_id m <> Some (Str.of_string LUCAM_RECORDER) ->
   write_ser m frames ts
   = (None, Raise (ValueError "Invalid metadata: file_id must be 'LUCAM-RECORDER'.")))
  /\ (forall content,
        write_ser m frames ts = (Some content, Ok tt) ->
        exists obs ins tel,
          Str.encode (observer m) = Ok obs
          /\ Str.encode (instrument m) = Ok ins
          /\ Str.encode (telescope m) = Ok tel
          /\ Struct.slice 42 40 content
             = firstn 40 obs ++ repeat x00 (40 - List.length obs)
          /\ Struct.slice 82 40 content
             = firstn 40 ins ++ repeat x00 (40 - List.length ins)
          /\ Struct.slice 122 40 content
             = firstn 40 tel ++ repeat x00 (40 - List.length tel)).
Proof.
  split.
  - intros H. apply file_id_invalid_iff in H. unfold write_ser. now rewrite H.
  - intros content Hw. unfold write_ser in Hw.
    destruct (file_id_invalid m); [discriminate|].
    destruct (negb _); [discriminate|].
    destruct (pack_metadata m (image_width m) (image_height m) (pixel_depth m)
                (frame_count m)) as [header|e] eqn:Hp.
    + destruct (write_body_header m frames ts (image_height m) (image_width m)
                  (pixel_depth m) (frame_count m) (dtype_for (pixel_depth m))
                  header Hp) as [t Ht].
      destruct (write_body _ _ _ _ _ _ _ _ _) as [c r]. cbn [fst] in Ht.
      assert (content = header ++ t) by congruence. subst content.
      destruct (pack_metadata_text m _ _ _ _ header Hp)
        as (obs & ins & tel & Eo & Ei & Et & Hl & So & Si & St).
      exists obs, ins, tel. repeat split; try assumption.
      * rewrite slice_app_l by (rewrite Hl; cbn; lia). exact So.
      * rewrite slice_app_l by (rewrite Hl; cbn; lia). exact Si.
      * rewrite slice_app_l by (rewrite Hl; cbn; lia). exact St.
    + unfold write_body in Hw. unfold IO.bind at 1, IO.lift at 1 in Hw.
      rewrite Hp in Hw. discriminate Hw.
Qed.

Lemma write_ser_rejects_file_id_witness :
  file_id Examples.wrong_id_metadata <> Some (Str.of_string LUCAM_RECORDER)
  /\ write_ser Examples.wrong_id_metadata Examples.one_pixel None
     = (None, Raise (ValueError "Invalid metadata: file_id must be 'LUCAM-RECORDER'.")).
Proof.
  assert (H : file_id Examples.wrong_id_metadata
              <> Some (Str.of_string LUCAM_RECORDER))
    by (vm_compute; discriminate).
  split; [exact H|].
  exact (proj1 (write_ser_rejects_file_id Examples.wrong_id_metadata
                  Examples.one_pixel None) H).
Defined.

(** C7, as stated, fails: an observer of 41 bytes is written without
    complaint, and only its first 40 bytes reach the file. *)
Lemma write_ser_accepts_long_observer :
  Str.encode (observer Examples.long_observer_metadata) = Ok (repeat "a"%byte 41)
  /\ exists content,
      write_ser Examples.long_observer_metadata Examples.one_pixel None
      = (Some content, Ok tt)
      /\ Struct.slice 42 40 content = repeat "a"%byte 40
      /\ read_ser content
         = Ok (Examples.metadata_of 1 1 8 1 (repeat 97 40), Examples.one_pixel, None).
Proof.
  split; [reflexivity|].
  eexists. split; [vm_compute; reflexivity|].
  split; vm_compute; reflexivity.
Qed.

(** C8. [if timestamps:] treats an empty list as no list: with one frame
    declared and written, an empty timestamp sequence is accepted, and the
    call does what it does without timestamps. *)
Theorem write_ser_empty_timestamps :
  (forall (m : Metadata) (frames : list ndarray),
     write_ser m frames (Some []) = write_ser m frames None)
  /\ Z.of_nat (List.length (@nil Z)) <> frame_count Examples.one_pixel_metadata
  /\ exists content,
      write_ser Examples.one_pixel_metadata Examples.one_pixel (Some [])
      = (Some content, Ok tt)
      /\ List.length content = (Struct.header_size + 1)%nat.
Proof.
  split; [reflexivity|]. split; [vm_compute; discriminate|].
  eexists. split; [vm_compute; reflexivity|reflexivity].
Qed.

(** C9. When the number of frames differs from [frame_count],
    [write_ser] raises [ValueError] and the destination is never opened. *)
Theorem write_ser_frame_count_mismatch (m : Metadata) (frames : list ndarray)
    (ts : option (list Z)) :
  Z.of_nat (List.length frames) <> frame_count m ->
  fst (write_ser m frames ts) = None
  /\ exists msg, snd (write_ser m frames ts) = Raise (ValueError msg).
Proof.
  intros H. unfold write_ser.
  destruct (file_id_invalid m); [cbn; eauto|].
  apply Z.eqb_neq in H. rewrite H. cbn. eauto.
Qed.

Lemma write_ser_frame_count_mismatch_witness :
  Z.of_nat (List.length Examples.one_pixel) <> frame_count Examples.test_metadata
  /\ fst (write_ser Examples.test_metadata Examples.one_pixel None) = None
  /\ exists msg, snd (write_ser Examples.test_metadata Examples.one_pixel None)
                 = Raise (ValueError msg).
Proof.
  assert (H : Z.of_nat (List.length Examples.one_pixel)
              <> frame_count Examples.test_metadata)
    by (vm_compute; discriminate).
  split; [exact H|].
  exact (write_ser_frame_count_mismatch Examples.test_metadata
           Examples.one_pixel None H).
Defined.

(** C10. After a header that parses, a frame size of zero (a zero width
    or height, or a pixel depth below 8) with at least one frame declared
    makes [read_ser] raise the end-of-file error on the first frame,
    whatever follows the header. *)
Theorem read_ser_zero_size_frame (file rest : list byte) (m : Metadata) :
  read_header file = (rest, Ok m) ->
  1 <= frame_count m ->
  image_width m = 0 \/ image_height m = 0 \/ pixel_depth m < 8 ->
  read_ser file = Raise (ValueError "Unexpected end of file while reading frames.").
Proof.
  intros Hh Hn Hz.
  assert (Hs : frame_size (image_width m) (image_height m) (pixel_depth m) = 0).
  { unfold frame_size. destruct Hz as [-> | [-> | Hp]].
    - reflexivity.
    - now rewrite Z.mul_0_r.
    - pose proof (read_header_pixel_depth file rest m Hh).
      rewrite Z.div_small by lia. apply Z.mul_0_r. }
  unfold read_ser, read_body. unfold IO.bind at 1. rewrite Hh.
  destruct (Z.to_nat (frame_count m)) as [|k] eqn:Ek; [lia|].
  rewrite Hs. cbn [read_frames].
  unfold IO.bind at 1. unfold IO.bind at 1. unfold IO.read.
  change (0 <? 0) with false. cbv iota.
  change (Z.to_nat 0) with 0%nat. cbn [firstn skipn Bytes.is_empty].
  reflexivity.
Qed.

Lemma read_ser_zero_size_frame_witness :
  read_ser Examples.zero_width_file
  = Raise (ValueError "Unexpected end of file while reading frames.").
Proof.
  refine (read_ser_zero_size_frame Examples.zero_width_file [x01; x02; x03]
            Examples.zero_width_metadata _ _ _).
  - vm_compute. reflexivity.
  - vm_compute. discriminate.
  - left. reflexivity.
Defined.

(* ================================================================= *)
(** * Beyond the specification: the rest of the module *)

(** ** Further properties of [read_ser] *)

(** X1. A stream with a whole header whose first 14 bytes are not the
    recorder id is refused with the file-id error, whatever follows. *)
Theorem read_ser_wrong_id (file : list byte) :
  (178 <= List.length file)%nat ->
  firstn 14 file <> list_byte_of_string LUCAM_RECORDER ->
  read_ser file = Raise (ValueError "Invalid SER file: Incorrect File ID.").
Proof.
  intros Hl Hid. unfold read_ser, read_body. unfold IO.bind at 1.
  rewrite read_header_prefix.
  unfold read_header, IO.bind, IO.read, IO.lift, IO.raise.
  change (Z.of_nat Struct.header_size <? 0) with false. cbv iota.
  rewrite Nat2Z.id, firstn_firstn, Nat.min_id. unfold Struct.unpack_header.
  destruct (Nat.eqb_spec (List.length (firstn Struct.header_size file))
              Struct.header_size) as [E|E];
    [|rewrite length_firstn in E; change Struct.header_size with 178%nat in E; lia].
  cbn [Struct.h_file_id]. unfold Struct.slice. cbn [skipn].
  rewrite firstn_firstn. change (Nat.min 14 Struct.header_size) with 14%nat.
  destruct (Bytes.eqb (firstn 14 file) (list_byte_of_string LUCAM_RECORDER)) eqn:Eb.
  - apply bytes_eqb_eq in Eb. contradiction.
  - reflexivity.
Qed.

Lemma read_ser_wrong_id_witness :
  read_ser MoreExamples.wrong_id_file
  = Raise (ValueError "Invalid SER file: Incorrect File ID.").
Proof.
  apply read_ser_wrong_id.
  - apply Nat.leb_le. vm_compute. reflexivity.
  - vm_compute. discriminate.
Defined.

(** X2. The metadata [read_ser] returns has the recorder id as its file
    id, every integer field within the range of its header field, and text
    fields that encode to at most 40 bytes. *)
Theorem read_ser_metadata_in_range (file : list byte) (m : Metadata)
    (frames : list ndarray) (ts : option (list Z)) :
  read_ser file = Ok (m, frames, ts) ->
  file_id m = Some (Str.of_string LUCAM_RECORDER)
  /\ u32 (lu_id m) = true /\ u32 (color_id m) = true
  /\ u32 (image_width m) = true /\ u32 (image_height m) = true
  /\ u32 (pixel_depth m) = true /\ u32 (frame_count m) = true
  /\ u64 (date_time m) = true /\ u64 (date_time_utc m) = true
  /\ fits 40 (observer m) = true /\ fits 40 (instrument m) = true
  /\ fits 40 (telescope m) = true.
Proof.
  intros H. destruct (read_result_header _ _ _ _ H) as [rest Hh].
  destruct (read_header_ranges _ _ _ Hh) as (H1 & H2 & H3 & H4 & H5 & H6 & H7 & H8).
  destruct (read_result_text _ _ _ _ H) as (Ho & Hi & Ht).
  apply read_header_inv in Hh. cbv zeta in Hh. destruct Hh as (_ & _ & _ & Hid & _).
  repeat split; assumption.
Qed.

Lemma read_ser_metadata_in_range_witness :
  u32 (frame_count Examples.test_metadata) = true
  /\ fits 40 (observer Examples.test_metadata) = true.
Proof.
  assert (H : read_ser MoreExamples.test_file
              = Ok (Examples.test_metadata, Examples.test_frames,
                    Some Examples.test_timestamps))
    by (vm_compute; reflexivity).
  destruct (read_ser_metadata_in_range _ _ _ _ H)
    as (_ & _ & _ & _ & _ & _ & Hfc & _ & _ & Ho & _).
  split; assumption.
Defined.

(** X3. The text fields [read_ser] returns carry no blank at either
    end. *)
Theorem read_ser_text_stripped (file : list byte) (m : Metadata)
    (frames : list ndarray) (ts : option (list Z)) :
  read_ser file = Ok (m, frames, ts) ->
  forall s, In s [observer m; instrument m; telescope m] ->
    (forall c r, s = c :: r -> Str.isspace c = false)
    /\ (forall c r, rev s = c :: r -> Str.isspace c = false).
Proof.
  intros H s Hin. destruct (read_result_header _ _ _ _ H) as [rest Hh].
  apply read_header_inv in Hh. cbv zeta in Hh.
  destruct Hh as (_ & _ & _ & _ & _ & _ & _ & _ & _ & _ & _ & Eo & Ei & Et & _).
  assert (Hd : exists bs, _decode_field bs = Ok s).
  { cbn [In] in Hin. destruct Hin as [<- | [<- | [<- | []]]]; eauto. }
  destruct Hd as [bs Hd]. unfold _decode_field in Hd.
  destruct (Str.decode bs) as [t|]; [|discriminate]. cbn [obind] in Hd.
  apply Ok_inj in Hd. subst s. apply strip_ends.
Qed.

Lemma read_ser_text_stripped_witness :
  read_ser MoreExamples.test_file
  = Ok (Examples.test_metadata, Examples.test_frames, Some Examples.test_timestamps)
  /\ Str.isspace 84 = false.
Proof.
  assert (H : read_ser MoreExamples.test_file
              = Ok (Examples.test_metadata, Examples.test_frames,
                    Some Examples.test_timestamps))
    by (vm_compute; reflexivity).
  split; [exact H|].
  exact (proj1 (read_ser_text_stripped _ _ _ _ H (observer Examples.test_metadata)
                  (or_introl eq_refl)) 84 [101; 115; 116; 101; 114] eq_refl).
Defined.

(** X4. When [read_ser] returns, there are [frame_count] frames, each of
    shape [(image_height, image_width)] and of the dtype of the pixel depth,
    and their buffers are the bytes that follow the header, in order. *)
Theorem read_ser_frames (file : list byte) (m : Metadata)
    (frames : list ndarray) (ts : option (list Z)) :
  read_ser file = Ok (m, frames, ts) ->
  valid_frames m frames = true
  /\ exists rest,
      skipn 178 file = List.concat (map buffer frames) ++ rest.
Proof.
  intros H. split; [exact (read_result_frames _ _ _ _ H)|].
  destruct (read_ser_inv _ _ _ _ H) as (rest & rest' & Hh & Hf & _).
  apply read_header_inv in Hh. cbv zeta in Hh. destruct Hh as (_ & Hr & _).
  apply read_frames_inv in Hf. destruct Hf as (new & Hfr & _ & _ & Hcat).
  cbn [app] in Hfr. subst new. exists rest'.
  change 178%nat with Struct.header_size. now rewrite <- Hr.
Qed.

Lemma read_ser_frames_witness :
  valid_frames Examples.test_metadata Examples.test_frames = true
  /\ exists rest,
      skipn 178 MoreExamples.test_file
      = List.concat (map buffer Examples.test_frames) ++ rest.
Proof.
  apply (read_ser_frames MoreExamples.test_file Examples.test_metadata
           Examples.test_frames (Some Examples.test_timestamps)).
  vm_compute. reflexivity.
Defined.

(** X5. Timestamps are returned exactly when at least [8 * frame_count]
    bytes follow the frames; there are then [frame_count] of them, each
    below 2^64. Otherwise the result is [None]. *)
Theorem read_ser_timestamps (file : list byte) (m : Metadata)
    (frames : list ndarray) (ts : option (list Z)) :
  read_ser file = Ok (m, frames, ts) ->
  exists rest,
    skipn 178 file = List.concat (map buffer frames) ++ rest
    /\ match ts with
       | Some l => 8 * frame_count m <= Bytes.len rest
                   /\ Z.of_nat (List.length l) = frame_count m
                   /\ forallb u64 l = true
       | None => Bytes.len rest < 8 * frame_count m
       end.
Proof.
  intros H. destruct (read_ser_inv _ _ _ _ H) as (rest & rest' & Hh & Hf & Ht).
  destruct (read_header_ranges _ _ _ Hh) as (_ & _ & _ & _ & _ & Hfc & _).
  apply u32_range in Hfc.
  apply read_header_inv in Hh. cbv zeta in Hh. destruct Hh as (_ & Hr & _).
  apply read_frames_inv in Hf. destruct Hf as (new & Hfr & _ & _ & Hcat).
  cbn [app] in Hfr. subst new. exists rest'. split.
  - change 178%nat with Struct.header_size. now rewrite <- Hr.
  - apply read_timestamps_inv in Ht. destruct ts as [l|]; [|exact Ht].
    destruct Ht as (H1 & H2 & H3). repeat split; try assumption. lia.
Qed.

Lemma read_ser_timestamps_witness :
  exists rest,
    skipn 178 MoreExamples.test_file_bare
    = List.concat (map buffer Examples.test_frames) ++ rest
    /\ Bytes.len rest < 8 * frame_count Examples.test_metadata.
Proof.
  apply (read_ser_timestamps MoreExamples.test_file_bare Examples.test_metadata
           Examples.test_frames None).
  vm_compute. reflexivity.
Defined.

(** X6. Bytes after the timestamp block are ignored: a file that reads
    with timestamps reads the same with anything appended. *)
Theorem read_ser_ignores_trailing_bytes (file extra : list byte) (m : Metadata)
    (frames : list ndarray) (l : list Z) :
  read_ser file = Ok (m, frames, Some l) ->
  read_ser (file ++ extra) = Ok (m, frames, Some l).
Proof.
  intros H. destruct (read_ser_inv _ _ _ _ H) as (rest & rest' & Hh & Hf & Ht).
  destruct (read_header_ranges _ _ _ Hh) as (_ & _ & Hw & Hhh & Hpd & Hfc & _).
  apply u32_range in Hw, Hhh, Hpd, Hfc.
  pose proof (read_timestamps_inv _ _ _ _ Ht) as (Hlen & _ & _).
  unfold read_ser, read_body. unfold IO.bind at 1.
  rewrite (read_header_app extra _ _ _ Hh). unfold IO.bind at 1.
  assert (Hfs : 0 <= frame_size (image_width m) (image_height m) (pixel_depth m)).
  { unfold frame_size. apply Z.mul_nonneg_nonneg; [lia|].
    apply Z.div_pos; lia. }
  rewrite (read_frames_app extra _ _ _ _ _ _ _ _ _ Hfs Hf).
  - unfold IO.bind at 1.
    revert Ht. unfold read_timestamps, IO.bind, IO.read_all, IO.lift, IO.ret.
    destruct (Z.leb_spec (8 * frame_count m) (Bytes.len rest')) as [_|]; [|lia].
    destruct (Z.leb_spec (8 * frame_count m) (Bytes.len (rest' ++ extra))) as [_|Hx];
      [|unfold Bytes.len in *; rewrite length_app in Hx; lia].
    destruct (unpack_timestamps rest' 0 _) as [l'|] eqn:El; [|discriminate].
    rewrite (unpack_timestamps_app extra _ _ _ _ El).
    intros E. cbn [snd]. now injection E as ->.
  - destruct (Z.to_nat (frame_count m)) eqn:En; [now left|right].
    intros ->. unfold Bytes.len in Hlen. cbn [List.length] in Hlen. lia.
Qed.

Lemma read_ser_ignores_trailing_bytes_witness :
  read_ser (MoreExamples.test_file ++ [x01; x02; x03])
  = Ok (Examples.test_metadata, Examples.test_frames, Some Examples.test_timestamps).
Proof.
  apply read_ser_ignores_trailing_bytes. vm_compute. reflexivity.
Defined.

(** ** Further properties of [write_ser] *)

(** X7. [write_ser] completes exactly when the header can be packed (right
    id, text that encodes, integers in range), the number of frames is
    [frame_count], every frame has the declared shape, and the timestamps
    are absent, empty, or [frame_count] values below 2^64. *)
Theorem write_ser_succeeds_iff (m : Metadata) (frames : list ndarray)
    (ts : option (list Z)) :
  snd (write_ser m frames ts) = Ok tt <-> write_accepts m frames ts = true.
Proof.
  split.
  - apply write_ok_accepts.
  - intros H. now rewrite (write_accepts_layout m frames ts H).
Qed.

(** X8. A completed call leaves the 178-byte header, then each frame's
    samples converted to the dtype of the pixel depth, then the timestamps
    on eight bytes each, and nothing else. *)
Theorem write_ser_layout (m : Metadata) (frames : list ndarray)
    (ts : option (list Z)) :
  write_accepts m frames ts = true ->
  write_ser m frames ts
  = (Some (packed_header m
           ++ frames_bytes (dtype_for (pixel_depth m)) frames
           ++ written_timestamps ts), Ok tt)
  /\ List.length (packed_header m) = 178%nat.
Proof.
  intros H. split; [now apply write_accepts_layout|].
  unfold write_accepts in H.
  apply andb_true_iff in H as [H _]. apply andb_true_iff in H as [H _].
  apply andb_true_iff in H as [Hp _].
  apply (packed_header_length m (packable_file_id m Hp) Hp).
Qed.

Lemma write_ser_layout_witness :
  write_ser Examples.test_metadata Examples.test_frames (Some Examples.test_timestamps)
  = (Some (packed_header Examples.test_metadata
           ++ frames_bytes (dtype_for (pixel_depth Examples.test_metadata))
                           Examples.test_frames
           ++ written_timestamps (Some Examples.test_timestamps)), Ok tt)
  /\ List.length (packed_header Examples.test_metadata) = 178%nat.
Proof.
  apply write_ser_layout. vm_compute. reflexivity.
Defined.

(** X9. The packed header holds each field at its place: the id on
    bytes 0-13, the seven integers on four bytes each from byte 14, the
    three text fields on 40 bytes each from byte 42, cut or NUL-padded,
    and the two dates on eight bytes each from byte 162. *)
Theorem packed_header_fields (m : Metadata) :
  packable m = true ->
  exists obs ins tel,
    Str.encode (observer m) = Ok obs
    /\ Str.encode (instrument m) = Ok ins
    /\ Str.encode (telescope m) = Ok tel
    /\ Struct.unpack_header (packed_header m)
       = Ok {| Struct.h_file_id := list_byte_of_string LUCAM_RECORDER;
               Struct.h_lu_id := lu_id m;
               Struct.h_color_id := color_id m;
               Struct.h_little_endian := if little_endian m then 1 else 0;
               Struct.h_image_width := image_width m;
               Struct.h_image_height := image_height m;
               Struct.h_pixel_depth := pixel_depth m;
               Struct.h_frame_count := frame_count m;
               Struct.h_observer := Struct.pack_s 40 obs;
               Struct.h_instrument := Struct.pack_s 40 ins;
               Struct.h_telescope := Struct.pack_s 40 tel;
               Struct.h_date_time := Bytes.le_bytes 8 (date_time m);
               Struct.h_date_time_utc := Bytes.le_bytes 8 (date_time_utc m) |}.
Proof.
  intros Hp. pose proof (packable_file_id m Hp) as Hid.
  pose proof (pack_metadata_cases m Hid) as H. rewrite Hp in H.
  destruct H as (obs & ins & tel & Eo & Ei & Et & Hk).
  exists obs, ins, tel. repeat split; try assumption.
  unfold packed_header. rewrite Hk. unfold header_of.
  rewrite unpack_header_concat
    by (rewrite ?pack_s_length, ?le_bytes_length; reflexivity).
  unfold packable in Hp.
  repeat match type of Hp with
         | _ && _ = true => let H' := fresh "Hr" in apply andb_true_iff in Hp as [Hp H']
         end.
  rewrite !le_int_le_bytes
    by (first [ now apply u32_range | destruct (little_endian m); cbn; lia ]).
  rewrite !(pack_s_fits 8) by (rewrite le_bytes_length; lia).
  rewrite !le_bytes_length. cbn [Nat.sub repeat]. rewrite !app_nil_r.
  reflexivity.
Qed.

Lemma packed_header_fields_witness :
  exists obs ins tel,
    Str.encode (observer Examples.test_metadata) = Ok obs
    /\ Str.encode (instrument Examples.test_metadata) = Ok ins
    /\ Str.encode (telescope Examples.test_metadata) = Ok tel
    /\ Struct.unpack_header (packed_header Examples.test_metadata)
       = Ok {| Struct.h_file_id := list_byte_of_string LUCAM_RECORDER;
               Struct.h_lu_id := 1;
               Struct.h_color_id := 0;
               Struct.h_little_endian := 1;
               Struct.h_image_width := 5;
               Struct.h_image_height := 4;
               Struct.h_pixel_depth := 8;
               Struct.h_frame_count := 3;
               Struct.h_observer := Struct.pack_s 40 obs;
               Struct.h_instrument := Struct.pack_s 40 ins;
               Struct.h_telescope := Struct.pack_s 40 tel;
               Struct.h_date_time := Bytes.le_bytes 8 Examples.ticks;
               Struct.h_date_time_utc := Bytes.le_bytes 8 Examples.ticks |}.
Proof.
  exact (packed_header_fields Examples.test_metadata eq_refl).
Defined.

(** X10. With frames whose buffers have the size of their shape, the file
    a completed call leaves has 178 bytes, plus [frame_count] times
    [image_height * image_width] samples of one byte at depth 8 and two
    otherwise, plus eight bytes per timestamp. *)
Theorem write_ser_file_size (m : Metadata) (frames : list ndarray)
    (ts : option (list Z)) (content : list byte) :
  write_ser m frames ts = (Some content, Ok tt) ->
  forallb well_formed frames = true ->
  Bytes.len content
  = 178
    + frame_count m
      * (image_height m * image_width m * itemsize (dtype_for (pixel_depth m)))
    + match ts with
      | Some l => 8 * Z.of_nat (List.length l)
      | None => 0
      end.
Proof.
  intros Hw Hwf.
  assert (Ha : write_accepts m frames ts = true)
    by (apply write_ok_accepts; now rewrite Hw).
  pose proof (write_accepts_layout m frames ts Ha) as Hl.
  rewrite Hw in Hl. injection Hl as ->.
  unfold write_accepts in Ha.
  apply andb_true_iff in Ha as [Ha _]. apply andb_true_iff in Ha as [Ha Hs].
  apply andb_true_iff in Ha as [Hp Hn]. apply Z.eqb_eq in Hn.
  unfold Bytes.len. rewrite !length_app.
  rewrite (packed_header_length m (packable_file_id m Hp) Hp).
  change Struct.header_size with 178%nat.
  pose proof (frames_bytes_length m frames Hs Hwf) as Hfb.
  assert (Hts : Z.of_nat (List.length (written_timestamps ts))
                = match ts with
                  | Some l => 8 * Z.of_nat (List.length l)
                  | None => 0
                  end).
  { destruct ts as [l|]; cbn [written_timestamps]; [|reflexivity].
    rewrite timestamp_bytes_length. lia. }
  rewrite !Nat2Z.inj_add, Hfb, Hts, Hn. change (Z.of_nat 178) with 178. ring.
Qed.

Lemma write_ser_file_size_witness :
  Bytes.len MoreExamples.test_file = 178 + 3 * (4 * 5 * 1) + 8 * 3.
Proof.
  refine (write_ser_file_size Examples.test_metadata Examples.test_frames
            (Some Examples.test_timestamps) MoreExamples.test_file _ _).
  - vm_compute. reflexivity.
  - vm_compute. reflexivity.
Defined.

(** X11. With the right id and the right number of frames, a header that
    cannot be packed (an integer out of the range of its field, or text
    that does not encode) makes the call raise [struct.error] or
    [UnicodeEncodeError] with the destination already opened: it is left
    empty. *)
Theorem write_ser_unpackable_header (m : Metadata) (frames : list ndarray)
    (ts : option (list Z)) :
  file_id m = Some (Str.of_string LUCAM_RECORDER) ->
  Z.of_nat (List.length frames) = frame_count m ->
  packable m = false ->
  exists e,
    write_ser m frames ts = (Some [], Raise e)
    /\ (e = StructError \/ e = UnicodeEncodeError).
Proof. apply write_ser_unpackable. Qed.

Lemma write_ser_unpackable_header_witness :
  exists e,
    write_ser MoreExamples.big_lu_id_metadata Examples.one_pixel None
    = (Some [], Raise e)
    /\ (e = StructError \/ e = UnicodeEncodeError).
Proof.
  apply write_ser_unpackable_header; reflexivity.
Defined.

(** X12. The frame loop stops at the first frame whose shape is not
    [(image_height, image_width)]: the call raises [ValueError] naming both
    shapes, and the file holds the header and the frames before that one. *)
Theorem write_ser_shape_mismatch (m : Metadata) (good rest : list ndarray)
    (bad : ndarray) (ts : option (list Z)) :
  packable m = true ->
  Z.of_nat (List.length (good ++ bad :: rest)) = frame_count m ->
  forallb (shape_matches m) good = true ->
  shape_matches m bad = false ->
  write_ser m (good ++ bad :: rest) ts
  = (Some (packed_header m ++ frames_bytes (dtype_for (pixel_depth m)) good),
     Raise (ValueError (shape_mismatch_msg (shape bad) (image_height m)
                                           (image_width m)))).
Proof.
  intros Hp Hn Hg Hb. rewrite (write_ser_packed m _ ts Hp Hn). unfold IO.bind.
  now rewrite (write_frames_stops m _ good rest bad _ Hg Hb).
Qed.

Lemma write_ser_shape_mismatch_witness :
  write_ser MoreExamples.three_pixel_metadata
            ([Examples.ramp8 1 1 1] ++ Examples.ramp8 2 2 1 :: [Examples.ramp8 1 1 3])
            None
  = (Some (packed_header MoreExamples.three_pixel_metadata
           ++ frames_bytes (dtype_for (pixel_depth MoreExamples.three_pixel_metadata))
                           [Examples.ramp8 1 1 1]),
     Raise (ValueError "Frame dimensions (2, 2) do not match metadata (1, 1).")).
Proof.
  exact (write_ser_shape_mismatch MoreExamples.three_pixel_metadata
           [Examples.ramp8 1 1 1] [Examples.ramp8 1 1 3] (Examples.ramp8 2 2 1) None
           eq_refl eq_refl eq_refl eq_refl).
Defined.

(** X13. A non-empty timestamp list of the wrong length is reported with
    [ValueError] once the header and every frame have been written. *)
Theorem write_ser_timestamp_count (m : Metadata) (frames : list ndarray)
    (t : Z) (l : list Z) :
  packable m = true ->
  Z.of_nat (List.length frames) = frame_count m ->
  forallb (shape_matches m) frames = true ->
  Z.of_nat (List.length (t :: l)) <> frame_count m ->
  write_ser m frames (Some (t :: l))
  = (Some (packed_header m ++ frames_bytes (dtype_for (pixel_depth m)) frames),
     Raise (ValueError "Number of timestamps does not match frame_count.")).
Proof.
  intros Hp Hn Hs Hl. rewrite (write_ser_packed m _ _ Hp Hn). unfold IO.bind.
  rewrite (write_frames_all m _ frames _ Hs).
  apply Z.eqb_neq in Hl. rewrite Hl. reflexivity.
Qed.

Lemma write_ser_timestamp_count_witness :
  write_ser Examples.one_pixel_metadata Examples.one_pixel (Some [1; 2])
  = (Some (packed_header Examples.one_pixel_metadata
           ++ frames_bytes (dtype_for (pixel_depth Examples.one_pixel_metadata))
                           Examples.one_pixel),
     Raise (ValueError "Number of timestamps does not match frame_count.")).
Proof.
  refine (write_ser_timestamp_count Examples.one_pixel_metadata Examples.one_pixel
            1 [2] eq_refl eq_refl eq_refl _).
  vm_compute. discriminate.
Defined.

(** X14. A timestamp outside [0, 2^64) stops the call with [struct.error]
    after the header, the frames and the timestamps before it have been
    written. *)
Theorem write_ser_timestamp_range (m : Metadata) (frames : list ndarray)
    (good rest : list Z) (bad : Z) :
  packable m = true ->
  Z.of_nat (List.length frames) = frame_count m ->
  forallb (shape_matches m) frames = true ->
  Z.of_nat (List.length (good ++ bad :: rest)) = frame_count m ->
  forallb u64 good = true ->
  u64 bad = false ->
  write_ser m frames (Some (good ++ bad :: rest))
  = (Some (packed_header m ++ frames_bytes (dtype_for (pixel_depth m)) frames
           ++ timestamp_bytes good),
     Raise StructError).
Proof.
  intros Hp Hn Hs Hl Hg Hb. rewrite (write_ser_packed m _ _ Hp Hn). unfold IO.bind.
  rewrite (write_frames_all m _ frames _ Hs).
  destruct (good ++ bad :: rest) as [|x xs] eqn:E;
    [destruct good; discriminate|].
  apply Z.eqb_eq in Hl. rewrite Hl. cbn [negb]. rewrite <- E.
  rewrite (write_timestamps_stops good rest bad _ Hg Hb).
  now rewrite <- app_assoc.
Qed.

Lemma write_ser_timestamp_range_witness :
  write_ser MoreExamples.three_pixel_metadata
            [Examples.ramp8 1 1 1; Examples.ramp8 1 1 2; Examples.ramp8 1 1 3]
            (Some ([7] ++ (-1) :: [9]))
  = (Some (packed_header MoreExamples.three_pixel_metadata
           ++ frames_bytes (dtype_for (pixel_depth MoreExamples.three_pixel_metadata))
                [Examples.ramp8 1 1 1; Examples.ramp8 1 1 2; Examples.ramp8 1 1 3]
           ++ timestamp_bytes [7]),
     Raise StructError).
Proof.
  exact (write_ser_timestamp_range MoreExamples.three_pixel_metadata
           [Examples.ramp8 1 1 1; Examples.ramp8 1 1 2; Examples.ramp8 1 1 3]
           [7] [9] (-1) eq_refl eq_refl eq_refl eq_refl eq_refl eq_refl).
Defined.

(** ** Round trips and the extraction script *)

(** X15. Frames of either sample width survive the round trip up to the
    conversion [write_ser] applies: for valid metadata and frames of the
    declared shape, [read_ser] of the written file returns each frame
    converted to the dtype of the pixel depth, and the timestamps that were
    written. *)
Theorem write_read_converts (m : Metadata) (frames : list ndarray)
    (ts : option (list Z)) :
  valid_metadata m = true ->
  Z.of_nat (List.length frames) = frame_count m ->
  forallb (shape_matches m) frames = true ->
  forallb well_formed frames = true ->
  valid_timestamps m ts = true ->
  exists content,
    write_ser m frames ts = (Some content, Ok tt)
    /\ read_ser content
       = Ok (normalise_metadata m,
             map (fun f => astype f (dtype_for (pixel_depth m))) frames,
             timestamps_read_back m ts).
Proof. intros Hm. now apply write_then_read_converted. Qed.

Lemma write_read_converts_witness :
  exists content,
    write_ser MoreExamples.three_pixel_metadata MoreExamples.wide_frames None
    = (Some content, Ok tt)
    /\ read_ser content
       = Ok (MoreExamples.three_pixel_metadata,
             [Examples.ramp8 1 1 1; Examples.ramp8 1 1 3; Examples.ramp8 1 1 255],
             None).
Proof.
  exact (write_read_converts MoreExamples.three_pixel_metadata
           MoreExamples.wide_frames None eq_refl eq_refl eq_refl eq_refl eq_refl).
Defined.

(** X17. Whatever [read_ser] returns, [write_ser] accepts: the call
    completes and writes the packed header, the buffers of the frames and
    the timestamps. *)
Theorem read_result_rewritable (file : list byte) (m : Metadata)
    (frames : list ndarray) (ts : option (list Z)) :
  read_ser file = Ok (m, frames, ts) ->
  write_ser m frames ts
  = (Some (packed_header m ++ List.concat (map buffer frames)
           ++ written_timestamps ts), Ok tt).
Proof.
  intros H.
  rewrite (write_accepts_layout m frames ts (read_result_accepted _ _ _ _ H)).
  pose proof (read_result_frames _ _ _ _ H) as Hf.
  unfold valid_frames in Hf. apply andb_true_iff in Hf as [_ Hf].
  now rewrite (frames_bytes_same_dtype m frames Hf).
Qed.

Lemma read_result_rewritable_witness :
  write_ser Examples.test_metadata Examples.test_frames (Some Examples.test_timestamps)
  = (Some (packed_header Examples.test_metadata
           ++ List.concat (map buffer Examples.test_frames)
           ++ written_timestamps (Some Examples.test_timestamps)), Ok tt).
Proof.
  apply (read_result_rewritable MoreExamples.test_file).
  vm_compute. reflexivity.
Defined.

(** X18. The extraction script never fails on a file that [read_ser]
    accepts: for any bounds, the selected frames and timestamps are written
    behind a header that declares their number. *)
Theorem extract_frames_succeeds (file : list byte) (start stop : nat)
    (m : Metadata) (frames : list ndarray) (ts : option (list Z)) :
  read_ser file = Ok (m, frames, ts) ->
  extract_frames file start stop
  = (Some (packed_header (set_frame_count m
                            (Z.of_nat (List.length (py_slice start stop frames))))
           ++ List.concat (map buffer (py_slice start stop frames))
           ++ written_timestamps (select_timestamps start stop ts)), Ok tt).
Proof.
  intros H. unfold extract_frames. rewrite H. cbv zeta.
  rewrite (write_accepts_layout _ _ _ (selected_accepted _ _ _ _ H start stop)).
  pose proof (selected_frames_valid _ _ _ _ H start stop) as Hf.
  unfold valid_frames in Hf. apply andb_true_iff in Hf as [_ Hf].
  rewrite <- (frames_bytes_same_dtype _ _ Hf). reflexivity.
Qed.

Lemma extract_frames_succeeds_witness :
  snd (extract_frames MoreExamples.test_file 1 2) = Ok tt.
Proof.
  rewrite (extract_frames_succeeds MoreExamples.test_file 1 2
             Examples.test_metadata Examples.test_frames
             (Some Examples.test_timestamps)).
  - reflexivity.
  - vm_compute. reflexivity.
Defined.

(** X19. When the file read has depth 8 or 16 and positive dimensions,
    reading what the extraction script wrote gives exactly the selected
    frames, the selected timestamps, and the metadata with the new frame
    count and its three texts stripped once more. Text without NULs or
    blanks at its ends is unchanged by that; text read with a NUL at its
    end is not. *)
Theorem extract_frames_round_trip (file : list byte) (start stop : nat)
    (m : Metadata) (frames : list ndarray) (ts : option (list Z)) :
  read_ser file = Ok (m, frames, ts) ->
  pixel_depth m = 8 \/ pixel_depth m = 16 ->
  0 < image_width m -> 0 < image_height m ->
  let n := Z.of_nat (List.length (py_slice start stop frames)) in
  exists content,
    extract_frames file start stop = (Some content, Ok tt)
    /\ read_ser content
       = Ok (normalise_metadata (set_frame_count m n),
             py_slice start stop frames,
             timestamps_read_back (set_frame_count m n)
                                  (select_timestamps start stop ts))
    /\ (trimmed_text m = true ->
        normalise_metadata (set_frame_count m n) = set_frame_count m n).
Proof.
  intros H Hpd Hw Hh. cbv zeta.
  destruct (write_then_read _
              (selected_metadata_valid _ _ _ _ H start stop Hpd Hw Hh)
              _ _ (selected_frames_valid _ _ _ _ H start stop)
              (selected_timestamps_valid _ _ _ _ H start stop))
    as (content & Hwr & _ & Hrd).
  exists content. split; [|split; [exact Hrd|]].
  - unfold extract_frames. rewrite H. exact Hwr.
  - intros Ht. apply normalise_trimmed_metadata. exact Ht.
Qed.

Lemma extract_frames_round_trip_witness :
  exists content,
    extract_frames MoreExamples.test_file 1 3 = (Some content, Ok tt)
    /\ read_ser content
       = Ok (Examples.metadata_of 5 4 8 2 Examples.tester,
             [Examples.ramp8 4 5 3; Examples.ramp8 4 5 7],
             Some [Examples.ticks + 1; Examples.ticks + 2])
    /\ (trimmed_text Examples.test_metadata = true ->
        normalise_metadata (Examples.metadata_of 5 4 8 2 Examples.tester)
        = Examples.metadata_of 5 4 8 2 Examples.tester).
Proof.
  refine (extract_frames_round_trip MoreExamples.test_file 1 3
            Examples.test_metadata Examples.test_frames
            (Some Examples.test_timestamps) _ _ _ _).
  - vm_compute. reflexivity.
  - left. reflexivity.
  - reflexivity.
  - reflexivity.
Defined.

(** The text of the metadata is not always unchanged: an observer read
    as "Cam" and a NUL is written as such and read back as "Cam". *)
Lemma extract_frames_strips_nul :
  exists m content m',
    read_ser MoreExamples.nul_observer_file = Ok (m, Examples.one_pixel, None)
    /\ observer m = [67; 97; 109; 0]
    /\ extract_frames MoreExamples.nul_observer_file 0 1 = (Some content, Ok tt)
    /\ read_ser content = Ok (m', Examples.one_pixel, None)
    /\ observer m' = [67; 97; 109].
Proof.
  do 3 eexists. split; [vm_compute; reflexivity|]. split; [reflexivity|].
  split; [vm_compute; reflexivity|]. split; [vm_compute; reflexivity|].
  reflexivity.
Qed.

(** ** Sample values and padding *)

(** X16. The sample values read back are the values written, modulo 256
    at depth 8 and modulo 65536 at depth 16: 16-bit frames stored at depth 8
    keep only their low byte. *)
Theorem write_read_samples (m : Metadata) (frames : list ndarray)
    (ts : option (list Z)) :
  valid_metadata m = true ->
  Z.of_nat (List.length frames) = frame_count m ->
  forallb (shape_matches m) frames = true ->
  forallb well_formed frames = true ->
  valid_timestamps m ts = true ->
  exists content m' frames' ts',
    write_ser m frames ts = (Some content, Ok tt)
    /\ read_ser content = Ok (m', frames', ts')
    /\ map samples frames'
       = map (fun f => map (fun v => v mod 256 ^ itemsize (dtype_for (pixel_depth m)))
                           (samples f)) frames.
Proof.
  intros Hm Hn Hs Hw Ht.
  destruct (write_then_read_converted m Hm frames ts Hn Hs Hw Ht) as (content & H1 & H2).
  exists content. do 3 eexists. split; [exact H1|]. split; [exact H2|].
  rewrite map_map. apply map_ext. intros f. apply samples_astype.
Qed.

Lemma write_read_samples_witness :
  exists content m' frames' ts',
    write_ser MoreExamples.three_pixel_metadata MoreExamples.wide_frames None
    = (Some content, Ok tt)
    /\ read_ser content = Ok (m', frames', ts')
    /\ map samples frames'
       = map (fun f => map (fun v => v mod 256 ^ 1) (samples f))
             MoreExamples.wide_frames.
Proof.
  exact (write_read_samples MoreExamples.three_pixel_metadata
           MoreExamples.wide_frames None eq_refl eq_refl eq_refl eq_refl eq_refl).
Defined.

(** X20. A text field padded with blanks and then NULs, as other
    recorders write it, decodes to the text itself when the text has no
    padding of its own. *)
Theorem decode_field_padding (s : Str.str) (bs : list byte) (j k : nat) :
  trimmed s = true -> Str.encode s = Ok bs ->
  _decode_field (bs ++ repeat " "%byte j ++ repeat x00 k) = Ok s.
Proof. apply decode_field_padded. Qed.

Lemma decode_field_padding_witness :
  _decode_field (list_byte_of_string "Tester" ++ repeat " "%byte 30 ++ repeat x00 4)
  = Ok Examples.tester.
Proof.
  exact (decode_field_padding Examples.tester (list_byte_of_string "Tester") 30 4
           eq_refl eq_refl).
Defined.

(** ** save_frame_as_png *)

Section PngFacts.
Import Png.

Variables image warp : Type.
Variables RG GR GB BG : Z.
Variable cvtColor : ndarray -> Z -> result ndarray.
Variable split : ndarray -> result (list ndarray).
Variable eye_2_3 : warp.
Variable findTransformECC : ndarray -> ndarray -> warp -> result warp.
Variable warpAffine : ndarray -> warp -> Z * Z -> result ndarray.
Variable merge : list ndarray -> result ndarray.
Variable fromarray : ndarray -> option string -> result image.
Variable save : image -> result unit.

Let save_png :=
  save_frame_as_png image warp RG GR GB BG cvtColor split eye_2_3
                    findTransformECC warpAffine merge fromarray save.
Let align := align_channel warp eye_2_3 findTransformECC warpAffine.

(** X21. A colour id other than 0, 8, 9, 10 and 11 is refused with
    [ValueError] naming the id, before any library is called: the outcome
    does not depend on what the libraries do. *)
Theorem save_frame_as_png_unknown_color (frame : ndarray) (color_id : Z)
    (align_rgb : bool) :
  color_id <> 0 -> ~ (8 <= color_id <= 11) ->
  save_png frame color_id align_rgb
  = Failed (PngValueError ("Unsupported or unknown color_id: " ++ Str.repr_int color_id)).
Proof.
  intros H0 H. unfold save_png, save_frame_as_png, BAYER_CONVERSION_CODES.
  destruct (Z.eqb_spec color_id 8); [lia|]. destruct (Z.eqb_spec color_id 9); [lia|].
  destruct (Z.eqb_spec color_id 10); [lia|]. destruct (Z.eqb_spec color_id 11); [lia|].
  destruct (Z.eqb_spec color_id 0); [lia|]. reflexivity.
Qed.

(** X22. A monochrome frame (colour id 0) that has neither two nor three
    dimensions is refused with [ValueError], again whatever the libraries
    do. *)
Theorem save_frame_as_png_bad_dimensions (frame : ndarray) (align_rgb : bool) :
  List.length (shape frame) <> 2%nat -> List.length (shape frame) <> 3%nat ->
  save_png frame 0 align_rgb
  = Failed (PngValueError "Frame dimensions are invalid for PNG conversion.").
Proof.
  intros H2 H3. unfold save_png, save_frame_as_png, BAYER_CONVERSION_CODES, ndim.
  cbn [Z.eqb bind].
  destruct (Z.eqb_spec (Z.of_nat (List.length (shape frame))) 3); [lia|].
  rewrite andb_false_r. cbn [bind].
  destruct (Z.eqb_spec (Z.of_nat (List.length (shape frame))) 2); [lia|].
  destruct (Z.eqb_spec (Z.of_nat (List.length (shape frame))) 3); [lia|].
  reflexivity.
Qed.

(** X23. A [cv2.error] raised while aligning a channel, by
    [findTransformECC] or by [warpAffine], never leaves the alignment: the
    channel is then used as it is. Any other exception of the two calls, and
    the [IndexError] of a green channel with fewer than two dimensions, is
    passed on unchanged, and otherwise the channel is what [warpAffine]
    returned for the size [(g.shape[1], g.shape[0])]. *)
Theorem align_channel_contains_cv2_error (g c : ndarray) :
  align g c <> Failed Cv2Error
  /\ (findTransformECC g c eye_2_3 = Failed Cv2Error -> align g c = Returned c)
  /\ (forall f, f <> Cv2Error ->
        findTransformECC g c eye_2_3 = Failed f -> align g c = Failed f)
  /\ (forall w, findTransformECC g c eye_2_3 = Returned w ->
        ((List.length (shape g) < 2)%nat -> align g c = Failed IndexError)
        /\ (forall s0 s1 sh, shape g = s0 :: s1 :: sh ->
              (warpAffine c w (s1, s0) = Failed Cv2Error -> align g c = Returned c)
              /\ (forall f, f <> Cv2Error ->
                    warpAffine c w (s1, s0) = Failed f -> align g c = Failed f)
              /\ (forall a, warpAffine c w (s1, s0) = Returned a ->
                    align g c = Returned a))).
Proof.
  unfold align, align_channel. split; [|split; [|split]].
  - destruct (findTransformECC g c eye_2_3) as [w|f0]; cbn [bind].
    + destruct (shape g) as [|s0 [|s1 sh]]; cbn [bind]; try discriminate.
      destruct (warpAffine c w (s1, s0)) as [a|f1]; [discriminate|].
      destruct f1; discriminate.
    + destruct f0; discriminate.
  - intros ->. reflexivity.
  - intros f Hf ->. cbn [bind]. destruct f; [reflexivity|contradiction|reflexivity..].
  - intros w ->. cbn [bind]. split.
    + destruct (shape g) as [|s0 [|s1 sh]]; cbn [bind List.length]; [reflexivity..|lia].
    + intros s0 s1 sh ->. cbn [bind]. split; [|split].
      * intros ->. reflexivity.
      * intros f Hf ->. destruct f; [reflexivity|contradiction|reflexivity..].
      * intros a ->. reflexivity.
Qed.

End PngFacts.

Lemma save_frame_as_png_unknown_color_witness :
  Png.save_frame_as_png ndarray unit 46 47 48 49 Png.no_cvtColor Png.rgb_split tt
    Png.no_ECC Png.no_warp Png.first_merge Png.array_image Png.save_ok
    (Examples.ramp8 1 1 1) 12 true
  = Png.Failed (Png.PngValueError "Unsupported or unknown color_id: 12").
Proof.
  refine (save_frame_as_png_unknown_color ndarray unit 46 47 48 49 Png.no_cvtColor
            Png.rgb_split tt Png.no_ECC Png.no_warp Png.first_merge Png.array_image
            Png.save_ok (Examples.ramp8 1 1 1) 12 true _ _); lia.
Defined.

Lemma save_frame_as_png_bad_dimensions_witness :
  Png.save_frame_as_png ndarray unit 46 47 48 49 Png.no_cvtColor Png.rgb_split tt
    Png.no_ECC Png.no_warp Png.first_merge Png.array_image Png.save_ok
    {| arr_dtype := uint8; shape := [4]; buffer := [x01; x02; x03; x04] |} 0 true
  = Png.Failed (Png.PngValueError "Frame dimensions are invalid for PNG conversion.").
Proof.
  refine (save_frame_as_png_bad_dimensions ndarray unit 46 47 48 49 Png.no_cvtColor
            Png.rgb_split tt Png.no_ECC Png.no_warp Png.first_merge Png.array_image
            Png.save_ok _ true _ _); cbn; lia.
Defined.

Lemma align_channel_contains_cv2_error_witness :
  Png.align_channel unit tt Png.no_ECC Png.no_warp
    (Examples.ramp8 2 2 1) (Examples.ramp8 2 2 5)
  = Png.Returned (Examples.ramp8 2 2 5)
  /\ Png.align_channel unit tt Png.unit_ECC Png.no_warp
       (Examples.ramp8 2 2 1) (Examples.ramp8 2 2 5)
     = Png.Returned (Examples.ramp8 2 2 5).
Proof.
  split.
  - apply (proj1 (proj2 (align_channel_contains_cv2_error unit tt Png.no_ECC
                           Png.no_warp (Examples.ramp8 2 2 1) (Examples.ramp8 2 2 5)))).
    reflexivity.
  - apply (proj1 (proj2 (proj2 (proj2 (proj2 (align_channel_contains_cv2_error unit tt
             Png.unit_ECC Png.no_warp (Examples.ramp8 2 2 1) (Examples.ramp8 2 2 5))))
             tt eq_refl) 2 2 [] eq_refl)).
    reflexivity.
Defined.
